(** * Text-utilities tool server: a shallow embedding of [call_tool]

    The Python program [mcp_starter.py] registers seven tools and one
    dispatcher, [call_tool(name, arguments)], that returns one text block
    per invocation.  This development embeds the dispatcher and the
    library functions it calls, and proves the properties its
    specification states about them.

    Conventions.
    - A Python [str] is the list of its code points ([pystr]); [bytes] is
      a list of numbers below 256 ([pybytes]).
    - A JSON argument is a [value]; the argument mapping is a finite map
      from field names to values.
    - Python exceptions are explicit: a computation returns [Ok v] or
      [Raise e], and [try ... except Exception] is [catch].
    - String methods follow CPython 3.11 (Unicode 14.0.0).  The case
      mappings [str.upper] and [str.lower] are embedded from the Unicode
      character database; the properties Cased and Case_Ignorable, the
      title-case mapping, float formatting, the extraction regular
      expressions, set iteration order and the random source are
      parameters of the model ([runtime]). *)

From Stdlib Require Import NArith ZArith List String Ascii Lia Bool.
From Stdlib Require Import DecimalString.
From stdpp Require Import base option gmap strings.
Import ListNotations.

Local Open Scope N_scope.

(** ** Python values, strings and exceptions *)

Module Py.

Definition codepoint := N.
Definition pystr := list N.
Definition pybytes := list N.

(** An ASCII literal of the source, as code points. *)
Fixpoint lit (s : string) : pystr :=
  match s with
  | EmptyString => []
  | String a s' => N_of_ascii a :: lit s'
  end.

Definition LF : N := 10.
Definition TAB : N := 9.
Definition nl : pystr := [LF].

(** The JSON values a caller can put into [arguments]. *)
Inductive value :=
| VNone
| VBool (b : bool)
| VInt (z : Z)
| VStr (s : pystr).

Inductive exn :=
| AttributeError
| TypeError
| ValueError
| BinasciiError
| UnicodeEncodeError
| UnicodeDecodeError
| ZeroDivisionError.

Inductive result (A : Type) :=
| Ok (a : A)
| Raise (e : exn).
Arguments Ok {A} a.
Arguments Raise {A} e.

#[global] Instance result_ret : MRet result := fun A a => Ok a.
#[global] Instance result_bind : MBind result := fun A B f m =>
  match m with
  | Ok a => f a
  | Raise e => Raise e
  end.

(** [try: m except Exception as e: h e] *)
Definition catch {A} (m : result A) (h : exn -> result A) : result A :=
  match m with
  | Ok a => Ok a
  | Raise e => h e
  end.

(** [bool(v)] *)
Definition truthy (v : value) : bool :=
  match v with
  | VNone => false
  | VBool b => b
  | VInt z => negb (z =? 0)%Z
  | VStr s => match s with [] => false | _ => true end
  end.

(** A method of [str] looked up on [v]: any other value has no such
    attribute. *)
Definition as_str (v : value) : result pystr :=
  match v with
  | VStr s => Ok s
  | _ => Raise AttributeError
  end.

(** [v[:n]]: only a string can be sliced. *)
Definition slice_to (n : nat) (v : value) : result pystr :=
  match v with
  | VStr s => Ok (firstn n s)
  | _ => Raise TypeError
  end.

(** [len(v)] *)
Definition len_value (v : value) : result nat :=
  match v with
  | VStr s => Ok (List.length s)
  | _ => Raise TypeError
  end.

(** [v == s] for a string [s]: equality of the code point sequences,
    and [False] for a value of another type. *)
Definition eq_str (v : value) (s : pystr) : bool :=
  match v with
  | VStr t => bool_decide (t = s)
  | _ => false
  end.

(** The integer an ordering comparison sees: [bool] is a subclass of
    [int]; [None] and [str] do not compare with an [int]. *)
Definition as_int (v : value) : result Z :=
  match v with
  | VInt z => Ok z
  | VBool b => Ok (if b then 1 else 0)%Z
  | _ => Raise TypeError
  end.

(** *** Whitespace, [strip], [split], [replace], [join] *)

(** [str.isspace] on one character (also [\s] of [re]). *)
Definition isspace (c : N) : bool :=
  ((9 <=? c) && (c <=? 13)) || ((28 <=? c) && (c <=? 32))
  || (c =? 0x85) || (c =? 0xA0) || (c =? 0x1680)
  || ((0x2000 <=? c) && (c <=? 0x200A))
  || (c =? 0x2028) || (c =? 0x2029) || (c =? 0x202F) || (c =? 0x205F)
  || (c =? 0x3000).

Fixpoint dropwhile (p : N -> bool) (s : pystr) : pystr :=
  match s with
  | [] => []
  | c :: s' => if p c then dropwhile p s' else s
  end.

Definition lstrip_by (p : N -> bool) (s : pystr) : pystr := dropwhile p s.
Definition rstrip_by (p : N -> bool) (s : pystr) : pystr :=
  rev (dropwhile p (rev s)).
Definition strip_by (p : N -> bool) (s : pystr) : pystr :=
  rstrip_by p (lstrip_by p s).

(** [s.strip()] *)
Definition strip (s : pystr) : pystr := strip_by isspace s.
(** [s.strip(chars)] *)
Definition strip_chars (chars : pystr) (s : pystr) : pystr :=
  strip_by (fun c => existsb (N.eqb c) chars) s.

(** [not s.strip()] *)
Definition blank (s : pystr) : bool :=
  match strip s with [] => true | _ => false end.

(** The maximal runs of characters satisfying [p], left to right;
    [cur] is the run being read, reversed. *)
Fixpoint runs_from (p : N -> bool) (cur : pystr) (s : pystr) : list pystr :=
  match s with
  | [] => match cur with [] => [] | _ => [rev cur] end
  | c :: s' =>
      if p c then runs_from p (c :: cur) s'
      else match cur with
           | [] => runs_from p [] s'
           | _ => rev cur :: runs_from p [] s'
           end
  end.
Definition runs (p : N -> bool) (s : pystr) : list pystr := runs_from p [] s.

(** [s.split()]: the maximal runs of non-whitespace. *)
Definition split_ws (s : pystr) : list pystr :=
  runs (fun c => negb (isspace c)) s.

Fixpoint is_prefix (p s : pystr) : bool :=
  match p, s with
  | [], _ => true
  | a :: p', b :: s' => (a =? b) && is_prefix p' s'
  | _ :: _, [] => false
  end.

Definition cons_head (c : N) (l : list pystr) : list pystr :=
  match l with
  | h :: t => (c :: h) :: t
  | [] => [[c]]
  end.

(** [s.split(sep)] for a non-empty [sep]: scan left to right; [skip]
    counts the characters of a separator already matched. *)
Fixpoint split_from (sep : pystr) (skip : nat) (s : pystr) : list pystr :=
  match s with
  | [] => [[]]
  | c :: s' =>
      match skip with
      | S k => split_from sep k s'
      | O => if is_prefix sep s
             then [] :: split_from sep (List.length sep - 1) s'
             else cons_head c (split_from sep 0 s')
      end
  end.
Definition split (sep : pystr) (s : pystr) : list pystr := split_from sep 0 s.

(** [s.replace(old, new)] for a non-empty [old]. *)
Fixpoint replace_from (old new : pystr) (skip : nat) (s : pystr) : pystr :=
  match s with
  | [] => []
  | c :: s' =>
      match skip with
      | S k => replace_from old new k s'
      | O => if is_prefix old s
             then new ++ replace_from old new (List.length old - 1) s'
             else c :: replace_from old new 0 s'
      end
  end.
Definition replace (old new : pystr) (s : pystr) : pystr :=
  replace_from old new 0 s.

(** [sep.join(parts)] *)
Fixpoint join (sep : pystr) (parts : list pystr) : pystr :=
  match parts with
  | [] => []
  | [p] => p
  | p :: rest => p ++ sep ++ join sep rest
  end.

(** [c in s] *)
Definition contains (s : pystr) (c : N) : bool := existsb (N.eqb c) s.

(** The code points from [lo] to [hi]. *)
Definition codes (lo hi : N) : list N :=
  map N.of_nat (seq (N.to_nat lo) (N.to_nat hi + 1 - N.to_nat lo)).

End Py.

(** ** Case mappings of the Unicode character database *)

Module Unicode.
Import Py.

(** A run [(start, count, stride, image)] maps the code points
    [start + stride * k], [k < count], to [image + stride * k]. *)
Definition case_run := (N * N * N * N)%type.

Definition in_run (c : N) (r : case_run) : bool :=
  let '(start, count, stride, _) := r in
  (start <=? c) && ((c - start) mod stride =? 0)
  && ((c - start) / stride <? count).

Definition run_image (c : N) (r : case_run) : N :=
  let '(start, _, _, image) := r in image + (c - start).

(** The full case mapping of one code point: an entry of [special]
    (SpecialCasing, several code points), else a run of the simple
    mapping, else the code point itself. *)
Definition case_map (rs : list case_run) (special : list (N * list N))
    (c : N) : list N :=
  match find (fun e => fst e =? c) special with
  | Some e => snd e
  | None =>
      match find (in_run c) rs with
      | Some r => [run_image c r]
      | None => [c]
      end
  end.

(** The two mappings of Unicode 14.0.0, as [str.upper] and [str.lower]
    of CPython 3.11 give them on single characters. *)
Definition upper_runs : list case_run := [
  (97,26,1,65); (181,1,1,924); (224,23,1,192); (248,7,1,216); (255,1,1,376);
  (257,24,2,256); (305,1,1,73); (307,3,2,306); (314,8,2,313); (331,23,2,330);
  (378,3,2,377); (383,1,1,83); (384,1,1,579); (387,2,2,386); (392,1,1,391);
  (396,1,1,395); (402,1,1,401); (405,1,1,502); (409,1,1,408); (410,1,1,573);
  (414,1,1,544); (417,3,2,416); (424,1,1,423); (429,1,1,428); (432,1,1,431);
  (436,2,2,435); (441,1,1,440); (445,1,1,444); (447,1,1,503); (453,1,1,452);
  (454,1,1,452); (456,1,1,455); (457,1,1,455); (459,1,1,458); (460,1,1,458);
  (462,8,2,461); (477,1,1,398); (479,9,2,478); (498,1,1,497); (499,1,1,497);
  (501,1,1,500); (505,20,2,504); (547,9,2,546); (572,1,1,571);
  (575,2,1,11390); (578,1,1,577); (583,5,2,582); (592,1,1,11375);
  (593,1,1,11373); (594,1,1,11376); (595,1,1,385); (596,1,1,390);
  (598,2,1,393); (601,1,1,399); (603,1,1,400); (604,1,1,42923);
  (608,1,1,403); (609,1,1,42924); (611,1,1,404); (613,1,1,42893);
  (614,1,1,42922); (616,1,1,407); (617,1,1,406); (618,1,1,42926);
  (619,1,1,11362); (620,1,1,42925); (623,1,1,412); (625,1,1,11374);
  (626,1,1,413); (629,1,1,415); (637,1,1,11364); (640,1,1,422);
  (642,1,1,42949); (643,1,1,425); (647,1,1,42929); (648,1,1,430);
  (649,1,1,580); (650,2,1,433); (652,1,1,581); (658,1,1,439);
  (669,1,1,42930); (670,1,1,42928); (837,1,1,921); (881,2,2,880);
  (887,1,1,886); (891,3,1,1021); (940,1,1,902); (941,3,1,904);
  (945,17,1,913); (962,1,1,931); (963,9,1,931); (972,1,1,908); (973,2,1,910);
  (976,1,1,914); (977,1,1,920); (981,1,1,934); (982,1,1,928); (983,1,1,975);
  (985,12,2,984); (1008,1,1,922); (1009,1,1,929); (1010,1,1,1017);
  (1011,1,1,895); (1013,1,1,917); (1016,1,1,1015); (1019,1,1,1018);
  (1072,32,1,1040); (1104,16,1,1024); (1121,17,2,1120); (1163,27,2,1162);
  (1218,7,2,1217); (1231,1,1,1216); (1233,48,2,1232); (1377,38,1,1329);
  (4304,43,1,7312); (4349,3,1,7357); (5112,6,1,5104); (7296,1,1,1042);
  (7297,1,1,1044); (7298,1,1,1054); (7299,2,1,1057); (7301,1,1,1058);
  (7302,1,1,1066); (7303,1,1,1122); (7304,1,1,42570); (7545,1,1,42877);
  (7549,1,1,11363); (7566,1,1,42950); (7681,75,2,7680); (7835,1,1,7776);
  (7841,48,2,7840); (7936,8,1,7944); (7952,6,1,7960); (7968,8,1,7976);
  (7984,8,1,7992); (8000,6,1,8008); (8017,4,2,8025); (8032,8,1,8040);
  (8048,2,1,8122); (8050,4,1,8136); (8054,2,1,8154); (8056,2,1,8184);
  (8058,2,1,8170); (8060,2,1,8186); (8112,2,1,8120); (8126,1,1,921);
  (8144,2,1,8152); (8160,2,1,8168); (8165,1,1,8172); (8526,1,1,8498);
  (8560,16,1,8544); (8580,1,1,8579); (9424,26,1,9398); (11312,48,1,11264);
  (11361,1,1,11360); (11365,1,1,570); (11366,1,1,574); (11368,3,2,11367);
  (11379,1,1,11378); (11382,1,1,11381); (11393,50,2,11392);
  (11500,2,2,11499); (11507,1,1,11506); (11520,38,1,4256); (11559,1,1,4295);
  (11565,1,1,4301); (42561,23,2,42560); (42625,14,2,42624);
  (42787,7,2,42786); (42803,31,2,42802); (42874,2,2,42873);
  (42879,5,2,42878); (42892,1,1,42891); (42897,2,2,42896); (42900,1,1,42948);
  (42903,10,2,42902); (42933,8,2,42932); (42952,2,2,42951);
  (42961,1,1,42960); (42967,2,2,42966); (42998,1,1,42997); (43859,1,1,42931);
  (43888,80,1,5024); (65345,26,1,65313); (66600,40,1,66560);
  (66776,36,1,66736); (66967,11,1,66928); (66979,15,1,66940);
  (66995,7,1,66956); (67003,2,1,66964); (68800,51,1,68736);
  (71872,32,1,71840); (93792,32,1,93760); (125218,34,1,125184)].

Definition upper_special : list (N * list N) := [
  (223,[83;83]); (329,[700;78]); (496,[74;780]); (912,[921;776;769]);
  (944,[933;776;769]); (1415,[1333;1362]); (7830,[72;817]); (7831,[84;776]);
  (7832,[87;778]); (7833,[89;778]); (7834,[65;702]); (8016,[933;787]);
  (8018,[933;787;768]); (8020,[933;787;769]); (8022,[933;787;834]);
  (8064,[7944;921]); (8065,[7945;921]); (8066,[7946;921]); (8067,[7947;921]);
  (8068,[7948;921]); (8069,[7949;921]); (8070,[7950;921]); (8071,[7951;921]);
  (8072,[7944;921]); (8073,[7945;921]); (8074,[7946;921]); (8075,[7947;921]);
  (8076,[7948;921]); (8077,[7949;921]); (8078,[7950;921]); (8079,[7951;921]);
  (8080,[7976;921]); (8081,[7977;921]); (8082,[7978;921]); (8083,[7979;921]);
  (8084,[7980;921]); (8085,[7981;921]); (8086,[7982;921]); (8087,[7983;921]);
  (8088,[7976;921]); (8089,[7977;921]); (8090,[7978;921]); (8091,[7979;921]);
  (8092,[7980;921]); (8093,[7981;921]); (8094,[7982;921]); (8095,[7983;921]);
  (8096,[8040;921]); (8097,[8041;921]); (8098,[8042;921]); (8099,[8043;921]);
  (8100,[8044;921]); (8101,[8045;921]); (8102,[8046;921]); (8103,[8047;921]);
  (8104,[8040;921]); (8105,[8041;921]); (8106,[8042;921]); (8107,[8043;921]);
  (8108,[8044;921]); (8109,[8045;921]); (8110,[8046;921]); (8111,[8047;921]);
  (8114,[8122;921]); (8115,[913;921]); (8116,[902;921]); (8118,[913;834]);
  (8119,[913;834;921]); (8124,[913;921]); (8130,[8138;921]);
  (8131,[919;921]); (8132,[905;921]); (8134,[919;834]); (8135,[919;834;921]);
  (8140,[919;921]); (8146,[921;776;768]); (8147,[921;776;769]);
  (8150,[921;834]); (8151,[921;776;834]); (8162,[933;776;768]);
  (8163,[933;776;769]); (8164,[929;787]); (8166,[933;834]);
  (8167,[933;776;834]); (8178,[8186;921]); (8179,[937;921]);
  (8180,[911;921]); (8182,[937;834]); (8183,[937;834;921]); (8188,[937;921]);
  (64256,[70;70]); (64257,[70;73]); (64258,[70;76]); (64259,[70;70;73]);
  (64260,[70;70;76]); (64261,[83;84]); (64262,[83;84]); (64275,[1348;1350]);
  (64276,[1348;1333]); (64277,[1348;1339]); (64278,[1358;1350]);
  (64279,[1348;1341])].

Definition lower_runs : list case_run := [
  (65,26,1,97); (192,23,1,224); (216,7,1,248); (256,24,2,257); (306,3,2,307);
  (313,8,2,314); (330,23,2,331); (376,1,1,255); (377,3,2,378); (385,1,1,595);
  (386,2,2,387); (390,1,1,596); (391,1,1,392); (393,2,1,598); (395,1,1,396);
  (398,1,1,477); (399,1,1,601); (400,1,1,603); (401,1,1,402); (403,1,1,608);
  (404,1,1,611); (406,1,1,617); (407,1,1,616); (408,1,1,409); (412,1,1,623);
  (413,1,1,626); (415,1,1,629); (416,3,2,417); (422,1,1,640); (423,1,1,424);
  (425,1,1,643); (428,1,1,429); (430,1,1,648); (431,1,1,432); (433,2,1,650);
  (435,2,2,436); (439,1,1,658); (440,1,1,441); (444,1,1,445); (452,1,1,454);
  (453,1,1,454); (455,1,1,457); (456,1,1,457); (458,1,1,460); (459,9,2,460);
  (478,9,2,479); (497,1,1,499); (498,2,2,499); (502,1,1,405); (503,1,1,447);
  (504,20,2,505); (544,1,1,414); (546,9,2,547); (570,1,1,11365);
  (571,1,1,572); (573,1,1,410); (574,1,1,11366); (577,1,1,578);
  (579,1,1,384); (580,1,1,649); (581,1,1,652); (582,5,2,583); (880,2,2,881);
  (886,1,1,887); (895,1,1,1011); (902,1,1,940); (904,3,1,941); (908,1,1,972);
  (910,2,1,973); (913,17,1,945); (931,9,1,963); (975,1,1,983);
  (984,12,2,985); (1012,1,1,952); (1015,1,1,1016); (1017,1,1,1010);
  (1018,1,1,1019); (1021,3,1,891); (1024,16,1,1104); (1040,32,1,1072);
  (1120,17,2,1121); (1162,27,2,1163); (1216,1,1,1231); (1217,7,2,1218);
  (1232,48,2,1233); (1329,38,1,1377); (4256,38,1,11520); (4295,1,1,11559);
  (4301,1,1,11565); (5024,80,1,43888); (5104,6,1,5112); (7312,43,1,4304);
  (7357,3,1,4349); (7680,75,2,7681); (7838,1,1,223); (7840,48,2,7841);
  (7944,8,1,7936); (7960,6,1,7952); (7976,8,1,7968); (7992,8,1,7984);
  (8008,6,1,8000); (8025,4,2,8017); (8040,8,1,8032); (8072,8,1,8064);
  (8088,8,1,8080); (8104,8,1,8096); (8120,2,1,8112); (8122,2,1,8048);
  (8124,1,1,8115); (8136,4,1,8050); (8140,1,1,8131); (8152,2,1,8144);
  (8154,2,1,8054); (8168,2,1,8160); (8170,2,1,8058); (8172,1,1,8165);
  (8184,2,1,8056); (8186,2,1,8060); (8188,1,1,8179); (8486,1,1,969);
  (8490,1,1,107); (8491,1,1,229); (8498,1,1,8526); (8544,16,1,8560);
  (8579,1,1,8580); (9398,26,1,9424); (11264,48,1,11312); (11360,1,1,11361);
  (11362,1,1,619); (11363,1,1,7549); (11364,1,1,637); (11367,3,2,11368);
  (11373,1,1,593); (11374,1,1,625); (11375,1,1,592); (11376,1,1,594);
  (11378,1,1,11379); (11381,1,1,11382); (11390,2,1,575); (11392,50,2,11393);
  (11499,2,2,11500); (11506,1,1,11507); (42560,23,2,42561);
  (42624,14,2,42625); (42786,7,2,42787); (42802,31,2,42803);
  (42873,2,2,42874); (42877,1,1,7545); (42878,5,2,42879); (42891,1,1,42892);
  (42893,1,1,613); (42896,2,2,42897); (42902,10,2,42903); (42922,1,1,614);
  (42923,1,1,604); (42924,1,1,609); (42925,1,1,620); (42926,1,1,618);
  (42928,1,1,670); (42929,1,1,647); (42930,1,1,669); (42931,1,1,43859);
  (42932,8,2,42933); (42948,1,1,42900); (42949,1,1,642); (42950,1,1,7566);
  (42951,2,2,42952); (42960,1,1,42961); (42966,2,2,42967); (42997,1,1,42998);
  (65313,26,1,65345); (66560,40,1,66600); (66736,36,1,66776);
  (66928,11,1,66967); (66940,15,1,66979); (66956,7,1,66995);
  (66964,2,1,67003); (68736,51,1,68800); (71840,32,1,71872);
  (93760,32,1,93792); (125184,34,1,125218)].

Definition lower_special : list (N * list N) := [
  (304,[105;775])].

(** The code points of a run, and a test of every code point a table
    maps to. *)
Definition run_codes (r : case_run) : list N :=
  let '(start, count, stride, _) := r in
  map (fun k => start + stride * N.of_nat k) (seq 0 (N.to_nat count)).

Definition run_stride (r : case_run) : N :=
  let '(_, _, stride, _) := r in stride.

Definition images_all (rs : list case_run) (special : list (N * list N))
    (P : N -> bool) : bool :=
  forallb (fun e => forallb P (snd e)) special
  && forallb (fun r => negb (run_stride r =? 0)
                       && forallb (fun c => P (run_image c r)) (run_codes r))
       rs.

(** [_PyUnicode_ToUpperFull] and [_PyUnicode_ToLowerFull] *)
Definition to_upper (c : N) : list N := case_map upper_runs upper_special c.
Definition to_lower (c : N) : list N := case_map lower_runs lower_special c.

(** The properties of the character database the case conversions
    consult besides the two mappings above. *)
Record ucd := {
  cased : N -> bool;            (* _PyUnicode_IsCased *)
  case_ignorable : N -> bool;   (* _PyUnicode_IsCaseIgnorable *)
  to_title : N -> list N        (* _PyUnicode_ToTitleFull *)
}.

Definition SIGMA : N := 0x3A3.

(** [handle_capital_sigma]: the capital sigma at position [i] becomes a
    final sigma when a cased letter precedes it and none follows,
    case-ignorable characters apart.  [before] is [data[:i]] reversed,
    [after] is [data[i+1:]]. *)
Definition handle_capital_sigma (U : ucd) (before after : pystr) : N :=
  let final_sigma :=
    match dropwhile (case_ignorable U) before with
    | c :: _ => cased U c
    | [] => false
    end in
  let final_sigma :=
    final_sigma &&
    match dropwhile (case_ignorable U) after with
    | c :: _ => negb (cased U c)
    | [] => true
    end in
  if final_sigma then 0x3C2 else 0x3C3.

(** A character that is its own upper case; one that is its own lower
    case and not the capital sigma. *)
Definition upper_fixed (d : N) : bool := bool_decide (to_upper d = [d]).
Definition lower_fixed (d : N) : bool :=
  negb (d =? SIGMA) && bool_decide (to_lower d = [d]).

(** [lower_ucs4] *)
Definition lower_ucs4 (U : ucd) (before : pystr) (c : N) (after : pystr)
    : list N :=
  if c =? SIGMA then [handle_capital_sigma U before after] else to_lower c.

(** [s.upper()] *)
Definition upper (s : pystr) : pystr := flat_map to_upper s.

Fixpoint lower_from (U : ucd) (before : pystr) (s : pystr) : pystr :=
  match s with
  | [] => []
  | c :: s' => lower_ucs4 U before c s' ++ lower_from U (c :: before) s'
  end.
(** [s.lower()] *)
Definition lower (U : ucd) (s : pystr) : pystr := lower_from U [] s.

(** [s.capitalize()] *)
Definition capitalize (U : ucd) (s : pystr) : pystr :=
  match s with
  | [] => []
  | c :: s' => to_title U c ++ lower_from U [c] s'
  end.

Fixpoint title_from (U : ucd) (previous_is_cased : bool) (before : pystr)
    (s : pystr) : pystr :=
  match s with
  | [] => []
  | c :: s' =>
      (if previous_is_cased then lower_ucs4 U before c s' else to_title U c)
      ++ title_from U (cased U c) (c :: before) s'
  end.
(** [s.title()] *)
Definition title (U : ucd) (s : pystr) : pystr := title_from U false [] s.

End Unicode.

(** ** The regular expressions applied with [re.sub] and [re.findall]

    Each pattern of the source that is a repetition of one character
    class is embedded as a function on code points. *)

Module Re.
Import Py.

Definition in_range (lo hi c : N) : bool := (lo <=? c) && (c <=? hi).

(** [[a-zA-Z0-9]] *)
Definition alnum (c : N) : bool :=
  in_range 97 122 c || in_range 65 90 c || in_range 48 57 c.
(** [[^a-zA-Z0-9]] *)
Definition not_alnum (c : N) : bool := negb (alnum c).
(** [[^a-zA-Z0-9\s]] *)
Definition not_alnum_space (c : N) : bool := negb (alnum c || isspace c).
(** [[.!?]] *)
Definition terminal (c : N) : bool := (c =? 46) || (c =? 33) || (c =? 63).
Definition is_char (a c : N) : bool := c =? a.

(** [re.findall(r'[class]+', s)] *)
Definition findall_plus (p : N -> bool) (s : pystr) : list pystr := runs p s.

(** [re.sub(r'[class]', repl, s)] *)
Definition sub_each (p : N -> bool) (repl : pystr) (s : pystr) : pystr :=
  flat_map (fun c => if p c then repl else [c]) s.

(** [re.sub(r'[class]+', repl, s)]; [inrun] tells that the previous
    character belonged to a run already replaced. *)
Fixpoint sub_plus_from (p : N -> bool) (repl : pystr) (inrun : bool)
    (s : pystr) : pystr :=
  match s with
  | [] => []
  | c :: s' =>
      if p c then
        if inrun then sub_plus_from p repl true s'
        else repl ++ sub_plus_from p repl true s'
      else c :: sub_plus_from p repl false s'
  end.
Definition sub_plus (p : N -> bool) (repl : pystr) (s : pystr) : pystr :=
  sub_plus_from p repl false s.

(** [re.sub(r'\n{3,}', '\n\n', s)]; [n] newlines are pending. *)
Fixpoint sub_newlines_from (n : nat) (s : pystr) : pystr :=
  match s with
  | [] => repeat LF (Nat.min n 2)
  | c :: s' =>
      if c =? LF then sub_newlines_from (S n) s'
      else repeat LF (Nat.min n 2) ++ c :: sub_newlines_from 0 s'
  end.
Definition sub_newlines (s : pystr) : pystr := sub_newlines_from 0 s.

End Re.

(** ** Formatting integers *)

Module Fmt.
Import Py.

(** [str(n)] for [n >= 0] *)
Definition str_nat (n : nat) : pystr :=
  lit (NilEmpty.string_of_uint (Nat.to_uint n)).

(** [str(z)] *)
Definition str_int (z : Z) : pystr :=
  if (z <? 0)%Z then 45 :: str_nat (Z.abs_nat z) else str_nat (Z.abs_nat z).

(** A comma before every group of three digits, read from the right;
    [k] digits of the current group are out. *)
Fixpoint group3 (k : nat) (ds : pystr) : pystr :=
  match ds with
  | [] => []
  | d :: ds' =>
      match k with
      | 3%nat => 44 :: d :: group3 1 ds'
      | _ => d :: group3 (S k) ds'
      end
  end.

(** [f"{n:,}"] for [n >= 0] *)
Definition comma (n : nat) : pystr := rev (group3 0 (rev (str_nat n))).

End Fmt.

(** ** UTF-8 ([str.encode('utf-8')], [bytes.decode('utf-8')]) *)

Module Utf8.
Import Py.

Definition surrogate (ch : N) : bool := (0xD800 <=? ch) && (ch <=? 0xDFFF).

(** The bytes of one code point, or [None] for a surrogate. *)
Definition encode_char (ch : N) : option pybytes :=
  if ch <? 0x80 then Some [ch]
  else if ch <? 0x800 then
    Some [N.lor 0xC0 (N.shiftr ch 6); N.lor 0x80 (N.land ch 0x3F)]
  else if surrogate ch then None
  else if ch <? 0x10000 then
    Some [N.lor 0xE0 (N.shiftr ch 12);
          N.lor 0x80 (N.land (N.shiftr ch 6) 0x3F);
          N.lor 0x80 (N.land ch 0x3F)]
  else
    Some [N.lor 0xF0 (N.shiftr ch 18);
          N.lor 0x80 (N.land (N.shiftr ch 12) 0x3F);
          N.lor 0x80 (N.land (N.shiftr ch 6) 0x3F);
          N.lor 0x80 (N.land ch 0x3F)].

(** [s.encode('utf-8')] (error handler [strict]) *)
Fixpoint encode (s : pystr) : result pybytes :=
  match s with
  | [] => Ok []
  | ch :: s' =>
      match encode_char ch with
      | None => Raise UnicodeEncodeError
      | Some bs => rest ← encode s'; Ok (bs ++ rest)
      end
  end.

Definition continuation (b : N) : bool := (0x80 <=? b) && (b <? 0xC0).

Definition prepend (ch : N) (r : result pystr) : result pystr :=
  s ← r; Ok (ch :: s).

(** [b.decode('utf-8')] (error handler [strict]), as the decoder of
    CPython reads it: the lead byte gives the length, the second byte
    is checked against overlong forms, surrogates and code points above
    0x10FFFF. *)
Fixpoint decode (b : pybytes) : result pystr :=
  match b with
  | [] => Ok []
  | ch :: b1 =>
      if ch <? 0x80 then prepend ch (decode b1)
      else if ch <? 0xC2 then Raise UnicodeDecodeError
      else if ch <? 0xE0 then
        match b1 with
        | ch2 :: b2 =>
            if negb (continuation ch2) then Raise UnicodeDecodeError
            else prepend (N.shiftl ch 6 + ch2 - (N.shiftl 0xC0 6 + 0x80))
                   (decode b2)
        | _ => Raise UnicodeDecodeError
        end
      else if ch <? 0xF0 then
        match b1 with
        | ch2 :: ch3 :: b3 =>
            if negb (continuation ch2)
               || (if ch2 <? 0xA0 then ch =? 0xE0 else ch =? 0xED)
            then Raise UnicodeDecodeError
            else if negb (continuation ch3) then Raise UnicodeDecodeError
            else prepend (N.shiftl ch 12 + N.shiftl ch2 6 + ch3
                          - (N.shiftl 0xE0 12 + N.shiftl 0x80 6 + 0x80))
                   (decode b3)
        | _ => Raise UnicodeDecodeError
        end
      else if ch <? 0xF5 then
        match b1 with
        | ch2 :: ch3 :: ch4 :: b4 =>
            if negb (continuation ch2)
               || (if ch2 <? 0x90 then ch =? 0xF0 else ch =? 0xF4)
            then Raise UnicodeDecodeError
            else if negb (continuation ch3) then Raise UnicodeDecodeError
            else if negb (continuation ch4) then Raise UnicodeDecodeError
            else prepend (N.shiftl ch 18 + N.shiftl ch2 12 + N.shiftl ch3 6
                          + ch4
                          - (N.shiftl 0xF0 18 + N.shiftl 0x80 12
                             + N.shiftl 0x80 6 + 0x80))
                   (decode b4)
        | _ => Raise UnicodeDecodeError
        end
      else Raise UnicodeDecodeError
  end.

End Utf8.

(** ** Base64 ([base64.b64encode], [base64.b64decode]) *)

Module Base64.
Import Py.

Definition PAD : N := 61.

(** [table_b2a_base64] *)
Definition alphabet : pystr :=
  lit "ABCDEFGHIJKLMNOPQRSTUVWXYZabcdefghijklmnopqrstuvwxyz0123456789+/".

Definition b2a (v : N) : N := nth (N.to_nat v) alphabet 0.

(** [table_a2b_base64]: the value of a character of the alphabet. *)
Definition a2b (c : N) : option N :=
  if Re.in_range 65 90 c then Some (c - 65)
  else if Re.in_range 97 122 c then Some (c - 97 + 26)
  else if Re.in_range 48 57 c then Some (c - 48 + 52)
  else if c =? 43 then Some 62
  else if c =? 47 then Some 63
  else None.

(** [base64.b64encode(bin)]: three bytes give four characters; one or
    two remaining bytes are padded with [=]. *)
Fixpoint b64encode (bin : pybytes) : pybytes :=
  match bin with
  | [] => []
  | [b0] =>
      [b2a (N.shiftr b0 2); b2a (N.shiftl (N.land b0 3) 4); PAD; PAD]
  | [b0; b1] =>
      [b2a (N.shiftr b0 2);
       b2a (N.lor (N.shiftl (N.land b0 3) 4) (N.shiftr b1 4));
       b2a (N.shiftl (N.land b1 0xF) 2); PAD]
  | b0 :: b1 :: b2 :: rest =>
      b2a (N.shiftr b0 2)
      :: b2a (N.lor (N.shiftl (N.land b0 3) 4) (N.shiftr b1 4))
      :: b2a (N.lor (N.shiftl (N.land b1 0xF) 2) (N.shiftr b2 6))
      :: b2a (N.land b2 0x3F)
      :: b64encode rest
  end.

(** The four six-bit values of three bytes. *)
Definition sextet0 (b0 : N) : N := N.shiftr b0 2.
Definition sextet1 (b0 b1 : N) : N :=
  N.lor (N.shiftl (N.land b0 3) 4) (N.shiftr b1 4).
Definition sextet2 (b1 b2 : N) : N :=
  N.lor (N.shiftl (N.land b1 0xF) 2) (N.shiftr b2 6).
Definition sextet3 (b2 : N) : N := N.land b2 0x3F.

(** The six-bit values of bytes are below 64, and the decoder finds the
    bits of the bytes in them. *)
Definition pair_ok (x y : N) : bool :=
  (sextet0 x <? 64) && (sextet1 x y <? 64) && (sextet2 x y <? 64)
  && (sextet3 x <? 64)
  && (N.shiftr (sextet1 x y) 4 =? N.land x 3)
  && (N.land (sextet1 x y) 0xF =? N.shiftr y 4)
  && (N.shiftr (sextet2 x y) 2 =? N.land x 0xF)
  && (N.land (sextet2 x y) 0x3 =? N.shiftr y 6)
  && (N.lor (N.shiftl (N.shiftr x 2) 2) (N.land x 3) =? x)
  && (N.lor (N.shiftl (N.shiftr x 4) 4) (N.land x 0xF) =? x)
  && (N.lor (N.shiftl (N.shiftr x 6) 6) (N.land x 0x3F) =? x).

(** The loop of [binascii.a2b_base64] with [strict_mode] off.
    [quad_pos] is the position in the current group of four, [leftchar]
    the bits not yet written, [pads] the pad characters seen since the
    last data character, [out] the bytes written, last first.
    - a pad that completes a group of at least two data characters ends
      the decoding, whatever follows;
    - any other pad, and every character outside the alphabet, is
      skipped;
    - input that ends inside a group is an error. *)
Fixpoint a2b_loop (data : pybytes) (quad_pos : nat) (leftchar : N)
    (pads : nat) (out : pybytes) : result pybytes :=
  match data with
  | [] =>
      match quad_pos with
      | O => Ok (rev out)
      | _ => Raise BinasciiError
      end
  | this_ch :: data' =>
      if this_ch =? PAD then
        if (2 <=? quad_pos)%nat then
          if (4 <=? quad_pos + S pads)%nat then Ok (rev out)
          else a2b_loop data' quad_pos leftchar (S pads) out
        else a2b_loop data' quad_pos leftchar pads out
      else
        match a2b this_ch with
        | None => a2b_loop data' quad_pos leftchar pads out
        | Some v =>
            match quad_pos with
            | 0%nat => a2b_loop data' 1 v 0 out
            | 1%nat =>
                a2b_loop data' 2 (N.land v 0xF) 0
                  (N.lor (N.shiftl leftchar 2) (N.shiftr v 4) :: out)
            | 2%nat =>
                a2b_loop data' 3 (N.land v 0x3) 0
                  (N.lor (N.shiftl leftchar 4) (N.shiftr v 2) :: out)
            | _ =>
                a2b_loop data' 0 0 0
                  (N.lor (N.shiftl leftchar 6) v :: out)
            end
        end
  end.

Definition a2b_base64 (data : pybytes) : result pybytes :=
  a2b_loop data 0 0 0 [].

Definition is_ascii (s : pystr) : bool := forallb (fun c => c <? 128) s.

(** [_bytes_from_decode_data]: a [str] must be ASCII. *)
Definition bytes_from_decode_data (v : value) : result pybytes :=
  match v with
  | VStr s => if is_ascii s then Ok s else Raise ValueError
  | _ => Raise TypeError
  end.

(** The characters the decoder looks at: the alphabet and the pad. *)
Definition significant (c : N) : bool :=
  (c =? PAD) || match a2b c with Some _ => true | None => false end.

(** [base64.b64decode(v)] with the default [validate=False] *)
Definition b64decode (v : value) : result pybytes :=
  data ← bytes_from_decode_data v; a2b_base64 data.

End Base64.

(** ** The tool dispatcher *)

Module Server.
Import Py Unicode.

(** [TextContent(type=..., text=...)] *)
Record TextContent := { type : pystr; text : pystr }.

(** The configuration read from the environment at start-up. *)
Record config := {
  AUTH_TOKEN : pystr;
  MY_NUMBER : pystr
}.

(** What the dispatcher takes from the Python runtime and is left open
    here: the character database, the text of an exception, the
    formatting of a float quotient, the matches of the four extraction
    patterns, the iteration order of a set and the random source. *)
Record runtime := {
  chardb : ucd;
  exn_str : exn -> pystr;                    (* str(e) *)
  format_ratio : Z -> Z -> pystr;            (* f"{a / b:.1f}" *)
  format_percent : Z -> Z -> pystr;          (* f"{(a / b * 100):.1f}" *)
  findall_email : pystr -> list pystr;
  findall_url : pystr -> list pystr;
  findall_phone_us : pystr -> list (pystr * pystr * pystr);
  findall_phone_intl : pystr -> list pystr;
  list_set : list pystr -> list pystr;       (* list(set(l)) *)
  randbelow : nat -> nat -> nat              (* i-th draw, below n *)
}.

(** Emoji and bullets of the messages. *)
Definition CROSS : N := 0x274C.
Definition CHECK : N := 0x2705.
Definition BULLET : N := 0x2022.
Definition CLIPBOARD : N := 0x1F4CB.
Definition BAR_CHART : N := 0x1F4CA.
Definition MEMO : N := 0x1F4DD.
Definition CHART_UP : N := 0x1F4C8.
Definition LOCK_KEY : N := 0x1F510.
Definition SHIELD : pystr := [0x1F6E1; 0xFE0F].
Definition WARNING : pystr := [0x26A0; 0xFE0F].
Definition MAGNIFIER : N := 0x1F50D.
Definition E_MAIL : N := 0x1F4E7.
Definition LINK : N := 0x1F517.
Definition PHONE : N := 0x1F4F1.
Definition PAGE : N := 0x1F4C4.

(** [arguments.get(key, dflt)] *)
Definition get (arguments : gmap string value) (key : string) (dflt : value)
    : value :=
  default dflt (arguments !! key).

Definition text_block (s : pystr) : list TextContent :=
  [{| type := lit "text"; text := s |}].

(** [s[:100]] followed by ['...'] when [s] is longer. *)
Definition preview (s : pystr) : pystr :=
  firstn 100 s ++ (if (100 <? List.length s)%nat then lit "..." else []).

Definition empty_text_msg : pystr := CROSS :: lit " Text is empty.".

(** *** validate *)

Definition invalid_token_msg : pystr := lit "Invalid token".

(** *** count_text *)

Definition chars_with_spaces (text : pystr) : nat := List.length text.
Definition chars_without_spaces (text : pystr) : nat :=
  List.length (replace [TAB] [] (replace nl [] (replace (lit " ") [] text))).
Definition words (text : pystr) : nat := List.length (split_ws text).
Definition sentences (text : pystr) : nat :=
  let sentences := List.length (Re.findall_plus Re.terminal text) in
  if (sentences =? 0)%nat then 1%nat else sentences.
Definition nonblank (ps : list pystr) : list pystr :=
  List.filter (fun p => negb (blank p)) ps.
Definition paragraphs (text : pystr) : nat :=
  let paragraphs := List.length (nonblank (split (nl ++ nl) text)) in
  if (paragraphs =? 0)%nat
  then List.length (nonblank (split nl text))
  else paragraphs.
Definition lines (text : pystr) : nat := List.length (split nl text).
Definition reading_time (text : pystr) : nat := Nat.max 1 (words text / 200).

(** [a / b] inside a format field: dividing by zero raises. *)
Definition truediv (fmt : Z -> Z -> pystr) (a b : Z) : result pystr :=
  if (b =? 0)%Z then Raise ZeroDivisionError else Ok (fmt a b).

Definition count_text_report (text : pystr) (avg_words avg_chars : pystr)
    : pystr :=
  join nl [
    BAR_CHART :: lit " **TEXT STATISTICS**";
    [];
    MEMO :: lit " **Basic Counts:**";
    BULLET :: lit " Characters (with spaces): "
      ++ Fmt.comma (chars_with_spaces text);
    BULLET :: lit " Characters (no spaces): "
      ++ Fmt.comma (chars_without_spaces text);
    BULLET :: lit " Words: " ++ Fmt.comma (words text);
    BULLET :: lit " Sentences: " ++ Fmt.comma (sentences text);
    BULLET :: lit " Paragraphs: " ++ Fmt.comma (paragraphs text);
    BULLET :: lit " Lines: " ++ Fmt.comma (lines text);
    [];
    CHART_UP :: lit " **Analysis:**";
    BULLET :: lit " Average words per sentence: " ++ avg_words;
    BULLET :: lit " Average characters per word: " ++ avg_chars;
    BULLET :: lit " Estimated reading time: "
      ++ Fmt.str_nat (reading_time text) ++ lit " minute(s)";
    [];
    CHECK :: lit " **Analysis complete!**"
  ].

(** *** convert_case *)

Definition camel (U : ucd) (text : pystr) : pystr :=
  let words := split_ws (Re.sub_each Re.not_alnum_space [] text) in
  match words with
  | w :: ws => lower U w ++ concat (map (capitalize U) ws)
  | [] => text
  end.

Definition pascal (U : ucd) (text : pystr) : pystr :=
  let words := split_ws (Re.sub_each Re.not_alnum_space [] text) in
  concat (map (capitalize U) words).

(** The snake and kebab transforms differ by the separator only. *)
Definition separated (U : ucd) (sep : N) (text : pystr) : pystr :=
  let result :=
    lower U (Re.sub_each Re.not_alnum [sep]
               (replace (lit " ") [sep] (strip text))) in
  strip_chars [sep] (Re.sub_plus (Re.is_char sep) [sep] result).

Definition snake (U : ucd) (text : pystr) : pystr := separated U 95 text.
Definition kebab (U : ucd) (text : pystr) : pystr := separated U 45 text.

(** The shape of a snake or kebab result: lowercase ASCII letters,
    digits and separators, no two separators in a row, none at either
    end. *)
Definition lower_alnum (c : N) : bool :=
  Re.in_range 97 122 c || Re.in_range 48 57 c.
Definition sepchar (sep c : N) : bool := lower_alnum c || (c =? sep).

Fixpoint no_double (sep : N) (s : pystr) : bool :=
  match s with
  | a :: s' =>
      match s' with
      | b :: _ => negb ((a =? sep) && (b =? sep)) && no_double sep s'
      | [] => true
      end
  | [] => true
  end.

Definition head_not (p : N -> bool) (s : pystr) : bool :=
  match s with
  | c :: _ => negb (p c)
  | [] => true
  end.

Definition separated_form (sep : N) (s : pystr) : bool :=
  forallb (sepchar sep) s && no_double sep s
  && head_not (Re.is_char sep) s && head_not (Re.is_char sep) (rev s).

(** What the proofs need of a separator; it holds of [_] and [-]. *)
Definition separator (sep : N) : bool :=
  negb (Re.alnum sep) && negb (isspace sep) && lower_fixed sep.

Fixpoint alternating_from (U : ucd) (i : nat) (text : pystr) : pystr :=
  match text with
  | [] => []
  | c :: text' =>
      (if Nat.even i then upper [c] else lower U [c])
      ++ alternating_from U (S i) text'
  end.
Definition alternating (U : ucd) (text : pystr) : pystr :=
  alternating_from U 0 text.

(** The chain of [if case_type == ...]: the converted text, or [None]
    in the final [else]. *)
Definition convert (U : ucd) (case_type : pystr) (text : pystr)
    : option pystr :=
  if bool_decide (case_type = lit "upper") then Some (upper text)
  else if bool_decide (case_type = lit "lower") then Some (lower U text)
  else if bool_decide (case_type = lit "title") then Some (title U text)
  else if bool_decide (case_type = lit "sentence")
    then Some (capitalize U text)
  else if bool_decide (case_type = lit "camel") then Some (camel U text)
  else if bool_decide (case_type = lit "pascal") then Some (pascal U text)
  else if bool_decide (case_type = lit "snake") then Some (snake U text)
  else if bool_decide (case_type = lit "kebab") then Some (kebab U text)
  else if bool_decide (case_type = lit "alternating")
    then Some (alternating U text)
  else None.

Definition invalid_case_msg : pystr :=
  join nl [
    CROSS :: lit " Invalid case type. Available options:";
    BULLET :: lit " upper, lower, title, sentence";
    BULLET :: lit " camel, pascal, snake, kebab";
    BULLET :: lit " alternating"
  ].

Definition convert_case_report (case_type text result : pystr) : pystr :=
  join nl [
    CHECK :: lit " **" ++ upper case_type ++ lit " CASE CONVERSION**";
    [];
    lit "**Original:** " ++ preview text;
    lit "**Result:** " ++ result;
    [];
    CLIPBOARD :: lit " **Copy the result above!**"
  ].

(** *** clean_text *)

Definition strip_lines (s : pystr) : pystr :=
  join nl (map strip (split nl s)).

Definition clean_basic (text : pystr) : pystr :=
  strip_lines (Re.sub_plus (Re.is_char 32) (lit " ") text).

Definition clean_aggressive (text : pystr) : pystr :=
  strip (Re.sub_plus isspace (lit " ") text).

Definition clean_normalize (text : pystr) : pystr :=
  strip_lines
    (Re.sub_plus (Re.is_char 32) (lit " ") (Re.sub_newlines (strip text))).

(** The shape of an aggressively cleaned text: the only whitespace is
    the space character, no two whitespace characters are neighbours,
    and none stands at either end. *)
Fixpoint no_adjacent (p : N -> bool) (s : pystr) : bool :=
  match s with
  | a :: s' =>
      match s' with
      | b :: _ => negb (p a && p b) && no_adjacent p s'
      | [] => true
      end
  | [] => true
  end.

Definition only_as (p : N -> bool) (x : N) (s : pystr) : bool :=
  forallb (fun c => implb (p c) (c =? x)) s.

Definition single_spaced (s : pystr) : bool :=
  only_as isspace 32 s && no_adjacent isspace s
  && head_not isspace s && head_not isspace (rev s).

(** The chain of [if mode == ...]: the cleaned text, or [None] in the
    final [else]. *)
Definition clean (mode : value) (text : pystr) : option pystr :=
  if eq_str mode (lit "basic") then Some (clean_basic text)
  else if eq_str mode (lit "aggressive") then Some (clean_aggressive text)
  else if eq_str mode (lit "normalize") then Some (clean_normalize text)
  else None.

Definition invalid_mode_msg : pystr :=
  CROSS :: lit " Invalid mode. Use: basic, aggressive, or normalize".

(** [f"{z:,}"] *)
Definition comma_int (z : Z) : pystr :=
  if (z <? 0)%Z then 45 :: Fmt.comma (Z.abs_nat z) else Fmt.comma (Z.abs_nat z).

Definition clean_text_report (mode_upper : pystr) (original_length : nat)
    (cleaned : pystr) (saved_chars : Z) (percent : pystr) : pystr :=
  join nl [
    CHECK :: lit " **TEXT CLEANED (" ++ mode_upper ++ lit " MODE)**";
    [];
    BAR_CHART :: lit " **Statistics:**";
    BULLET :: lit " Original length: " ++ Fmt.comma original_length
      ++ lit " characters";
    BULLET :: lit " Cleaned length: " ++ Fmt.comma (List.length cleaned)
      ++ lit " characters";
    BULLET :: lit " Saved: " ++ comma_int saved_chars ++ lit " characters ("
      ++ percent ++ lit "%)";
    [];
    lit "**Cleaned text:**";
    cleaned;
    [];
    CLIPBOARD :: lit " **Copy the cleaned text above!**"
  ].

(** *** base64_converter *)

Definition encoded_report (shown encoded : pystr) : pystr :=
  join nl [
    CHECK :: lit " **BASE64 ENCODED**";
    [];
    lit "**Original:** " ++ shown;
    lit "**Encoded:** " ++ encoded;
    [];
    CLIPBOARD :: lit " **Copy the encoded text above!**"
  ].

Definition decoded_report (shown decoded : pystr) : pystr :=
  join nl [
    CHECK :: lit " **BASE64 DECODED**";
    [];
    lit "**Encoded:** " ++ shown;
    lit "**Decoded:** " ++ decoded;
    [];
    CLIPBOARD :: lit " **Copy the decoded text above!**"
  ].

Definition invalid_operation_msg : pystr :=
  CROSS :: lit " Invalid operation. Use 'encode' or 'decode'".

Definition base64_error_msg (what : pystr) : pystr :=
  CROSS :: lit " Error with Base64 operation: " ++ what.

(** *** generate_password *)

Definition ascii_lowercase : pystr := lit "abcdefghijklmnopqrstuvwxyz".
Definition ascii_uppercase : pystr := lit "ABCDEFGHIJKLMNOPQRSTUVWXYZ".
Definition digits : pystr := lit "0123456789".
Definition symbol_set : pystr := lit "!@#$%^&*()_+-=[]{}|;:,.<>?".

Definition lowercase_of (exclude_ambiguous : value) : pystr :=
  if truthy exclude_ambiguous
  then replace (lit "l") [] ascii_lowercase
  else ascii_lowercase.

Definition uppercase_of (exclude_ambiguous : value) : pystr :=
  if truthy exclude_ambiguous
  then replace (lit "I") [] (replace (lit "O") [] ascii_uppercase)
  else ascii_uppercase.

Definition numbers_of (include_numbers exclude_ambiguous : value) : pystr :=
  let numbers := if truthy include_numbers then digits else [] in
  if truthy exclude_ambiguous
  then replace (lit "1") [] (replace (lit "0") [] numbers)
  else numbers.

Definition symbols_of (include_symbols : value) : pystr :=
  if truthy include_symbols then symbol_set else [].

Definition all_chars (include_symbols include_numbers exclude_ambiguous : value)
    : pystr :=
  lowercase_of exclude_ambiguous ++ uppercase_of exclude_ambiguous
  ++ numbers_of include_numbers exclude_ambiguous
  ++ symbols_of include_symbols.

Definition length_msg : pystr :=
  CROSS :: lit " Password length must be between 8 and 50 characters".
Definition no_chars_msg : pystr :=
  CROSS :: lit " No characters available with current settings".

(** [secrets.choice(seq)] on a non-empty [seq], given the draw [r]. *)
Definition choice (r : nat) (seq : pystr) : N :=
  nth (r mod List.length seq) seq 0.

(** [any(c in class for c in password)] *)
Definition has_any (class password : pystr) : bool :=
  existsb (contains class) password.

Definition strength_levels : list pystr :=
  [lit "Very Weak"; lit "Weak"; lit "Fair"; lit "Good"; lit "Strong"].

Definition strength (has_lower has_upper has_digit has_symbol : bool) : pystr :=
  let strength_score :=
    (Nat.b2n has_lower + Nat.b2n has_upper + Nat.b2n has_digit
     + Nat.b2n has_symbol)%nat in
  nth (Nat.min strength_score 4) strength_levels [].

(** [', '.join(filter(None, [...]))] *)
Definition contains_line (has_lower has_upper has_digit has_symbol : bool)
    : pystr :=
  join (lit ", ")
    ((if has_lower then [lit "lowercase"] else [])
     ++ (if has_upper then [lit "uppercase"] else [])
     ++ (if has_digit then [lit "numbers"] else [])
     ++ (if has_symbol then [lit "symbols"] else [])).

(** [f"{v}"] *)
Definition str_value (v : value) : pystr :=
  match v with
  | VNone => lit "None"
  | VBool true => lit "True"
  | VBool false => lit "False"
  | VInt z => Fmt.str_int z
  | VStr s => s
  end.

Definition password_report (password strength length contains : pystr)
    : pystr :=
  join nl [
    LOCK_KEY :: lit " **PASSWORD GENERATED**";
    [];
    lit "**Password:** `" ++ password ++ lit "`";
    [];
    SHIELD ++ lit " **Security Analysis:**";
    BULLET :: lit " **Strength:** " ++ strength;
    BULLET :: lit " **Length:** " ++ length ++ lit " characters";
    BULLET :: lit " **Contains:** " ++ contains;
    [];
    WARNING ++ lit " **Remember to store this password securely!**"
  ].

(** *** extract_data *)

Definition no_match_msg (data_type : pystr) : pystr :=
  CROSS :: lit " No " ++ data_type ++ lit " found in the text.".

Definition category_emoji (category : pystr) : N :=
  if bool_decide (category = lit "emails") then E_MAIL
  else if bool_decide (category = lit "urls") then LINK
  else if bool_decide (category = lit "phones") then PHONE
  else PAGE.

(** One turn of [for category, items in results.items()]. *)
Definition report_category (acc : pystr * nat) (entry : pystr * list pystr)
    : pystr * nat :=
  let '(output, total_found) := acc in
  let '(category, items) := entry in
  match items with
  | [] => acc
  | _ =>
      let output :=
        output ++ nl ++ [category_emoji category] ++ lit " **"
        ++ upper category ++ lit "** (" ++ Fmt.str_nat (List.length items)
        ++ lit " found):" ++ nl in
      let output :=
        output
        ++ concat (map (fun item => BULLET :: lit " " ++ item ++ nl)
                     (firstn 10 items)) in
      let output :=
        if (10 <? List.length items)%nat
        then output ++ BULLET :: lit " ... and "
             ++ Fmt.str_nat (List.length items - 10) ++ lit " more" ++ nl
        else output in
      (output, (total_found + List.length items)%nat)
  end.

Definition extract_report (results : list (pystr * list pystr)) : pystr :=
  let '(output, total_found) :=
    fold_left report_category results
      (MAGNIFIER :: lit " **EXTRACTED DATA**" ++ nl, 0%nat) in
  output ++ nl ++ CHECK :: lit " **Total found:** "
  ++ Fmt.str_nat total_found ++ lit " items".

(** [x in [a, b]] *)
Definition one_of (x a b : pystr) : bool :=
  bool_decide (x = a) || bool_decide (x = b).

Definition unknown_tool_msg (name : pystr) : pystr :=
  CROSS :: lit " Unknown tool: " ++ name.

(** *** The branches of [call_tool] *)

Section Dispatch.

Variable cfg : config.
Variable rt : runtime.

Definition reported (e : exn) (what : string) : result (list TextContent) :=
  Ok (text_block (CROSS :: lit what ++ exn_str rt e)).

(** [arguments.get(key, "").lower()] *)
Definition get_lower (arguments : gmap string value) (key : string)
    : result pystr :=
  s ← as_str (get arguments key (VStr [])); Ok (lower (chardb rt) s).

Definition call_validate (arguments : gmap string value)
    : result (list TextContent) :=
  let token := get arguments "token" (VStr []) in
  slice_to 10 token ;;
  if eq_str token (AUTH_TOKEN cfg)
  then Ok (text_block (MY_NUMBER cfg))
  else Ok (text_block invalid_token_msg).

Definition call_count_text (arguments : gmap string value)
    : result (list TextContent) :=
  text ← as_str (get arguments "text" (VStr []));
  if blank text then Ok (text_block empty_text_msg)
  else
    avg_words ← truediv (format_ratio rt) (Z.of_nat (words text))
                  (Z.of_nat (Nat.max (sentences text) 1));
    avg_chars ← truediv (format_ratio rt)
                  (Z.of_nat (chars_without_spaces text))
                  (Z.of_nat (Nat.max (words text) 1));
    Ok (text_block (count_text_report text avg_words avg_chars)).

Definition call_convert_case (arguments : gmap string value)
    : result (list TextContent) :=
  let text := get arguments "text" (VStr []) in
  case_type ← get_lower arguments "case_type";
  text ← as_str text;
  if blank text then Ok (text_block empty_text_msg)
  else
    catch
      (match convert (chardb rt) case_type text with
       | Some result =>
           Ok (text_block (convert_case_report case_type text result))
       | None => Ok (text_block invalid_case_msg)
       end)
      (fun e => reported e " Error converting case: ").

Definition call_clean_text (arguments : gmap string value)
    : result (list TextContent) :=
  let text := get arguments "text" (VStr []) in
  let mode := get arguments "mode" (VStr (lit "basic")) in
  text ← as_str text;
  if blank text then Ok (text_block empty_text_msg)
  else
    let original_length := List.length text in
    catch
      (match clean mode text with
       | Some cleaned =>
           let saved_chars :=
             (Z.of_nat original_length - Z.of_nat (List.length cleaned))%Z in
           mode_name ← as_str mode;
           percent ← truediv (format_percent rt) saved_chars
                       (Z.of_nat original_length);
           Ok (text_block
                 (clean_text_report (upper mode_name) original_length cleaned
                    saved_chars percent))
       | None => Ok (text_block invalid_mode_msg)
       end)
      (fun e => reported e " Error cleaning text: ").

(** [f"{v[:100]}{'...' if len(v) > 100 else ''}"] on the argument as
    received. *)
Definition preview_value (v : value) : result pystr :=
  head ← slice_to 100 v;
  n ← len_value v;
  Ok (head ++ (if (100 <? n)%nat then lit "..." else [])).

Definition call_base64_converter (arguments : gmap string value)
    : result (list TextContent) :=
  let text := get arguments "text" (VStr []) in
  operation ← get_lower arguments "operation";
  catch
    (if bool_decide (operation = lit "encode") then
       s ← as_str text;
       bin ← Utf8.encode s;
       encoded ← Utf8.decode (Base64.b64encode bin);
       shown ← preview_value text;
       Ok (text_block (encoded_report shown encoded))
     else if bool_decide (operation = lit "decode") then
       bin ← Base64.b64decode text;
       decoded ← Utf8.decode bin;
       shown ← preview_value text;
       Ok (text_block (decoded_report shown decoded))
     else Ok (text_block invalid_operation_msg))
    (fun e => reported e " Error with Base64 operation: ").

Definition call_generate_password (arguments : gmap string value)
    : result (list TextContent) :=
  let length := get arguments "length" (VInt 16) in
  let include_symbols := get arguments "include_symbols" (VBool true) in
  let include_numbers := get arguments "include_numbers" (VBool true) in
  let exclude_ambiguous := get arguments "exclude_ambiguous" (VBool false) in
  n ← as_int length;
  if (n <? 8)%Z || (50 <? n)%Z then Ok (text_block length_msg)
  else
    let lowercase := lowercase_of exclude_ambiguous in
    let uppercase := uppercase_of exclude_ambiguous in
    let numbers := numbers_of include_numbers exclude_ambiguous in
    let symbols := symbols_of include_symbols in
    let all_chars :=
      all_chars include_symbols include_numbers exclude_ambiguous in
    match all_chars with
    | [] => Ok (text_block no_chars_msg)
    | _ =>
        let password :=
          map (fun i => choice (randbelow rt i (List.length all_chars))
                          all_chars)
            (seq 0 (Z.to_nat n)) in
        let has_lower := has_any lowercase password in
        let has_upper := has_any uppercase password in
        let has_digit := has_any numbers password in
        let has_symbol := has_any symbols password in
        Ok (text_block
              (password_report password
                 (strength has_lower has_upper has_digit has_symbol)
                 (str_value length)
                 (contains_line has_lower has_upper has_digit has_symbol)))
    end.

(** The dictionary [results] after the three [if data_type in ...]. *)
Definition extract_results (data_type text : pystr)
    : list (pystr * list pystr) :=
  let results := [] in
  let results :=
    if one_of data_type (lit "emails") (lit "all")
    then results ++ [(lit "emails", list_set rt (findall_email rt text))]
    else results in
  let results :=
    if one_of data_type (lit "urls") (lit "all")
    then results ++ [(lit "urls", list_set rt (findall_url rt text))]
    else results in
  let results :=
    if one_of data_type (lit "phones") (lit "all")
    then
      let phones :=
        map (fun m : pystr * pystr * pystr =>
               let '(a, b, c) := m in join (lit "-") [a; b; c])
          (findall_phone_us rt text)
        ++ findall_phone_intl rt text in
      results ++ [(lit "phones", list_set rt phones)]
    else results in
  results.

(** [any(results.values())] *)
Definition any_found (results : list (pystr * list pystr)) : bool :=
  existsb (fun entry => match snd entry with [] => false | _ => true end)
    results.

Definition call_extract_data (arguments : gmap string value)
    : result (list TextContent) :=
  let text := get arguments "text" (VStr []) in
  data_type ← get_lower arguments "data_type";
  text ← as_str text;
  if blank text then Ok (text_block empty_text_msg)
  else
    catch
      (let results := extract_results data_type text in
       if negb (any_found results)
       then Ok (text_block (no_match_msg data_type))
       else Ok (text_block (extract_report results)))
      (fun e => reported e " Error extracting data: ").

(** [call_tool(name, arguments)] *)
Definition call_tool (name : pystr) (arguments : gmap string value)
    : result (list TextContent) :=
  if bool_decide (name = lit "validate") then call_validate arguments
  else if bool_decide (name = lit "count_text") then call_count_text arguments
  else if bool_decide (name = lit "convert_case")
    then call_convert_case arguments
  else if bool_decide (name = lit "clean_text") then call_clean_text arguments
  else if bool_decide (name = lit "base64_converter")
    then call_base64_converter arguments
  else if bool_decide (name = lit "generate_password")
    then call_generate_password arguments
  else if bool_decide (name = lit "extract_data")
    then call_extract_data arguments
  else Ok (text_block (unknown_tool_msg name)).

End Dispatch.

End Server.

(** ** Argument mappings that respect the input schemas *)

Module Schema.
Import Py.

Definition is_str (v : value) : bool :=
  match v with VStr _ => true | _ => false end.
Definition is_int (v : value) : bool :=
  match v with VInt _ => true | _ => false end.

(** A field that is present has the declared type. *)
Definition field (check : value -> bool) (arguments : gmap string value)
    (key : string) : bool :=
  match arguments !! key with
  | Some v => check v
  | None => true
  end.

(** The string fields of the seven schemas hold strings and [length]
    holds an integer. *)
Definition typed (arguments : gmap string value) : bool :=
  field is_str arguments "token" && field is_str arguments "text"
  && field is_str arguments "case_type" && field is_str arguments "mode"
  && field is_str arguments "operation"
  && field is_str arguments "data_type"
  && field is_int arguments "length".

(** A [str] holds code points below 0x110000; one that can be encoded
    to UTF-8 holds no surrogate. *)
Definition scalar (c : N) : bool := (c <? 0x110000) && negb (Utf8.surrogate c).
Definition utf8_text (s : pystr) : Prop := Forall (fun c => scalar c = true) s.

End Schema.

(** ** A configuration and a runtime to run the dispatcher on *)

Module Sample.
Import Py Unicode Server.

Definition config : Server.config :=
  {| AUTH_TOKEN := lit "text_utils_token"; MY_NUMBER := lit "919339615464" |}.

(** ASCII letters are cased, nothing is case-ignorable, the title case
    is the upper case; quotients are printed as integer quotients;
    the extraction patterns find nothing; a set is listed in the order
    given; the draws are 0, 7, 14, ... *)
Definition runtime : Server.runtime :=
  {| chardb :=
       {| cased := fun c => Re.in_range 65 90 c || Re.in_range 97 122 c;
          case_ignorable := fun _ => false;
          to_title := to_upper |};
     exn_str := fun _ => lit "error";
     format_ratio := fun a b => Fmt.str_int (a / b);
     format_percent := fun a b => Fmt.str_int (a * 100 / b);
     findall_email := fun _ => [];
     findall_url := fun _ => [];
     findall_phone_us := fun _ => [];
     findall_phone_intl := fun _ => [];
     list_set := fun l => l;
     randbelow := fun i _ => (7 * i)%nat |}.

(** Inputs of the examples. *)
Definition hello : pystr := lit "Hello world. This is great!".
Definition two_lines : pystr := lit "line one" ++ nl ++ lit "line two".
Definition contact : pystr := lit "contact a@b.com or c@d.org".

End Sample.

(** ** The tool registry and the start-up configuration *)

Module Registry.
Import Py Server.

(** One entry of ["properties"] in an input schema. *)
Record Property := {
  ptype : string;
  pdescription : string;
  pdefault : option value
}.

(** [inputSchema]: the properties in the order written, and the names
    listed under ["required"]. *)
Record InputSchema := {
  schema_type : string;
  properties : list (string * Property);
  required : list string
}.

(** [Tool(name=..., description=..., inputSchema=...)] *)
Record Tool := {
  name : string;
  description : string;
  inputSchema : InputSchema
}.

Definition prop (ty descr : string) : Property :=
  {| ptype := ty; pdescription := descr; pdefault := None |}.
Definition prop_default (ty descr : string) (dflt : value) : Property :=
  {| ptype := ty; pdescription := descr; pdefault := Some dflt |}.

(** [list_tools()] *)
Definition list_tools : list Tool := [
  {| name := "validate";
     description :=
       "Validate bearer token and return phone number for authentication";
     inputSchema :=
       {| schema_type := "object";
          properties :=
            [("token", prop "string" "Bearer token to validate")];
          required := ["token"] |} |};
  {| name := "count_text";
     description :=
       "Count words, characters, sentences, and paragraphs in text";
     inputSchema :=
       {| schema_type := "object";
          properties := [("text", prop "string" "Text to analyze")];
          required := ["text"] |} |};
  {| name := "convert_case";
     description :=
       "Convert text to different cases (upper, lower, title, camel, snake, kebab, etc.)";
     inputSchema :=
       {| schema_type := "object";
          properties :=
            [("text", prop "string" "Text to convert");
             ("case_type",
              prop "string"
                "Case type: upper, lower, title, sentence, camel, pascal, snake, kebab, alternating")];
          required := ["text"; "case_type"] |} |};
  {| name := "clean_text";
     description :=
       "Clean text by removing extra spaces, fixing line breaks, and standardizing formatting";
     inputSchema :=
       {| schema_type := "object";
          properties :=
            [("text", prop "string" "Text to clean");
             ("mode",
              prop_default "string"
                "Cleaning mode: basic, aggressive, or normalize"
                (VStr (lit "basic")))];
          required := ["text"] |} |};
  {| name := "base64_converter";
     description := "Encode text to Base64 or decode Base64 to text";
     inputSchema :=
       {| schema_type := "object";
          properties :=
            [("text",
              prop "string" "Text to encode or Base64 string to decode");
             ("operation",
              prop "string" "Operation: 'encode' or 'decode'")];
          required := ["text"; "operation"] |} |};
  {| name := "generate_password";
     description := "Generate secure passwords with customizable options";
     inputSchema :=
       {| schema_type := "object";
          properties :=
            [("length",
              prop_default "integer" "Password length (8-50)" (VInt 16));
             ("include_symbols",
              prop_default "boolean" "Include symbols (!@#$%)" (VBool true));
             ("include_numbers",
              prop_default "boolean" "Include numbers (0-9)" (VBool true));
             ("exclude_ambiguous",
              prop_default "boolean" "Exclude similar chars (0,O,l,1,I)"
                (VBool false))];
          required := [] |} |};
  {| name := "extract_data";
     description := "Extract emails, URLs, or phone numbers from text";
     inputSchema :=
       {| schema_type := "object";
          properties :=
            [("text", prop "string" "Text to search through");
             ("data_type",
              prop "string"
                "What to extract: 'emails', 'urls', 'phones', or 'all'")];
          required := ["text"; "data_type"] |} |}
].

Definition tool_names : list pystr := map (fun t => lit (name t)) list_tools.

Definition declared (t : Tool) : list string :=
  map fst (properties (inputSchema t)).

(** [not v] for the value of [os.getenv]: unset or empty. *)
Definition unset (v : option pystr) : bool :=
  match v with
  | None | Some [] => true
  | Some _ => false
  end.

(** The module start: [AUTH_TOKEN] and [MY_NUMBER] are read from the
    environment, and the module refuses to load when one of them is
    unset or empty. *)
Definition load_config (environ : gmap string pystr) : result config :=
  let auth_token := environ !! "AUTH_TOKEN" in
  let my_number := environ !! "MY_NUMBER" in
  if unset auth_token || unset my_number then Raise ValueError
  else Ok {| AUTH_TOKEN := default [] auth_token;
             MY_NUMBER := default [] my_number |}.

End Registry.

(** * Properties *)

Import Py Unicode Server Base64.

(** ** Basic facts about the string functions *)

Lemma blank_false_nonempty (text : pystr) :
  blank text = false -> text <> [].
Proof. intros H ->. discriminate H. Qed.

Lemma get_lookup (arguments : gmap string value) key dflt v :
  arguments !! key = Some v -> get arguments key dflt = v.
Proof. intros H. unfold get. now rewrite H. Qed.

Lemma get_missing (arguments : gmap string value) key dflt :
  arguments !! key = None -> get arguments key dflt = dflt.
Proof. intros H. unfold get. now rewrite H. Qed.

(** ** count_text *)

(** C7 as stated does not hold: the text has 27 characters, not 28. *)
Lemma count_text_hello_not_28 :
  ~ (words Sample.hello = 5%nat /\ sentences Sample.hello = 2%nat
     /\ chars_with_spaces Sample.hello = 28%nat).
Proof. intros (_ & _ & H). vm_compute in H. discriminate H. Qed.

(** C7 (amended): [count_text] on "Hello world. This is great!" reports
    5 words, 2 sentences and 27 characters with spaces; the report is
    the one shown, whatever the configuration and the runtime. *)
Theorem count_text_hello (cfg : config) (rt : runtime) :
  words Sample.hello = 5%nat /\ sentences Sample.hello = 2%nat
  /\ chars_with_spaces Sample.hello = 27%nat
  /\ call_tool cfg rt (lit "count_text") {[ "text" := VStr Sample.hello ]}
     = Ok (text_block (join nl [
         BAR_CHART :: lit " **TEXT STATISTICS**";
         [];
         MEMO :: lit " **Basic Counts:**";
         BULLET :: lit " Characters (with spaces): 27";
         BULLET :: lit " Characters (no spaces): 23";
         BULLET :: lit " Words: 5";
         BULLET :: lit " Sentences: 2";
         BULLET :: lit " Paragraphs: 1";
         BULLET :: lit " Lines: 1";
         [];
         CHART_UP :: lit " **Analysis:**";
         BULLET :: lit " Average words per sentence: " ++ format_ratio rt 5 2;
         BULLET :: lit " Average characters per word: "
           ++ format_ratio rt 23 5;
         BULLET :: lit " Estimated reading time: 1 minute(s)";
         [];
         CHECK :: lit " **Analysis complete!**"
       ])).
Proof. repeat split; vm_compute; reflexivity. Qed.

(** [s.split(sep)] is [[s]] when [sep] occurs nowhere in [s]. *)
Lemma split_absent (sep s : pystr) :
  (forall i, is_prefix sep (skipn i s) = false) -> split sep s = [s].
Proof.
  unfold split. induction s as [|c s IH]; intros H.
  - reflexivity.
  - cbn [split_from]. rewrite (H 0%nat : is_prefix sep (c :: s) = false).
    rewrite IH; [reflexivity|]. intros i. exact (H (S i)).
Qed.

(** A text that is not blank and holds no blank-line separator counts
    as one paragraph, however many lines it has: the first count is
    never zero, so the count of non-blank lines is not used. *)
Lemma paragraphs_without_separator (text : pystr) :
  blank text = false ->
  (forall i, is_prefix (nl ++ nl) (skipn i text) = false) ->
  paragraphs text = 1%nat.
Proof.
  intros Hb Hsep. unfold paragraphs. rewrite (split_absent _ _ Hsep).
  cbn [nonblank List.filter]. rewrite Hb. reflexivity.
Qed.

(** C5 at the text of two lines "line one\nline two": the paragraph
    count reported is 1 although the text has two non-blank lines and
    no blank-line separator. *)
Theorem count_text_two_lines (cfg : config) (rt : runtime) :
  paragraphs Sample.two_lines = 1%nat
  /\ List.length (nonblank (split nl Sample.two_lines)) = 2%nat
  /\ split (nl ++ nl) Sample.two_lines = [Sample.two_lines]
  /\ call_tool cfg rt (lit "count_text") {[ "text" := VStr Sample.two_lines ]}
     = Ok (text_block (join nl [
         BAR_CHART :: lit " **TEXT STATISTICS**";
         [];
         MEMO :: lit " **Basic Counts:**";
         BULLET :: lit " Characters (with spaces): 17";
         BULLET :: lit " Characters (no spaces): 14";
         BULLET :: lit " Words: 4";
         BULLET :: lit " Sentences: 1";
         BULLET :: lit " Paragraphs: 1";
         BULLET :: lit " Lines: 2";
         [];
         CHART_UP :: lit " **Analysis:**";
         BULLET :: lit " Average words per sentence: " ++ format_ratio rt 4 1;
         BULLET :: lit " Average characters per word: "
           ++ format_ratio rt 14 4;
         BULLET :: lit " Estimated reading time: 1 minute(s)";
         [];
         CHECK :: lit " **Analysis complete!**"
       ])).
Proof. repeat split; vm_compute; reflexivity. Qed.

(** ** validate *)

(** C3: for every token string, [validate] returns the configured
    identifier when the token is the configured secret, code point for
    code point, and the invalid-token string otherwise; unless the
    identifier is itself that string, the identifier is returned only
    for the secret. *)
Theorem validate_exact (cfg : config) (rt : runtime)
    (arguments : gmap string value) (token : pystr) :
  arguments !! "token" = Some (VStr token) ->
  (token = AUTH_TOKEN cfg ->
   call_tool cfg rt (lit "validate") arguments
   = Ok (text_block (MY_NUMBER cfg)))
  /\ (token <> AUTH_TOKEN cfg ->
      call_tool cfg rt (lit "validate") arguments
      = Ok (text_block invalid_token_msg))
  /\ (MY_NUMBER cfg <> invalid_token_msg ->
      (call_tool cfg rt (lit "validate") arguments
       = Ok (text_block (MY_NUMBER cfg))
       <-> token = AUTH_TOKEN cfg)).
Proof.
  intros Htok.
  assert (Hcall : call_tool cfg rt (lit "validate") arguments
                  = if bool_decide (token = AUTH_TOKEN cfg)
                    then Ok (text_block (MY_NUMBER cfg))
                    else Ok (text_block invalid_token_msg)).
  { unfold call_tool. cbn [bool_decide]. 
    change (bool_decide (lit "validate" = lit "validate")) with true.
    cbv iota. unfold call_validate. rewrite (get_lookup _ _ _ _ Htok).
    cbn. reflexivity. }
  rewrite Hcall. repeat split.
  - intros ->. now rewrite bool_decide_eq_true_2.
  - intros Hne. now rewrite bool_decide_eq_false_2.
  - destruct (bool_decide_reflect (token = AUTH_TOKEN cfg)) as [Heq|Hne].
    + intros _. exact Heq.
    + intros Heq. exfalso. apply H. unfold text_block in Heq. congruence.
  - intros ->. now rewrite bool_decide_eq_true_2.
Qed.

(** The secret is accepted; another letter case, a leading or a
    trailing space are rejected. *)
Lemma validate_exact_witness :
  call_tool Sample.config Sample.runtime (lit "validate")
    {[ "token" := VStr (lit "text_utils_token") ]}
  = Ok (text_block (lit "919339615464"))
  /\ call_tool Sample.config Sample.runtime (lit "validate")
       {[ "token" := VStr (lit "Text_Utils_Token") ]}
     = Ok (text_block invalid_token_msg)
  /\ call_tool Sample.config Sample.runtime (lit "validate")
       {[ "token" := VStr (lit " text_utils_token") ]}
     = Ok (text_block invalid_token_msg)
  /\ call_tool Sample.config Sample.runtime (lit "validate")
       {[ "token" := VStr (lit "text_utils_token ") ]}
     = Ok (text_block invalid_token_msg).
Proof.
  pose proof (validate_exact Sample.config Sample.runtime
                {[ "token" := VStr (lit "text_utils_token") ]}
                (lit "text_utils_token") eq_refl) as (Hsecret & _ & _).
  pose proof (validate_exact Sample.config Sample.runtime
                {[ "token" := VStr (lit "Text_Utils_Token") ]}
                (lit "Text_Utils_Token") eq_refl) as (_ & Hcase & _).
  pose proof (validate_exact Sample.config Sample.runtime
                {[ "token" := VStr (lit " text_utils_token") ]}
                (lit " text_utils_token") eq_refl) as (_ & Hlead & _).
  pose proof (validate_exact Sample.config Sample.runtime
                {[ "token" := VStr (lit "text_utils_token ") ]}
                (lit "text_utils_token ") eq_refl) as (_ & Htrail & _).
  split; [apply Hsecret; reflexivity |].
  split; [apply Hcase; discriminate |].
  split; [apply Hlead; discriminate | apply Htrail; discriminate].
Defined.

(** ** extract_data *)

(** C9 at the selector "email" (not one of emails, urls, phones, all):
    no category is searched and the answer is the no-match message
    "No email found in the text.", the one a known selector gives when
    nothing is found; no invalid-selector message exists in this
    branch. *)
Theorem extract_data_unknown_selector (cfg : config) (rt : runtime) :
  extract_results rt (lit "email") Sample.contact = []
  /\ call_tool cfg rt (lit "extract_data")
       {[ "text" := VStr Sample.contact; "data_type" := VStr (lit "email") ]}
     = Ok (text_block (CROSS :: lit " No email found in the text.")).
Proof. split; vm_compute; reflexivity. Qed.

Lemma call_tool_extract_data (cfg : config) (rt : runtime) arguments :
  call_tool cfg rt (lit "extract_data") arguments
  = call_extract_data rt arguments.
Proof. reflexivity. Qed.

(** The same holds of every selector outside the four known ones, on
    every text that is not blank. *)
Lemma extract_data_unknown_is_no_match (cfg : config) (rt : runtime)
    (arguments : gmap string value) (text selector data_type : pystr) :
  arguments !! "text" = Some (VStr text) ->
  arguments !! "data_type" = Some (VStr selector) ->
  lower (chardb rt) selector = data_type ->
  ~ In data_type [lit "emails"; lit "urls"; lit "phones"; lit "all"] ->
  blank text = false ->
  call_tool cfg rt (lit "extract_data") arguments
  = Ok (text_block (no_match_msg data_type)).
Proof.
  intros Htext Hdata Hlower Hnot Hblank.
  rewrite call_tool_extract_data. unfold call_extract_data, get_lower.
  rewrite (get_lookup _ _ _ _ Htext), (get_lookup _ _ _ _ Hdata).
  cbn [as_str mbind result_bind]. rewrite Hlower, Hblank.
  assert (Hres : extract_results rt data_type text = []).
  { unfold extract_results, one_of.
    rewrite !bool_decide_eq_false_2; [reflexivity|..];
      intros ->; apply Hnot; cbn; auto. }
  rewrite Hres. reflexivity.
Qed.

(** ** generate_password *)

(** C4 as stated does not hold: no choice of the three flags empties
    the pool, since no flag removes the letters. *)
Lemma all_chars_cannot_be_emptied :
  ~ (exists include_symbols include_numbers exclude_ambiguous : value,
       all_chars include_symbols include_numbers exclude_ambiguous = []).
Proof.
  intros (s & n & e & H). unfold all_chars, lowercase_of in H.
  destruct (truthy e); discriminate H.
Qed.

Lemma in_contains (s : pystr) (c : N) : contains s c = true <-> In c s.
Proof.
  unfold contains. rewrite existsb_exists. split.
  - intros (x & Hin & Heq). apply N.eqb_eq in Heq. now subst.
  - intros Hin. exists c. split; [exact Hin | apply N.eqb_refl].
Qed.

(** C4 (amended): the pool is the lowercase letters, the uppercase
    letters, the digits when [include_numbers] holds and the symbols
    when [include_symbols] holds, each less the ambiguous characters
    when [exclude_ambiguous] holds.  The two flags act independently of
    each other; the letters cannot be left out, so the pool is never
    empty and the empty-pool error is never returned. *)
Theorem all_chars_classes (cfg : config) (rt : runtime)
    (include_symbols include_numbers exclude_ambiguous : value)
    (arguments : gmap string value) :
  (forall c, In c (all_chars include_symbols include_numbers exclude_ambiguous)
     <-> In c (lowercase_of exclude_ambiguous)
         \/ In c (uppercase_of exclude_ambiguous)
         \/ (truthy include_numbers = true
             /\ In c (numbers_of (VBool true) exclude_ambiguous))
         \/ (truthy include_symbols = true /\ In c symbol_set))
  /\ (forall c, In c ascii_lowercase -> c <> 108 ->
        In c (lowercase_of exclude_ambiguous))
  /\ (forall c, In c ascii_uppercase -> c <> 79 -> c <> 73 ->
        In c (uppercase_of exclude_ambiguous))
  /\ (forall c, In c digits -> c <> 48 -> c <> 49 ->
        In c (numbers_of (VBool true) exclude_ambiguous))
  /\ all_chars include_symbols include_numbers exclude_ambiguous <> []
  /\ call_tool cfg rt (lit "generate_password") arguments
     <> Ok (text_block no_chars_msg).
Proof.
  split; [|split; [|split; [|split; [|split]]]].
  - intros c. unfold all_chars, numbers_of, symbols_of.
    rewrite !in_app_iff.
    destruct (truthy include_numbers), (truthy include_symbols),
      (truthy exclude_ambiguous); cbn [In replace replace_from];
      intuition congruence.
  - intros c Hin Hl. unfold lowercase_of.
    destruct (truthy exclude_ambiguous); [|exact Hin].
    vm_compute in Hin |- *. intuition congruence.
  - intros c Hin HO HI. unfold uppercase_of.
    destruct (truthy exclude_ambiguous); [|exact Hin].
    vm_compute in Hin |- *. intuition congruence.
  - intros c Hin H0 H1. unfold numbers_of. cbn [truthy].
    destruct (truthy exclude_ambiguous); [|exact Hin].
    vm_compute in Hin |- *. intuition congruence.
  - unfold all_chars, lowercase_of.
    destruct (truthy exclude_ambiguous); discriminate.
  - unfold call_tool.
    change (bool_decide (lit "generate_password" = lit "validate"))
      with false.
    change (bool_decide (lit "generate_password" = lit "count_text"))
      with false.
    change (bool_decide (lit "generate_password" = lit "convert_case"))
      with false.
    change (bool_decide (lit "generate_password" = lit "clean_text"))
      with false.
    change (bool_decide (lit "generate_password" = lit "base64_converter"))
      with false.
    change (bool_decide (lit "generate_password" = lit "generate_password"))
      with true.
    cbv iota. unfold call_generate_password.
    destruct (as_int (get arguments "length" (VInt 16))) as [n|e];
      cbn [mbind result_bind]; [|discriminate].
    destruct ((n <? 8)%Z || (50 <? n)%Z); [discriminate|].
    destruct (all_chars _ _ _) eqn:Hpool.
    + exfalso. unfold all_chars, lowercase_of in Hpool.
      destruct (truthy _); discriminate Hpool.
    + discriminate.
Qed.

(** ** Divisions *)

Lemma truediv_positive (fmt : Z -> Z -> pystr) (a : Z) (b : nat) :
  (0 < b)%nat -> truediv fmt a (Z.of_nat b) = Ok (fmt a (Z.of_nat b)).
Proof.
  intros Hb. unfold truediv.
  destruct (Z.eqb_spec (Z.of_nat b) 0) as [H0|_]; [lia | reflexivity].
Qed.

Lemma call_tool_count_text (cfg : config) (rt : runtime) arguments :
  call_tool cfg rt (lit "count_text") arguments
  = call_count_text rt arguments.
Proof. reflexivity. Qed.

Lemma call_tool_clean_text (cfg : config) (rt : runtime) arguments :
  call_tool cfg rt (lit "clean_text") arguments
  = call_clean_text rt arguments.
Proof. reflexivity. Qed.

Lemma clean_some_is_str (mode : value) (text cleaned : pystr) :
  clean mode text = Some cleaned -> exists m, mode = VStr m.
Proof.
  destruct mode; cbn; try discriminate. intros _. now eexists.
Qed.

(** C10: when the text passes the non-empty check, the three divisors
    are positive: [max(sentences, 1)], [max(words, 1)] and the length
    of the text.  So [count_text] returns its report with both
    averages formatted, and [clean_text] returns its report with the
    percentage formatted whenever the mode is a known one: no division
    raises. *)
Theorem divisions_defined (cfg : config) (rt : runtime)
    (arguments : gmap string value) (text : pystr) :
  arguments !! "text" = Some (VStr text) ->
  blank text = false ->
  (0 < Nat.max (sentences text) 1)%nat
  /\ (0 < Nat.max (words text) 1)%nat
  /\ (0 < List.length text)%nat
  /\ call_tool cfg rt (lit "count_text") arguments
     = Ok (text_block
             (count_text_report text
                (format_ratio rt (Z.of_nat (words text))
                   (Z.of_nat (Nat.max (sentences text) 1)))
                (format_ratio rt (Z.of_nat (chars_without_spaces text))
                   (Z.of_nat (Nat.max (words text) 1)))))
  /\ (forall cleaned,
        clean (get arguments "mode" (VStr (lit "basic"))) text = Some cleaned ->
        exists mode,
          get arguments "mode" (VStr (lit "basic")) = VStr mode
          /\ call_tool cfg rt (lit "clean_text") arguments
             = Ok (text_block
                     (clean_text_report (upper mode) (List.length text) cleaned
                        (Z.of_nat (List.length text)
                         - Z.of_nat (List.length cleaned))
                        (format_percent rt
                           (Z.of_nat (List.length text)
                            - Z.of_nat (List.length cleaned))
                           (Z.of_nat (List.length text)))))).
Proof.
  intros Htext Hblank.
  assert (Hlen : (0 < List.length text)%nat).
  { destruct text; [discriminate Hblank | cbn; lia]. }
  split; [lia|]. split; [lia|]. split; [exact Hlen|]. split.
  - rewrite call_tool_count_text. unfold call_count_text.
    rewrite (get_lookup _ _ _ _ Htext). cbn [as_str mbind result_bind].
    rewrite Hblank. rewrite !truediv_positive by lia. reflexivity.
  - intros cleaned Hclean.
    destruct (clean_some_is_str _ _ _ Hclean) as [mode Hmode].
    exists mode. split; [exact Hmode|].
    rewrite call_tool_clean_text. unfold call_clean_text.
    rewrite (get_lookup _ _ _ _ Htext). cbn [as_str mbind result_bind].
    rewrite Hblank, Hclean, Hmode. cbn [as_str mbind result_bind].
    rewrite truediv_positive by exact Hlen. reflexivity.
Qed.

Lemma divisions_defined_witness :
  (0 < Nat.max (sentences Sample.hello) 1)%nat
  /\ (0 < Nat.max (words Sample.hello) 1)%nat
  /\ (0 < List.length Sample.hello)%nat.
Proof.
  pose proof (divisions_defined Sample.config Sample.runtime
                {[ "text" := VStr Sample.hello ]} Sample.hello
                eq_refl eq_refl) as (Hs & Hw & Hl & _).
  exact (conj Hs (conj Hw Hl)).
Defined.

(** ** Case mappings *)

Lemma in_run_codes (c : N) (r : case_run) :
  run_stride r <> 0 -> in_run c r = true -> In c (run_codes r).
Proof.
  destruct r as [[[start count] stride] image]. cbn [run_stride].
  intros Hs H. unfold in_run in H.
  apply andb_prop in H as [H Hcount]. apply andb_prop in H as [Hstart Hmod].
  apply N.leb_le in Hstart. apply N.eqb_eq in Hmod. apply N.ltb_lt in Hcount.
  unfold run_codes. apply in_map_iff.
  exists (N.to_nat ((c - start) / stride)). split.
  - rewrite N2Nat.id.
    pose proof (N.div_mod (c - start) stride Hs) as Hdm.
    rewrite Hmod, N.add_0_r in Hdm. rewrite <- Hdm. lia.
  - apply in_seq. generalize dependent ((c - start) / stride). lia.
Qed.

(** Every code point in the image of a case mapping satisfies [P], or
    the mapping leaves the code point as it is. *)
Lemma case_map_image (rs : list case_run) (special : list (N * list N))
    (P : N -> bool) (c d : N) :
  images_all rs special P = true ->
  In d (case_map rs special c) ->
  P d = true \/ (d = c /\ case_map rs special c = [c]).
Proof.
  intros Hall Hd. unfold images_all in Hall.
  apply andb_prop in Hall as [Hsp Hrs].
  rewrite forallb_forall in Hsp. rewrite forallb_forall in Hrs.
  unfold case_map in *.
  destruct (find (fun e => fst e =? c) special) as [e|] eqn:Hfs.
  - left. apply find_some in Hfs as [Hin _].
    specialize (Hsp e Hin). rewrite forallb_forall in Hsp. now apply Hsp.
  - destruct (find (in_run c) rs) as [r|] eqn:Hfr.
    + left. apply find_some in Hfr as [Hin Hrun].
      specialize (Hrs r Hin). apply andb_prop in Hrs as [Hstride Hr].
      apply negb_true_iff, N.eqb_neq in Hstride.
      rewrite forallb_forall in Hr.
      destruct Hd as [<-|[]]. apply Hr. now apply in_run_codes.
    + right. destruct Hd as [<-|[]]. now split.
Qed.

Lemma upper_images_fixed : images_all upper_runs upper_special upper_fixed = true.
Proof. vm_compute. reflexivity. Qed.

Lemma lower_images_fixed : images_all lower_runs lower_special lower_fixed = true.
Proof. vm_compute. reflexivity. Qed.

(** Upper-casing a character yields characters that are their own
    upper case. *)
Lemma to_upper_fixed (c d : N) : In d (to_upper c) -> to_upper d = [d].
Proof.
  intros Hd. unfold to_upper in Hd.
  destruct (case_map_image _ _ _ _ _ upper_images_fixed Hd) as [H|[-> H]].
  - unfold upper_fixed in H. now apply bool_decide_eq_true_1 in H.
  - exact H.
Qed.

Lemma flat_map_fixed (f : N -> list N) (l : pystr) :
  Forall (fun d => f d = [d]) l -> flat_map f l = l.
Proof.
  induction 1 as [|d l Hd _ IH]; [reflexivity|].
  cbn [flat_map]. now rewrite Hd, IH.
Qed.

Lemma upper_idempotent (text : pystr) : upper (upper text) = upper text.
Proof.
  unfold upper. apply flat_map_fixed. apply List.Forall_forall.
  intros d Hd. apply in_flat_map in Hd as (c & _ & Hd).
  eapply to_upper_fixed; eauto.
Qed.

Lemma lower_ucs4_fixed (U : ucd) (before : pystr) (c : N) (after : pystr)
    (d : N) :
  In d (lower_ucs4 U before c after) -> lower_fixed d = true.
Proof.
  unfold lower_ucs4. destruct (c =? SIGMA) eqn:Hc.
  - intros [<-|[]]. unfold handle_capital_sigma.
    destruct (_ && _); vm_compute; reflexivity.
  - intros Hd. unfold to_lower in Hd.
    destruct (case_map_image _ _ _ _ _ lower_images_fixed Hd) as [H|[-> H]];
      [exact H|].
    unfold lower_fixed. rewrite Hc. cbn [negb andb].
    now apply bool_decide_eq_true_2.
Qed.

Lemma lower_from_image (U : ucd) (text before : pystr) :
  Forall (fun d => lower_fixed d = true) (lower_from U before text).
Proof.
  revert before. induction text as [|c text IH]; intros before; cbn.
  - constructor.
  - apply Forall_app. split; [|apply IH].
    apply List.Forall_forall. intros d Hd. eapply lower_ucs4_fixed; eauto.
Qed.

Lemma lower_from_fixed (U : ucd) (l before : pystr) :
  Forall (fun d => lower_fixed d = true) l -> lower_from U before l = l.
Proof.
  intros H. revert before. induction H as [|d l Hd _ IH]; intros before.
  - reflexivity.
  - cbn [lower_from]. rewrite IH. unfold lower_ucs4.
    unfold lower_fixed in Hd. apply andb_prop in Hd as [Hs Hl].
    apply negb_true_iff in Hs. rewrite Hs.
    apply bool_decide_eq_true_1 in Hl. now rewrite Hl.
Qed.

Lemma lower_idempotent (U : ucd) (text : pystr) :
  lower U (lower U text) = lower U text.
Proof. unfold lower. apply lower_from_fixed, lower_from_image. Qed.
(** ** The snake and kebab transforms *)

Lemma dropwhile_suffix (p : N -> bool) (s : pystr) :
  exists l, s = l ++ dropwhile p s.
Proof.
  induction s as [|c s [l IH]]; cbn.
  - now exists [].
  - destruct (p c).
    + exists (c :: l). cbn. now f_equal.
    + now exists [].
Qed.

Lemma dropwhile_head (p : N -> bool) (s : pystr) :
  head_not p (dropwhile p s) = true.
Proof.
  induction s as [|c s IH]; cbn; [reflexivity|].
  destruct (p c) eqn:Hc; [exact IH|]. cbn. now rewrite Hc.
Qed.

Lemma dropwhile_id (p : N -> bool) (s : pystr) :
  head_not p s = true -> dropwhile p s = s.
Proof.
  destruct s as [|c s]; cbn; [reflexivity|].
  intros H. apply negb_true_iff in H. now rewrite H.
Qed.

(** Dropping from the front keeps the last character. *)
Lemma dropwhile_keeps_last (p : N -> bool) (s : pystr) :
  head_not p (rev s) = true -> head_not p (rev (dropwhile p s)) = true.
Proof.
  induction s as [|c s IH]; cbn [dropwhile]; [reflexivity|].
  intros H. destruct (p c) eqn:Hc; [|exact H].
  apply IH. cbn [rev] in H. destruct (rev s) as [|a r]; [|exact H].
  cbn in H. now rewrite Hc in H.
Qed.

(** The result of a strip is a block of the text with no stripped
    character at either end. *)
Lemma strip_by_block (p : N -> bool) (s : pystr) :
  exists l r, s = l ++ strip_by p s ++ r.
Proof.
  unfold strip_by, rstrip_by, lstrip_by.
  destruct (dropwhile_suffix p s) as [l Hl].
  destruct (dropwhile_suffix p (rev (dropwhile p s))) as [r Hr].
  exists l, (rev r). rewrite <- rev_app_distr, <- Hr, rev_involutive.
  exact Hl.
Qed.

Lemma strip_by_ends (p : N -> bool) (s : pystr) :
  head_not p (strip_by p s) = true
  /\ head_not p (rev (strip_by p s)) = true.
Proof.
  unfold strip_by, rstrip_by, lstrip_by. split.
  - apply dropwhile_keeps_last. rewrite rev_involutive.
    apply dropwhile_head.
  - rewrite rev_involutive. apply dropwhile_head.
Qed.

Lemma strip_by_id (p : N -> bool) (s : pystr) :
  head_not p s = true -> head_not p (rev s) = true -> strip_by p s = s.
Proof.
  intros Hh Hl. unfold strip_by, rstrip_by, lstrip_by.
  rewrite (dropwhile_id p s Hh), (dropwhile_id p (rev s) Hl).
  apply rev_involutive.
Qed.

Lemma no_double_app_l (sep : N) (a b : pystr) :
  no_double sep (a ++ b) = true -> no_double sep a = true.
Proof.
  induction a as [|x a IH]; [reflexivity|].
  cbn [app no_double]. destruct a as [|y a].
  - reflexivity.
  - cbn [app]. intros H. apply andb_prop in H as [H1 H2].
    rewrite H1. cbn [andb]. apply IH. exact H2.
Qed.

Lemma no_double_app_r (sep : N) (a b : pystr) :
  no_double sep (a ++ b) = true -> no_double sep b = true.
Proof.
  induction a as [|x a IH]; [trivial|].
  cbn [app no_double]. destruct (a ++ b) as [|y r] eqn:Hab.
  - destruct a; [cbn in Hab; subst; trivial | discriminate Hab].
  - intros H. apply andb_prop in H as [_ H2]. apply IH. exact H2.
Qed.

Lemma no_double_block (sep : N) (l m r : pystr) :
  no_double sep (l ++ m ++ r) = true -> no_double sep m = true.
Proof.
  intros H. apply no_double_app_r in H. now apply no_double_app_l in H.
Qed.

Lemma forallb_block (p : N -> bool) (l m r : pystr) :
  forallb p (l ++ m ++ r) = true -> forallb p m = true.
Proof.
  rewrite !forallb_app. intros H.
  apply andb_prop in H as [_ H]. now apply andb_prop in H as [H _].
Qed.

(** Collapsing the runs of separators leaves no two in a row, and
    changes nothing when there were none. *)
Lemma sub_plus_no_double (sep : N) (s : pystr) (inrun : bool) :
  no_double sep (Re.sub_plus_from (Re.is_char sep) [sep] inrun s) = true
  /\ (inrun = true ->
      head_not (Re.is_char sep)
        (Re.sub_plus_from (Re.is_char sep) [sep] inrun s) = true).
Proof.
  revert inrun. induction s as [|c s IH]; intros inrun.
  - now split.
  - cbn [Re.sub_plus_from]. change (Re.is_char sep c) with (c =? sep).
    destruct (c =? sep) eqn:Hc.
    + destruct (IH true) as [IH1 IH2]. specialize (IH2 eq_refl).
      destruct inrun.
      * split; [exact IH1 | intros _; exact IH2].
      * split; [|discriminate]. cbn [app no_double].
        destruct (Re.sub_plus_from _ _ true s) as [|b r]; [reflexivity|].
        rewrite IH1. cbn [head_not] in IH2. unfold Re.is_char in IH2.
        apply negb_true_iff in IH2. rewrite IH2, andb_false_r. reflexivity.
    + destruct (IH false) as [IH1 _]. split.
      * cbn [no_double].
        destruct (Re.sub_plus_from _ _ false s) as [|b r]; [reflexivity|].
        rewrite Hc, IH1. reflexivity.
      * intros _. cbn [head_not]. unfold Re.is_char. now rewrite Hc.
Qed.

Lemma sub_plus_fixed (sep : N) (s : pystr) (inrun : bool) :
  no_double sep s = true ->
  (inrun = true -> head_not (Re.is_char sep) s = true) ->
  Re.sub_plus_from (Re.is_char sep) [sep] inrun s = s.
Proof.
  revert inrun. induction s as [|c s IH]; intros inrun Hnd Hh; [reflexivity|].
  cbn [Re.sub_plus_from]. change (Re.is_char sep c) with (c =? sep).
  assert (Hs : no_double sep s = true).
  { cbn [no_double] in Hnd. destruct s; [reflexivity|].
    now apply andb_prop in Hnd as [_ ?]. }
  destruct (c =? sep) eqn:Hc.
  - destruct inrun.
    + specialize (Hh eq_refl). cbn in Hh. unfold Re.is_char in Hh.
      now rewrite Hc in Hh.
    + apply N.eqb_eq in Hc. subst c. cbn [app]. f_equal.
      apply IH; [exact Hs|]. intros _.
      cbn [no_double] in Hnd. destruct s as [|b r]; [reflexivity|].
      apply andb_prop in Hnd as [Hnd _]. rewrite N.eqb_refl in Hnd.
      cbn [andb head_not] in *. exact Hnd.
  - f_equal. apply IH; [exact Hs | discriminate].
Qed.

Lemma sub_plus_forallb (p q : N -> bool) (repl s : pystr) (inrun : bool) :
  forallb q repl = true -> forallb q s = true ->
  forallb q (Re.sub_plus_from p repl inrun s) = true.
Proof.
  intros Hrepl. revert inrun. induction s as [|c s IH]; intros inrun; cbn.
  - trivial.
  - intros H. apply andb_prop in H as [Hc Hs].
    destruct (p c), inrun; rewrite ?forallb_app; cbn;
      rewrite ?Hrepl, ?Hc, ?IH; auto.
Qed.

Lemma in_codes (lo hi c : N) :
  Re.in_range lo hi c = true -> In c (codes lo hi).
Proof.
  unfold Re.in_range. intros H. apply andb_prop in H as [Hlo Hhi].
  apply N.leb_le in Hlo. apply N.leb_le in Hhi.
  unfold codes. apply in_map_iff. exists (N.to_nat c). split.
  - apply N2Nat.id.
  - apply in_seq. lia.
Qed.

Lemma alnum_cases (c : N) :
  Re.alnum c = true -> In c (codes 97 122 ++ codes 65 90 ++ codes 48 57).
Proof.
  unfold Re.alnum. intros H. rewrite !in_app_iff.
  apply orb_prop in H as [H|H]; [apply orb_prop in H as [H|H]|];
    apply in_codes in H; auto.
Qed.

Lemma lower_alnum_alnum (c : N) : lower_alnum c = true -> Re.alnum c = true.
Proof.
  unfold lower_alnum, Re.alnum. intros H.
  apply orb_prop in H as [->| ->]; [reflexivity | apply orb_true_r].
Qed.

(** An ASCII letter or digit has one lower case, a lowercase letter or
    the digit itself. *)
Lemma to_lower_alnum (c : N) :
  Re.alnum c = true ->
  (c =? SIGMA) = false /\ exists d, to_lower c = [d] /\ lower_alnum d = true.
Proof.
  intros H. apply alnum_cases in H.
  assert (Hall : forallb (fun c =>
            negb (c =? SIGMA)
            && match to_lower c with
               | [d] => lower_alnum d
               | _ => false
               end) (codes 97 122 ++ codes 65 90 ++ codes 48 57) = true)
    by (vm_compute; reflexivity).
  rewrite forallb_forall in Hall. specialize (Hall c H).
  apply andb_prop in Hall as [Hs Hl]. apply negb_true_iff in Hs.
  split; [exact Hs|].
  destruct (to_lower c) as [|d [|]]; try discriminate Hl. now exists d.
Qed.

(** A lowercase ASCII letter or a digit is its own lower case and is no
    whitespace. *)
Lemma lower_alnum_plain (c : N) :
  lower_alnum c = true -> lower_fixed c = true /\ isspace c = false.
Proof.
  intros H. pose proof (alnum_cases c (lower_alnum_alnum c H)) as Hin.
  assert (Hall : forallb (fun c =>
            implb (lower_alnum c) (lower_fixed c && negb (isspace c)))
            (codes 97 122 ++ codes 65 90 ++ codes 48 57) = true)
    by (vm_compute; reflexivity).
  rewrite forallb_forall in Hall. specialize (Hall c Hin).
  rewrite H in Hall. cbn [implb] in Hall.
  apply andb_prop in Hall as [Hf Hs]. now apply negb_true_iff in Hs.
Qed.

Section Separated.

Variable U : ucd.
Variable sep : N.
Hypothesis Hsep : separator sep = true.

Lemma separator_facts :
  Re.alnum sep = false /\ isspace sep = false /\ lower_fixed sep = true.
Proof.
  unfold separator in Hsep. apply andb_prop in Hsep as [H Hl].
  apply andb_prop in H as [Ha Hs].
  apply negb_true_iff in Ha. apply negb_true_iff in Hs. auto.
Qed.

Lemma sepchar_lower_fixed (c : N) : sepchar sep c = true -> lower_fixed c = true.
Proof.
  unfold sepchar. intros H. apply orb_prop in H as [H|H].
  - now apply lower_alnum_plain.
  - apply N.eqb_eq in H. subst c. apply separator_facts.
Qed.

Lemma sub_each_image (s : pystr) :
  forallb (fun c => Re.alnum c || (c =? sep))
    (Re.sub_each Re.not_alnum [sep] s) = true.
Proof.
  unfold Re.sub_each. induction s as [|c s IH]; [reflexivity|].
  cbn [flat_map]. rewrite forallb_app, IH, andb_true_r.
  unfold Re.not_alnum. destruct (Re.alnum c) eqn:Hc; cbn.
  - now rewrite Hc.
  - now rewrite N.eqb_refl, orb_true_r.
Qed.

Lemma lower_from_sepchar (s before : pystr) :
  forallb (fun c => Re.alnum c || (c =? sep)) s = true ->
  forallb (sepchar sep) (lower_from U before s) = true.
Proof.
  revert before. induction s as [|c s IH]; intros before; [reflexivity|].
  cbn [forallb lower_from]. intros H. apply andb_prop in H as [Hc Hs].
  rewrite forallb_app, (IH _ Hs), andb_true_r.
  unfold lower_ucs4.
  destruct (Re.alnum c) eqn:Ha.
  - destruct (to_lower_alnum c Ha) as (Hsig & d & Hd & Hdl).
    rewrite Hsig, Hd. cbn. unfold sepchar. now rewrite Hdl.
  - cbn [orb] in Hc. apply N.eqb_eq in Hc. subst c.
    destruct separator_facts as (_ & _ & Hl).
    unfold lower_fixed in Hl. apply andb_prop in Hl as [Hsig Hl].
    apply negb_true_iff in Hsig. apply bool_decide_eq_true_1 in Hl.
    rewrite Hsig, Hl. cbn. unfold sepchar.
    now rewrite N.eqb_refl, orb_true_r.
Qed.

Lemma dropwhile_ext (p q : N -> bool) (s : pystr) :
  (forall c, p c = q c) -> dropwhile p s = dropwhile q s.
Proof.
  intros H. induction s as [|c s IH]; [reflexivity|].
  cbn. now rewrite H, IH.
Qed.

Lemma strip_chars_sep (s : pystr) :
  strip_chars [sep] s = strip_by (Re.is_char sep) s.
Proof.
  assert (H : forall c, existsb (N.eqb c) [sep] = Re.is_char sep c).
  { intros c. cbn. apply orb_false_r. }
  unfold strip_chars, strip_by, rstrip_by, lstrip_by.
  now rewrite !(dropwhile_ext _ _ _ H).
Qed.

(** The result of the transform has the separated form. *)
Lemma separated_has_form (text : pystr) :
  separated_form sep (separated U sep text) = true.
Proof.
  unfold separated. rewrite strip_chars_sep.
  set (r1 := lower U _).
  assert (H1 : forallb (sepchar sep) r1 = true)
    by apply lower_from_sepchar, sub_each_image.
  set (r2 := Re.sub_plus (Re.is_char sep) [sep] r1).
  assert (H2 : forallb (sepchar sep) r2 = true).
  { apply sub_plus_forallb; [|exact H1]. cbn. unfold sepchar.
    now rewrite N.eqb_refl, orb_true_r. }
  assert (N2 : no_double sep r2 = true) by apply sub_plus_no_double.
  destruct (strip_by_block (Re.is_char sep) r2) as (l & r & Hblock).
  destruct (strip_by_ends (Re.is_char sep) r2) as [Hh Hl].
  unfold separated_form. rewrite Hh, Hl, !andb_true_r.
  rewrite Hblock in H2, N2.
  now rewrite (forallb_block _ _ _ _ H2), (no_double_block _ _ _ _ N2).
Qed.

Lemma replace_absent (a : N) (new s : pystr) :
  forallb (fun c => negb (c =? a)) s = true -> replace [a] new s = s.
Proof.
  unfold replace. induction s as [|c s IH]; [reflexivity|].
  cbn [forallb replace_from is_prefix]. intros H.
  apply andb_prop in H as [Hc Hs]. apply negb_true_iff in Hc.
  rewrite N.eqb_sym, Hc. cbn [andb]. now rewrite (IH Hs).
Qed.

Lemma head_not_sep_space (s : pystr) :
  forallb (sepchar sep) s = true ->
  head_not (Re.is_char sep) s = true -> head_not isspace s = true.
Proof.
  destruct s as [|c s]; [reflexivity|]. cbn.
  intros H Hh. apply andb_prop in H as [Hc _].
  unfold Re.is_char in Hh. apply negb_true_iff in Hh.
  unfold sepchar in Hc. rewrite Hh, orb_false_r in Hc.
  apply lower_alnum_plain in Hc as [_ ->]. reflexivity.
Qed.

(** A text of the separated form is left as it is. *)
Lemma separated_fixed (r : pystr) :
  separated_form sep r = true -> separated U sep r = r.
Proof.
  unfold separated_form. intros H.
  apply andb_prop in H as [H Hlast]. apply andb_prop in H as [H Hhead].
  apply andb_prop in H as [Hall Hnd].
  destruct separator_facts as (Hna & Hns & Hlf).
  assert (Hrev : forallb (sepchar sep) (rev r) = true).
  { rewrite forallb_forall in Hall. apply forallb_forall.
    intros c Hc. apply Hall. now apply in_rev. }
  unfold separated. rewrite strip_chars_sep.
  assert (E1 : strip r = r).
  { apply strip_by_id; now apply head_not_sep_space. }
  assert (E2 : replace (lit " ") [sep] r = r).
  { apply (replace_absent 32). rewrite forallb_forall in Hall.
    apply forallb_forall. intros c Hc. specialize (Hall c Hc).
    apply negb_true_iff. apply N.eqb_neq. intros ->.
    unfold sepchar in Hall. apply orb_prop in Hall as [Hall|Hall].
    - discriminate Hall.
    - apply N.eqb_eq in Hall. subst sep. discriminate Hns. }
  assert (E3 : Re.sub_each Re.not_alnum [sep] r = r).
  { unfold Re.sub_each. clear -Hall Hna. induction r as [|c r IH].
    - reflexivity.
    - cbn [forallb] in Hall. apply andb_prop in Hall as [Hc Hr].
      cbn [flat_map]. rewrite (IH Hr). unfold Re.not_alnum.
      unfold sepchar in Hc. apply orb_prop in Hc as [Hc|Hc].
      + now rewrite (lower_alnum_alnum _ Hc).
      + apply N.eqb_eq in Hc. subst c. now rewrite Hna. }
  assert (E4 : lower U r = r).
  { apply lower_from_fixed. apply List.Forall_forall. intros c Hc.
    rewrite forallb_forall in Hall. now apply sepchar_lower_fixed, Hall. }
  rewrite E1, E2, E3, E4.
  unfold Re.sub_plus. rewrite sub_plus_fixed; [|exact Hnd|discriminate].
  now apply strip_by_id.
Qed.

Lemma separated_idempotent (text : pystr) :
  separated U sep (separated U sep text) = separated U sep text.
Proof. apply separated_fixed, separated_has_form. Qed.

End Separated.

Lemma snake_idempotent (U : ucd) (text : pystr) :
  snake U (snake U text) = snake U text.
Proof. apply separated_idempotent. vm_compute. reflexivity. Qed.

Lemma kebab_idempotent (U : ucd) (text : pystr) :
  kebab U (kebab U text) = kebab U text.
Proof. apply separated_idempotent. vm_compute. reflexivity. Qed.

(** ** convert_case *)

Lemma call_tool_convert_case (cfg : config) (rt : runtime) arguments :
  call_tool cfg rt (lit "convert_case") arguments
  = call_convert_case rt arguments.
Proof. reflexivity. Qed.

(** The four transforms of [convert] the claim is about. *)
Lemma convert_stable (U : ucd) (case_type text result : pystr) :
  In case_type [lit "upper"; lit "lower"; lit "snake"; lit "kebab"] ->
  convert U case_type text = Some result ->
  convert U case_type result = Some result.
Proof.
  intros Hin Hc.
  destruct Hin as [<-|[<-|[<-|[<-|[]]]]].
  - change (Some (upper text) = Some result) in Hc.
    change (Some (upper result) = Some result).
    injection Hc as <-. now rewrite upper_idempotent.
  - change (Some (lower U text) = Some result) in Hc.
    change (Some (lower U result) = Some result).
    injection Hc as <-. now rewrite lower_idempotent.
  - change (Some (snake U text) = Some result) in Hc.
    change (Some (snake U result) = Some result).
    injection Hc as <-. now rewrite snake_idempotent.
  - change (Some (kebab U text) = Some result) in Hc.
    change (Some (kebab U result) = Some result).
    injection Hc as <-. now rewrite kebab_idempotent.
Qed.

(** C8: for a text that is not blank and a case type that reads upper,
    lower, snake or kebab, [convert_case] reports a result on which the
    same transform changes nothing: applying it twice gives what
    applying it once gives. *)
Theorem convert_case_idempotent (cfg : config) (rt : runtime)
    (arguments : gmap string value) (text case_arg case_type : pystr) :
  arguments !! "text" = Some (VStr text) ->
  arguments !! "case_type" = Some (VStr case_arg) ->
  lower (chardb rt) case_arg = case_type ->
  In case_type [lit "upper"; lit "lower"; lit "snake"; lit "kebab"] ->
  blank text = false ->
  exists result,
    convert (chardb rt) case_type text = Some result
    /\ call_tool cfg rt (lit "convert_case") arguments
       = Ok (text_block (convert_case_report case_type text result))
    /\ convert (chardb rt) case_type result = Some result.
Proof.
  intros Htext Hcase Hlower Hin Hblank.
  assert (Hsome : exists result, convert (chardb rt) case_type text = Some result).
  { destruct Hin as [<-|[<-|[<-|[<-|[]]]]]; eexists; reflexivity. }
  destruct Hsome as [result Hres]. exists result.
  split; [exact Hres|]. split.
  - rewrite call_tool_convert_case. unfold call_convert_case, get_lower.
    rewrite (get_lookup _ _ _ _ Htext), (get_lookup _ _ _ _ Hcase).
    cbn [as_str mbind result_bind]. rewrite Hlower, Hblank, Hres.
    reflexivity.
  - eapply convert_stable; eauto.
Qed.

Lemma convert_case_idempotent_witness :
  convert (chardb Sample.runtime) (lit "snake") (lit "hello_world_foo_bar")
  = Some (lit "hello_world_foo_bar").
Proof.
  set (arguments := ({[ "text" := VStr (lit " Hello, World!! foo_bar ");
                        "case_type" := VStr (lit "Snake") ]}
                     : gmap string value)).
  assert (Htext : arguments !! "text"
                  = Some (VStr (lit " Hello, World!! foo_bar ")))
    by (vm_compute; reflexivity).
  assert (Hcase : arguments !! "case_type" = Some (VStr (lit "Snake")))
    by (vm_compute; reflexivity).
  assert (Hlower : lower (chardb Sample.runtime) (lit "Snake") = lit "snake")
    by (vm_compute; reflexivity).
  assert (Hblank : blank (lit " Hello, World!! foo_bar ") = false)
    by (vm_compute; reflexivity).
  destruct (convert_case_idempotent Sample.config Sample.runtime arguments
              (lit " Hello, World!! foo_bar ") (lit "Snake") (lit "snake")
              Htext Hcase Hlower
              (or_intror (or_intror (or_introl eq_refl))) Hblank)
    as (result & Hfirst & _ & Hsecond).
  vm_compute in Hfirst. injection Hfirst as <-. exact Hsecond.
Defined.

(** ** UTF-8 *)

Lemma in_codes_range (lo hi c : N) :
  lo <= c <= hi -> In c (codes lo hi).
Proof.
  intros H. unfold codes. apply in_map_iff. exists (N.to_nat c). split.
  - apply N2Nat.id.
  - apply in_seq. lia.
Qed.

(** [hi | x] is [hi + x] when the bits of [x] lie below those of
    [hi]; checked on every [x] below the bound. *)
Lemma lor_low (hi bound x : N) :
  forallb (fun x => N.lor hi x =? hi + x) (codes 0 (bound - 1)) = true ->
  x < bound -> N.lor hi x = hi + x.
Proof.
  intros Hall Hx. rewrite forallb_forall in Hall.
  apply N.eqb_eq, Hall, in_codes_range. lia.
Qed.

Lemma lor_80 x : x < 64 -> N.lor 0x80 x = 0x80 + x.
Proof. apply lor_low. vm_compute. reflexivity. Qed.
Lemma lor_C0 x : x < 32 -> N.lor 0xC0 x = 0xC0 + x.
Proof. apply lor_low. vm_compute. reflexivity. Qed.
Lemma lor_E0 x : x < 16 -> N.lor 0xE0 x = 0xE0 + x.
Proof. apply lor_low. vm_compute. reflexivity. Qed.
Lemma lor_F0 x : x < 8 -> N.lor 0xF0 x = 0xF0 + x.
Proof. apply lor_low. vm_compute. reflexivity. Qed.

Lemma shiftr_6 c : N.shiftr c 6 = c / 64.
Proof. apply N.shiftr_div_pow2. Qed.
Lemma shiftr_12 c : N.shiftr c 12 = c / 4096.
Proof. apply N.shiftr_div_pow2. Qed.
Lemma shiftr_18 c : N.shiftr c 18 = c / 262144.
Proof. apply N.shiftr_div_pow2. Qed.
Lemma land_3F c : N.land c 0x3F = c mod 64.
Proof. apply (N.land_ones c 6). Qed.
Lemma shiftl_6 c : N.shiftl c 6 = c * 64.
Proof. apply N.shiftl_mul_pow2. Qed.
Lemma shiftl_12 c : N.shiftl c 12 = c * 4096.
Proof. apply N.shiftl_mul_pow2. Qed.
Lemma shiftl_18 c : N.shiftl c 18 = c * 262144.
Proof. apply N.shiftl_mul_pow2. Qed.

(** The digits of a code point in base 64. *)
Lemma base64_digits (c : N) :
  exists d0 d1 d2 d3,
    c = d0 + 64 * (d1 + 64 * (d2 + 64 * d3))
    /\ d0 < 64 /\ d1 < 64 /\ d2 < 64
    /\ c mod 64 = d0 /\ c / 64 = d1 + 64 * (d2 + 64 * d3)
    /\ (c / 64) mod 64 = d1 /\ c / 4096 = d2 + 64 * d3
    /\ (c / 4096) mod 64 = d2 /\ c / 262144 = d3.
Proof.
  exists (c mod 64), ((c / 64) mod 64), ((c / 4096) mod 64), (c / 262144).
  assert (H1 : c / 4096 = c / 64 / 64) by (rewrite N.Div0.div_div; reflexivity).
  assert (H2 : c / 262144 = c / 4096 / 64) by (rewrite N.Div0.div_div; reflexivity).
  pose proof (N.div_mod c 64 ltac:(discriminate)) as E0.
  pose proof (N.div_mod (c / 64) 64 ltac:(discriminate)) as E1.
  pose proof (N.div_mod (c / 4096) 64 ltac:(discriminate)) as E2.
  pose proof (N.mod_lt c 64 ltac:(discriminate)).
  pose proof (N.mod_lt (c / 64) 64 ltac:(discriminate)).
  pose proof (N.mod_lt (c / 4096) 64 ltac:(discriminate)).
  rewrite <- H1 in E1. rewrite <- H2 in E2.
  generalize dependent (c mod 64). generalize dependent ((c / 64) mod 64).
  generalize dependent ((c / 4096) mod 64).
  generalize dependent (c / 262144). generalize dependent (c / 4096).
  generalize dependent (c / 64). intros. repeat split; lia.
Qed.

Ltac decide_cmp :=
  repeat match goal with
  | |- context [?a <? ?b] =>
      first [ replace (a <? b) with true by (symmetry; apply N.ltb_lt; lia)
            | replace (a <? b) with false by (symmetry; apply N.ltb_ge; lia) ]
  | |- context [?a <=? ?b] =>
      first [ replace (a <=? b) with true by (symmetry; apply N.leb_le; lia)
            | replace (a <=? b) with false by (symmetry; apply N.leb_gt; lia) ]
  | |- context [?a =? ?b] =>
      first [ replace (a =? b) with true by (symmetry; apply N.eqb_eq; lia)
            | replace (a =? b) with false by (symmetry; apply N.eqb_neq; lia) ]
  end.

Lemma scalar_bounds (c : N) :
  Schema.scalar c = true -> c < 0x110000 /\ (c < 0xD800 \/ 0xDFFF < c).
Proof.
  unfold Schema.scalar, Utf8.surrogate. intros H.
  apply andb_prop in H as [Hlt Hs]. apply N.ltb_lt in Hlt.
  apply negb_true_iff, andb_false_iff in Hs.
  split; [exact Hlt|]. destruct Hs as [Hs|Hs].
  - apply N.leb_gt in Hs. now left.
  - apply N.leb_gt in Hs. now right.
Qed.

(** The bytes of a scalar value decode to it. *)
Lemma encode_char_decode (c : N) :
  Schema.scalar c = true ->
  exists bs,
    Utf8.encode_char c = Some bs
    /\ Forall (fun b => b < 256) bs
    /\ forall rest, Utf8.decode (bs ++ rest) = Utf8.prepend c (Utf8.decode rest).
Proof.
  intros Hc. apply scalar_bounds in Hc as [Hmax Hsur].
  destruct (base64_digits c)
    as (d0 & d1 & d2 & d3 & Hc & H0 & H1 & H2 & E0 & E1 & E1' & E2 & E2' & E3).
  unfold Utf8.encode_char, Utf8.surrogate.
  rewrite !shiftr_6, !shiftr_12, !shiftr_18, !land_3F.
  rewrite E0, E1', E2', E3, E2, E1.
  destruct (N.ltb_spec c 0x80) as [L1|L1].
  { eexists. split; [reflexivity|]. split; [repeat constructor; lia|].
    intros rest. cbn [app Utf8.decode]. decide_cmp. reflexivity. }
  destruct (N.ltb_spec c 0x800) as [L2|L2].
  { rewrite lor_C0, lor_80 by lia.
    eexists. split; [reflexivity|]. split; [repeat constructor; lia|].
    intros rest. cbn [app Utf8.decode]. unfold Utf8.continuation.
    rewrite !shiftl_6. decide_cmp. cbn [negb andb].
    f_equal. lia. }
  destruct ((0xD800 <=? c) && (c <=? 0xDFFF)) eqn:Hs.
  { apply andb_prop in Hs as [Ha Hb].
    apply N.leb_le in Ha. apply N.leb_le in Hb. lia. }
  clear Hs.
  destruct (N.ltb_spec c 0x10000) as [L3|L3].
  { rewrite lor_E0, !lor_80 by lia.
    eexists. split; [reflexivity|]. split; [repeat constructor; lia|].
    intros rest. cbn [app Utf8.decode]. unfold Utf8.continuation.
    rewrite !shiftl_6, !shiftl_12. decide_cmp. cbn [negb andb orb].
    destruct (N.ltb_spec (128 + d1) 160); decide_cmp; cbn [negb andb orb];
      f_equal; lia. }
  rewrite lor_F0, !lor_80 by lia.
  eexists. split; [reflexivity|]. split; [repeat constructor; lia|].
  intros rest. cbn [app Utf8.decode]. unfold Utf8.continuation.
  rewrite !shiftl_6, !shiftl_12, !shiftl_18. decide_cmp. cbn [negb andb orb].
  destruct (N.ltb_spec (128 + d2) 144); decide_cmp; cbn [negb andb orb];
    f_equal; lia.
Qed.

Lemma utf8_round_trip (s : pystr) :
  Schema.utf8_text s ->
  exists bin,
    Utf8.encode s = Ok bin /\ Forall (fun b => b < 256) bin
    /\ Utf8.decode bin = Ok s.
Proof.
  induction 1 as [|c s Hc _ (bin & Henc & Hbytes & Hdec)].
  - exists []. repeat split. constructor.
  - destruct (encode_char_decode c Hc) as (bs & Hbs & Hlt & Hround).
    exists (bs ++ bin). cbn [Utf8.encode]. rewrite Hbs, Henc.
    split; [reflexivity|]. split; [now apply Forall_app|].
    rewrite Hround, Hdec. reflexivity.
Qed.

(** ASCII bytes decode to themselves. *)
Lemma decode_ascii (s : pystr) :
  Base64.is_ascii s = true -> Utf8.decode s = Ok s.
Proof.
  unfold Base64.is_ascii. induction s as [|c s IH]; [reflexivity|].
  cbn [forallb Utf8.decode]. intros H. apply andb_prop in H as [Hc Hs].
  rewrite Hc, (IH Hs). reflexivity.
Qed.

(** ** Base64 *)

Lemma byte_cases (b : N) : b < 256 -> In b (codes 0 255).
Proof. intros H. apply in_codes_range. lia. Qed.

Lemma sextet_cases (v : N) : v < 64 -> In v (codes 0 63).
Proof. intros H. apply in_codes_range. lia. Qed.

(** A character of the alphabet is ASCII, is no pad and has its index
    as value. *)
Lemma a2b_b2a (v : N) :
  v < 64 ->
  Base64.a2b (Base64.b2a v) = Some v
  /\ (Base64.b2a v =? Base64.PAD) = false
  /\ (Base64.b2a v <? 128) = true.
Proof.
  intros Hv. apply sextet_cases in Hv.
  assert (Hall : forallb (fun v =>
            bool_decide (Base64.a2b (Base64.b2a v) = Some v)
            && negb (Base64.b2a v =? Base64.PAD)
            && (Base64.b2a v <? 128)) (codes 0 63) = true)
    by (vm_compute; reflexivity).
  rewrite forallb_forall in Hall. specialize (Hall v Hv).
  apply andb_prop in Hall as [Hall H3]. apply andb_prop in Hall as [H1 H2].
  apply bool_decide_eq_true_1 in H1. apply negb_true_iff in H2. auto.
Qed.

Lemma pairs_ok :
  forallb (fun x => forallb (pair_ok x) (codes 0 255)) (codes 0 255) = true.
Proof. vm_compute. reflexivity. Qed.

Lemma pair_facts (x y : N) :
  x < 256 -> y < 256 ->
  sextet0 x < 64 /\ sextet1 x y < 64 /\ sextet2 x y < 64 /\ sextet3 x < 64
  /\ N.shiftr (sextet1 x y) 4 = N.land x 3
  /\ N.land (sextet1 x y) 0xF = N.shiftr y 4
  /\ N.shiftr (sextet2 x y) 2 = N.land x 0xF
  /\ N.land (sextet2 x y) 0x3 = N.shiftr y 6
  /\ N.lor (N.shiftl (N.shiftr x 2) 2) (N.land x 3) = x
  /\ N.lor (N.shiftl (N.shiftr x 4) 4) (N.land x 0xF) = x
  /\ N.lor (N.shiftl (N.shiftr x 6) 6) (N.land x 0x3F) = x.
Proof.
  intros Hx Hy. apply byte_cases in Hx. apply byte_cases in Hy.
  pose proof pairs_ok as Hall. rewrite forallb_forall in Hall.
  specialize (Hall x Hx). rewrite forallb_forall in Hall.
  specialize (Hall y Hy). unfold pair_ok in Hall.
  repeat (apply andb_prop in Hall as [Hall ?]).
  repeat match goal with
         | H : (_ <? _) = true |- _ => apply N.ltb_lt in H
         | H : (_ =? _) = true |- _ => apply N.eqb_eq in H
         end.
  repeat match goal with |- _ /\ _ => split end; assumption.
Qed.

(** One data character read by the decoder. *)
Lemma a2b_data (v : N) (data : pybytes) (quad_pos : nat) (leftchar : N)
    (pads : nat) (out : pybytes) :
  v < 64 ->
  Base64.a2b_loop (Base64.b2a v :: data) quad_pos leftchar pads out
  = match quad_pos with
    | 0%nat => Base64.a2b_loop data 1 v 0 out
    | 1%nat =>
        Base64.a2b_loop data 2 (N.land v 0xF) 0
          (N.lor (N.shiftl leftchar 2) (N.shiftr v 4) :: out)
    | 2%nat =>
        Base64.a2b_loop data 3 (N.land v 0x3) 0
          (N.lor (N.shiftl leftchar 4) (N.shiftr v 2) :: out)
    | _ =>
        Base64.a2b_loop data 0 0 0 (N.lor (N.shiftl leftchar 6) v :: out)
    end.
Proof.
  intros Hv. destruct (a2b_b2a v Hv) as (Hval & Hpad & _).
  cbn [Base64.a2b_loop]. rewrite Hpad, Hval. reflexivity.
Qed.

(** Four characters give back the three bytes they encode. *)
Lemma a2b_group (b0 b1 b2 : N) (data : pybytes) (leftchar : N) (pads : nat)
    (out : pybytes) :
  b0 < 256 -> b1 < 256 -> b2 < 256 ->
  Base64.a2b_loop
    (Base64.b2a (sextet0 b0) :: Base64.b2a (sextet1 b0 b1)
     :: Base64.b2a (sextet2 b1 b2) :: Base64.b2a (sextet3 b2) :: data)
    0 leftchar pads out
  = Base64.a2b_loop data 0 0 0 (b2 :: b1 :: b0 :: out).
Proof.
  intros H0 H1 H2.
  destruct (pair_facts b0 b1 H0 H1)
    as (S0 & S1 & _ & _ & A1 & A2 & _ & _ & A3 & _ & _).
  destruct (pair_facts b1 b2 H1 H2)
    as (_ & _ & S2 & _ & _ & _ & B1 & B2 & _ & B3 & _).
  destruct (pair_facts b2 b2 H2 H2)
    as (_ & _ & _ & S3 & _ & _ & _ & _ & _ & _ & C3).
  rewrite !a2b_data by assumption.
  rewrite A1, A2, B1, B2. unfold sextet0 at 1. rewrite A3, B3.
  unfold sextet3. rewrite C3. reflexivity.
Qed.

Lemma b64_round_trip (bin : pybytes) :
  Forall (fun b => b < 256) bin ->
  forall leftchar pads out,
    Base64.a2b_loop (Base64.b64encode bin) 0 leftchar pads out
    = Ok (rev out ++ bin).
Proof.
  assert (H : forall n bin, (List.length bin <= n)%nat ->
            Forall (fun b => b < 256) bin ->
            forall leftchar pads out,
              Base64.a2b_loop (Base64.b64encode bin) 0 leftchar pads out
              = Ok (rev out ++ bin)).
  { induction n as [|n IH]; intros [|b0 [|b1 [|b2 rest]]] Hlen Hbytes lc pads out;
      cbn [List.length] in Hlen; try lia.
    - cbn. now rewrite app_nil_r.
    - cbn. now rewrite app_nil_r.
    - inversion_clear Hbytes as [|? ? H0 _].
      destruct (pair_facts b0 0 H0 ltac:(lia))
        as (S0 & S1 & _ & _ & A1 & _ & _ & _ & A3 & _ & _).
      cbn [Base64.b64encode].
      change (N.shiftr b0 2) with (sextet0 b0).
      replace (N.shiftl (N.land b0 3) 4) with (sextet1 b0 0)
        by (unfold sextet1; apply N.lor_0_r).
      rewrite !a2b_data by assumption. rewrite A1. unfold sextet0. rewrite A3.
      cbn. reflexivity.
    - inversion_clear Hbytes as [|? ? H0 Hb]. inversion_clear Hb as [|? ? H1 _].
      destruct (pair_facts b0 b1 H0 H1)
        as (S0 & S1 & _ & _ & A1 & A2 & _ & _ & A3 & _ & _).
      destruct (pair_facts b1 0 H1 ltac:(lia))
        as (_ & _ & S2 & _ & _ & _ & B1 & _ & _ & B3 & _).
      cbn [Base64.b64encode].
      change (N.shiftr b0 2) with (sextet0 b0).
      change (N.lor (N.shiftl (N.land b0 3) 4) (N.shiftr b1 4))
        with (sextet1 b0 b1).
      replace (N.shiftl (N.land b1 15) 2) with (sextet2 b1 0)
        by (unfold sextet2; apply N.lor_0_r).
      rewrite !a2b_data by assumption. rewrite A1, A2, B1.
      unfold sextet0. rewrite A3, B3. cbn. now rewrite <- !app_assoc.
    - inversion_clear Hbytes as [|? ? H0 Hb]. inversion_clear Hb as [|? ? H1 Hb'].
      inversion_clear Hb' as [|? ? H2 Hrest].
      cbn [Base64.b64encode].
      change (N.shiftr b0 2) with (sextet0 b0).
      change (N.lor (N.shiftl (N.land b0 3) 4) (N.shiftr b1 4))
        with (sextet1 b0 b1).
      change (N.lor (N.shiftl (N.land b1 15) 2) (N.shiftr b2 6))
        with (sextet2 b1 b2).
      change (N.land b2 63) with (sextet3 b2).
      rewrite a2b_group by assumption.
      rewrite IH; [|cbn [List.length] in Hlen; lia|exact Hrest].
      cbn [rev]. now rewrite <- !app_assoc. }
  intros Hbytes. eapply H; [reflexivity | exact Hbytes].
Qed.

Lemma b64encode_ascii (bin : pybytes) :
  Forall (fun b => b < 256) bin ->
  Base64.is_ascii (Base64.b64encode bin) = true.
Proof.
  assert (H : forall n bin, (List.length bin <= n)%nat ->
            Forall (fun b => b < 256) bin ->
            Base64.is_ascii (Base64.b64encode bin) = true).
  { unfold Base64.is_ascii.
    induction n as [|n IH]; intros [|b0 [|b1 [|b2 rest]]] Hlen Hbytes;
      cbn [List.length] in Hlen; try lia; try reflexivity.
    - inversion_clear Hbytes as [|? ? H0 _].
      destruct (pair_facts b0 0 H0 ltac:(lia))
        as (S0 & S1 & _ & _ & _).
      cbn [Base64.b64encode forallb].
      change (N.shiftr b0 2) with (sextet0 b0).
      replace (N.shiftl (N.land b0 3) 4) with (sextet1 b0 0)
        by (unfold sextet1; apply N.lor_0_r).
      destruct (a2b_b2a _ S0) as (_ & _ & ->).
      destruct (a2b_b2a _ S1) as (_ & _ & ->). reflexivity.
    - inversion_clear Hbytes as [|? ? H0 Hb]. inversion_clear Hb as [|? ? H1 _].
      destruct (pair_facts b0 b1 H0 H1) as (S0 & S1 & _ & _ & _).
      destruct (pair_facts b1 0 H1 ltac:(lia)) as (_ & _ & S2 & _ & _).
      cbn [Base64.b64encode forallb].
      change (N.shiftr b0 2) with (sextet0 b0).
      change (N.lor (N.shiftl (N.land b0 3) 4) (N.shiftr b1 4))
        with (sextet1 b0 b1).
      replace (N.shiftl (N.land b1 15) 2) with (sextet2 b1 0)
        by (unfold sextet2; apply N.lor_0_r).
      destruct (a2b_b2a _ S0) as (_ & _ & ->).
      destruct (a2b_b2a _ S1) as (_ & _ & ->).
      destruct (a2b_b2a _ S2) as (_ & _ & ->). reflexivity.
    - inversion_clear Hbytes as [|? ? H0 Hb]. inversion_clear Hb as [|? ? H1 Hb'].
      inversion_clear Hb' as [|? ? H2 Hrest].
      destruct (pair_facts b0 b1 H0 H1) as (S0 & S1 & _ & _ & _).
      destruct (pair_facts b1 b2 H1 H2) as (_ & _ & S2 & _ & _).
      destruct (pair_facts b2 b2 H2 H2) as (_ & _ & _ & S3 & _).
      cbn [Base64.b64encode forallb].
      change (N.shiftr b0 2) with (sextet0 b0).
      change (N.lor (N.shiftl (N.land b0 3) 4) (N.shiftr b1 4))
        with (sextet1 b0 b1).
      change (N.lor (N.shiftl (N.land b1 15) 2) (N.shiftr b2 6))
        with (sextet2 b1 b2).
      change (N.land b2 63) with (sextet3 b2).
      destruct (a2b_b2a _ S0) as (_ & _ & ->).
      destruct (a2b_b2a _ S1) as (_ & _ & ->).
      destruct (a2b_b2a _ S2) as (_ & _ & ->).
      destruct (a2b_b2a _ S3) as (_ & _ & ->).
      cbn [andb]. apply IH; [cbn [List.length] in Hlen; lia | exact Hrest]. }
  intros Hbytes. eapply H; [reflexivity | exact Hbytes].
Qed.

(** ** base64_converter *)

Lemma call_tool_base64_converter (cfg : config) (rt : runtime) arguments :
  call_tool cfg rt (lit "base64_converter") arguments
  = call_base64_converter rt arguments.
Proof. reflexivity. Qed.

Lemma preview_value_str (s : pystr) : preview_value (VStr s) = Ok (preview s).
Proof. reflexivity. Qed.

(** [b64decode(b64encode(bin))] is [bin]. *)
Lemma b64decode_b64encode (bin : pybytes) :
  Forall (fun b => b < 256) bin ->
  b64decode (VStr (b64encode bin)) = Ok bin.
Proof.
  intros Hbytes. unfold b64decode, bytes_from_decode_data.
  rewrite (b64encode_ascii _ Hbytes). cbn [mbind result_bind].
  unfold a2b_base64. now rewrite (b64_round_trip _ Hbytes).
Qed.

(** C2: for every string [s] that UTF-8 can encode, the encode
    operation reports a Base64 text [encoded], and the decode operation
    applied to [encoded] reports [s]. *)
Theorem base64_round_trip (cfg : config) (rt : runtime)
    (arguments : gmap string value) (s : pystr) :
  arguments !! "text" = Some (VStr s) ->
  arguments !! "operation" = Some (VStr (lit "encode")) ->
  Schema.utf8_text s ->
  exists encoded,
    call_tool cfg rt (lit "base64_converter") arguments
    = Ok (text_block (encoded_report (preview s) encoded))
    /\ forall arguments' : gmap string value,
         arguments' !! "text" = Some (VStr encoded) ->
         arguments' !! "operation" = Some (VStr (lit "decode")) ->
         call_tool cfg rt (lit "base64_converter") arguments'
         = Ok (text_block (decoded_report (preview encoded) s)).
Proof.
  intros Htext Hop Hs.
  destruct (utf8_round_trip s Hs) as (bin & Henc & Hbytes & Hdec).
  exists (b64encode bin). split.
  - rewrite call_tool_base64_converter.
    unfold call_base64_converter, get_lower.
    rewrite (get_lookup _ _ _ _ Htext), (get_lookup _ _ _ _ Hop).
    cbn [as_str mbind result_bind].
    change (lower (chardb rt) (lit "encode")) with (lit "encode").
    change (bool_decide (lit "encode" = lit "encode")) with true.
    cbv iota. rewrite Henc. cbn [mbind result_bind].
    rewrite (decode_ascii _ (b64encode_ascii _ Hbytes)).
    reflexivity.
  - intros arguments' Htext' Hop'.
    rewrite call_tool_base64_converter.
    unfold call_base64_converter, get_lower.
    rewrite (get_lookup _ _ _ _ Htext'), (get_lookup _ _ _ _ Hop').
    cbn [as_str mbind result_bind].
    change (lower (chardb rt) (lit "decode")) with (lit "decode").
    change (bool_decide (lit "decode" = lit "encode")) with false.
    change (bool_decide (lit "decode" = lit "decode")) with true.
    cbv iota. rewrite (b64decode_b64encode _ Hbytes).
    cbn [mbind result_bind]. rewrite Hdec. reflexivity.
Qed.

Lemma base64_round_trip_witness :
  exists encoded,
    call_tool Sample.config Sample.runtime (lit "base64_converter")
      {[ "text" := VStr [0x63; 0x61; 0x66; 0xE9; 0x20; 0x20AC; 0x1F600];
         "operation" := VStr (lit "encode") ]}
    = Ok (text_block
            (encoded_report [0x63; 0x61; 0x66; 0xE9; 0x20; 0x20AC; 0x1F600]
               encoded))
    /\ call_tool Sample.config Sample.runtime (lit "base64_converter")
         {[ "text" := VStr encoded; "operation" := VStr (lit "decode") ]}
       = Ok (text_block
               (decoded_report (preview encoded)
                  [0x63; 0x61; 0x66; 0xE9; 0x20; 0x20AC; 0x1F600])).
Proof.
  set (s := [0x63; 0x61; 0x66; 0xE9; 0x20; 0x20AC; 0x1F600]).
  set (arguments := ({[ "text" := VStr s;
                        "operation" := VStr (lit "encode") ]}
                     : gmap string value)).
  assert (Htext : arguments !! "text" = Some (VStr s))
    by (vm_compute; reflexivity).
  assert (Hop : arguments !! "operation" = Some (VStr (lit "encode")))
    by (vm_compute; reflexivity).
  assert (Hs : Schema.utf8_text s) by (repeat constructor).
  destruct (base64_round_trip Sample.config Sample.runtime arguments s
              Htext Hop Hs) as (encoded & Henc & Hdec).
  exists encoded. split; [exact Henc|].
  apply Hdec; vm_compute; reflexivity.
Defined.

(** C6 as stated does not hold: "aG!k=" holds a character outside the
    alphabet, and the decode operation reports the text "hi". *)
Lemma decode_skips_foreign_character :
  call_tool Sample.config Sample.runtime (lit "base64_converter")
    {[ "text" := VStr (lit "aG!k="); "operation" := VStr (lit "decode") ]}
  = Ok (text_block (decoded_report (lit "aG!k=") (lit "hi"))).
Proof. vm_compute. reflexivity. Qed.

(** The decoder skips every character that is neither in the alphabet
    nor a pad. *)
Lemma a2b_loop_significant (data : pybytes) (quad_pos : nat) (leftchar : N)
    (pads : nat) (out : pybytes) :
  a2b_loop (List.filter significant data) quad_pos leftchar pads out
  = a2b_loop data quad_pos leftchar pads out.
Proof.
  revert quad_pos leftchar pads out.
  induction data as [|c data IH]; intros quad_pos leftchar pads out.
  - reflexivity.
  - cbn [List.filter]. unfold significant at 1.
    destruct (c =? PAD) eqn:Hpad.
    + cbn [orb a2b_loop]. rewrite Hpad.
      destruct (2 <=? quad_pos)%nat; [|apply IH].
      destruct (4 <=? quad_pos + S pads)%nat; [reflexivity | apply IH].
    + cbn [orb]. destruct (a2b c) as [v|] eqn:Hv.
      * cbn [a2b_loop]. rewrite Hpad, Hv.
        destruct quad_pos as [|[|[|?]]]; apply IH.
      * cbn [a2b_loop]. rewrite Hpad, Hv. apply IH.
Qed.

(** C6 (amended): for every input text of the decode operation,
    - a character that is not ASCII gives a reported error;
    - ASCII characters outside the alphabet are skipped, not rejected:
      the decoder reads the text as if they were absent;
    - when the decoder rejects what remains (the text ends inside a
      group of four), the result is a reported error;
    - when the decoded bytes are not valid UTF-8, the result is a
      reported error;
    - otherwise the result is the report that holds the decoded text. *)
Theorem base64_decode_cases (cfg : config) (rt : runtime)
    (arguments : gmap string value) (text : pystr) :
  arguments !! "text" = Some (VStr text) ->
  arguments !! "operation" = Some (VStr (lit "decode")) ->
  (is_ascii text = false ->
   call_tool cfg rt (lit "base64_converter") arguments
   = Ok (text_block (base64_error_msg (exn_str rt ValueError))))
  /\ a2b_base64 (List.filter significant text) = a2b_base64 text
  /\ (forall e, is_ascii text = true -> a2b_base64 text = Raise e ->
      e = BinasciiError
      /\ call_tool cfg rt (lit "base64_converter") arguments
         = Ok (text_block (base64_error_msg (exn_str rt e))))
  /\ (forall bin e, is_ascii text = true -> a2b_base64 text = Ok bin ->
      Utf8.decode bin = Raise e ->
      call_tool cfg rt (lit "base64_converter") arguments
      = Ok (text_block (base64_error_msg (exn_str rt e))))
  /\ (forall bin decoded, is_ascii text = true -> a2b_base64 text = Ok bin ->
      Utf8.decode bin = Ok decoded ->
      call_tool cfg rt (lit "base64_converter") arguments
      = Ok (text_block (decoded_report (preview text) decoded))).
Proof.
  intros Htext Hop.
  assert (Hcall : call_tool cfg rt (lit "base64_converter") arguments
                  = catch
                      (bin ← b64decode (VStr text);
                       decoded ← Utf8.decode bin;
                       Ok (text_block (decoded_report (preview text) decoded)))
                      (fun e => reported rt e " Error with Base64 operation: ")).
  { rewrite call_tool_base64_converter.
    unfold call_base64_converter, get_lower.
    rewrite (get_lookup _ _ _ _ Htext), (get_lookup _ _ _ _ Hop).
    reflexivity. }
  rewrite Hcall. unfold b64decode, bytes_from_decode_data.
  split; [|split; [|split; [|split]]].
  - intros ->. reflexivity.
  - apply a2b_loop_significant.
  - intros e -> He. cbn [mbind result_bind]. rewrite He.
    split; [|reflexivity].
    clear -He. unfold a2b_base64 in He.
    assert (H : forall data q lc p out,
              a2b_loop data q lc p out = Raise e -> e = BinasciiError).
    { induction data as [|c data IH]; intros q lc p out; cbn [a2b_loop].
      - destruct q; [discriminate | congruence].
      - destruct (c =? PAD).
        + destruct (2 <=? q)%nat; [|apply IH].
          destruct (4 <=? q + S p)%nat; [discriminate | apply IH].
        + destruct (a2b c); [|apply IH].
          destruct q as [|[|[|?]]]; apply IH. }
    eapply H; eauto.
  - intros bin e -> Hbin He. cbn [mbind result_bind]. rewrite Hbin.
    cbn [mbind result_bind]. rewrite He. reflexivity.
  - intros bin decoded -> Hbin Hd. cbn [mbind result_bind]. rewrite Hbin.
    cbn [mbind result_bind]. rewrite Hd. reflexivity.
Qed.

Lemma base64_decode_cases_witness :
  call_tool Sample.config Sample.runtime (lit "base64_converter")
    {[ "text" := VStr (lit "aGkgdGhlcmU=");
       "operation" := VStr (lit "decode") ]}
  = Ok (text_block (decoded_report (lit "aGkgdGhlcmU=") (lit "hi there"))).
Proof.
  set (arguments := ({[ "text" := VStr (lit "aGkgdGhlcmU=");
                        "operation" := VStr (lit "decode") ]}
                     : gmap string value)).
  assert (Htext : arguments !! "text" = Some (VStr (lit "aGkgdGhlcmU=")))
    by (vm_compute; reflexivity).
  assert (Hop : arguments !! "operation" = Some (VStr (lit "decode")))
    by (vm_compute; reflexivity).
  destruct (base64_decode_cases Sample.config Sample.runtime arguments
              (lit "aGkgdGhlcmU=") Htext Hop) as (_ & _ & _ & _ & Hok).
  apply (Hok (lit "hi there") (lit "hi there")); vm_compute; reflexivity.
Defined.

(** ** No exception leaves the dispatcher *)

(** C1 as stated does not hold: an argument of another type than the
    schema declares makes three of the branches raise. *)
Lemma call_tool_raises_on_untyped_argument :
  call_tool Sample.config Sample.runtime (lit "count_text")
    {[ "text" := VInt 5 ]} = Raise AttributeError
  /\ call_tool Sample.config Sample.runtime (lit "generate_password")
       {[ "length" := VStr (lit "12") ]} = Raise TypeError
  /\ call_tool Sample.config Sample.runtime (lit "validate")
       {[ "token" := VNone ]} = Raise TypeError.
Proof. repeat split; vm_compute; reflexivity. Qed.

Lemma typed_str (arguments : gmap string value) (key : string) (d : pystr) :
  Schema.field Schema.is_str arguments key = true ->
  exists s, get arguments key (VStr d) = VStr s.
Proof.
  unfold Schema.field, get. destruct (arguments !! key) as [v|]; cbn.
  - destruct v; try discriminate. intros _. now eexists.
  - intros _. now eexists.
Qed.

Lemma typed_int (arguments : gmap string value) (key : string) (d : Z) :
  Schema.field Schema.is_int arguments key = true ->
  exists z, get arguments key (VInt d) = VInt z.
Proof.
  unfold Schema.field, get. destruct (arguments !! key) as [v|]; cbn.
  - destruct v; try discriminate. intros _. now eexists.
  - intros _. now eexists.
Qed.

Lemma blank_false_length (text : pystr) :
  blank text = false -> (0 < List.length text)%nat.
Proof. destruct text; [discriminate | cbn; lia]. Qed.

(** C1 (amended): when the string fields of the argument mapping hold
    strings and [length] holds an integer, as the input schemas
    declare, [call_tool] returns one text block for every tool name,
    known or not, and raises nothing. *)
Theorem call_tool_reports (cfg : config) (rt : runtime) (name : pystr)
    (arguments : gmap string value) :
  Schema.typed arguments = true ->
  exists report, call_tool cfg rt name arguments = Ok (text_block report).
Proof.
  unfold Schema.typed. intros H.
  repeat (apply andb_prop in H as [H ?]).
  destruct (typed_str arguments "token" [] H) as [token Htoken].
  destruct (typed_str arguments "text" [] ltac:(assumption)) as [text Htext].
  destruct (typed_str arguments "case_type" [] ltac:(assumption))
    as [case_type Hcase].
  destruct (typed_str arguments "mode" (lit "basic") ltac:(assumption))
    as [mode Hmode].
  destruct (typed_str arguments "operation" [] ltac:(assumption))
    as [operation Hop].
  destruct (typed_str arguments "data_type" [] ltac:(assumption))
    as [data_type Hdata].
  destruct (typed_int arguments "length" 16 ltac:(assumption))
    as [n Hn].
  unfold call_tool.
  destruct (bool_decide (name = lit "validate")).
  { unfold call_validate. rewrite Htoken. cbn.
    destruct (bool_decide (token = AUTH_TOKEN cfg)); eauto. }
  destruct (bool_decide (name = lit "count_text")).
  { unfold call_count_text. rewrite Htext. cbn [as_str mbind result_bind].
    destruct (blank text) eqn:Hb; [eauto|].
    rewrite !truediv_positive by lia. eauto. }
  destruct (bool_decide (name = lit "convert_case")).
  { unfold call_convert_case, get_lower. rewrite Htext, Hcase.
    cbn [as_str mbind result_bind].
    destruct (blank text); [eauto|].
    destruct (convert _ _ _); cbn; eauto. }
  destruct (bool_decide (name = lit "clean_text")).
  { unfold call_clean_text. rewrite Htext, Hmode.
    cbn [as_str mbind result_bind].
    destruct (blank text) eqn:Hb; [eauto|].
    destruct (clean _ _); cbn [catch as_str mbind result_bind]; [|eauto].
    rewrite truediv_positive by now apply blank_false_length.
    cbn. eauto. }
  destruct (bool_decide (name = lit "base64_converter")).
  { unfold call_base64_converter, get_lower. rewrite Htext, Hop.
    cbn [as_str mbind result_bind].
    destruct (bool_decide (_ = lit "encode")).
    - destruct (Utf8.encode text) as [bin|e]; cbn; [|eauto].
      destruct (Utf8.decode (b64encode bin)); cbn; eauto.
    - destruct (bool_decide (_ = lit "decode")); [|cbn; eauto].
      destruct (b64decode (VStr text)) as [bin|e]; cbn; [|eauto].
      destruct (Utf8.decode bin); cbn; eauto. }
  destruct (bool_decide (name = lit "generate_password")).
  { unfold call_generate_password. rewrite Hn.
    cbn [as_int mbind result_bind].
    destruct ((n <? 8)%Z || (50 <? n)%Z); [eauto|].
    destruct (all_chars _ _ _); eauto. }
  destruct (bool_decide (name = lit "extract_data")).
  { unfold call_extract_data, get_lower. rewrite Htext, Hdata.
    cbn [as_str mbind result_bind].
    destruct (blank text); [eauto|].
    cbn [catch]. destruct (negb _); eauto. }
  eauto.
Qed.

Lemma call_tool_reports_witness :
  exists report,
    call_tool Sample.config Sample.runtime (lit "clean_text")
      {[ "text" := VStr (lit "  a   b  "); "mode" := VStr (lit "basic") ]}
    = Ok (text_block report).
Proof.
  apply (call_tool_reports Sample.config Sample.runtime (lit "clean_text")
           {[ "text" := VStr (lit "  a   b  ");
              "mode" := VStr (lit "basic") ]}).
  vm_compute. reflexivity.
Defined.

(** * Further properties of the registry and the dispatcher *)

(** ** Registry and dispatch *)

Lemma call_tool_validate (cfg : config) (rt : runtime) arguments :
  call_tool cfg rt (lit "validate") arguments = call_validate cfg arguments.
Proof. reflexivity. Qed.

Lemma call_tool_generate_password (cfg : config) (rt : runtime) arguments :
  call_tool cfg rt (lit "generate_password") arguments
  = call_generate_password rt arguments.
Proof. reflexivity. Qed.

(** X1: the seven registered names are distinct, and a name that is
    not registered gets the unknown-tool answer whatever the arguments
    are; no branch of the dispatcher is reached by such a name. *)
Theorem unregistered_name_unknown (cfg : config) (rt : runtime)
    (name : pystr) (arguments : gmap string value) :
  ~ In name Registry.tool_names ->
  List.NoDup Registry.tool_names
  /\ call_tool cfg rt name arguments = Ok (text_block (unknown_tool_msg name)).
Proof.
  intros Hnot. split.
  - unfold Registry.tool_names. cbn [map Registry.list_tools Registry.name].
    repeat (apply List.NoDup_cons;
            [intros H; cbn in H;
             repeat (destruct H as [H|H]; [discriminate H|]); exact H|]).
    apply List.NoDup_nil.
  - unfold call_tool.
    rewrite !bool_decide_eq_false_2; [reflexivity|..];
      intros ->; apply Hnot; cbn; auto 10.
Qed.

Lemma unregistered_name_unknown_witness :
  call_tool Sample.config Sample.runtime (lit "reverse_text") ∅
  = Ok (text_block (unknown_tool_msg (lit "reverse_text"))).
Proof.
  apply (unregistered_name_unknown Sample.config Sample.runtime
           (lit "reverse_text") ∅).
  cbn. intros H. repeat (destruct H as [H|H]; [discriminate H|]). exact H.
Defined.

(** X2: a registered tool reads only the fields its schema declares:
    two argument mappings that agree on them get the same answer. *)
Theorem undeclared_arguments_ignored (cfg : config) (rt : runtime)
    (t : Registry.Tool) (arguments arguments' : gmap string value) :
  In t Registry.list_tools ->
  (forall key, In key (Registry.declared t) ->
     arguments !! key = arguments' !! key) ->
  call_tool cfg rt (lit (Registry.name t)) arguments
  = call_tool cfg rt (lit (Registry.name t)) arguments'.
Proof.
  intros Hin Hsame. cbn in Hin.
  repeat (destruct Hin as [<-|Hin]); [..|destruct Hin];
    cbn in Hsame;
    repeat match goal with
           | |- context [call_tool _ _ (lit (Registry.name _)) _] =>
               cbn [Registry.name]
           end.
  - rewrite !call_tool_validate. unfold call_validate, get.
    now rewrite (Hsame "token") by auto.
  - rewrite !call_tool_count_text. unfold call_count_text, get.
    now rewrite (Hsame "text") by auto.
  - rewrite !call_tool_convert_case. unfold call_convert_case, get_lower, get.
    now rewrite (Hsame "text"), (Hsame "case_type") by auto.
  - rewrite !call_tool_clean_text. unfold call_clean_text, get.
    now rewrite (Hsame "text"), (Hsame "mode") by auto.
  - rewrite !call_tool_base64_converter.
    unfold call_base64_converter, get_lower, get.
    now rewrite (Hsame "text"), (Hsame "operation") by auto.
  - rewrite !call_tool_generate_password. unfold call_generate_password, get.
    now rewrite (Hsame "length"), (Hsame "include_symbols"),
      (Hsame "include_numbers"), (Hsame "exclude_ambiguous") by auto.
  - rewrite !call_tool_extract_data. unfold call_extract_data, get_lower, get.
    now rewrite (Hsame "text"), (Hsame "data_type") by auto.
Qed.

Lemma undeclared_arguments_ignored_witness :
  call_tool Sample.config Sample.runtime (lit "count_text")
    {[ "text" := VStr Sample.hello; "verbose" := VBool true ]}
  = call_tool Sample.config Sample.runtime (lit "count_text")
      {[ "text" := VStr Sample.hello ]}.
Proof.
  apply (undeclared_arguments_ignored Sample.config Sample.runtime
           (nth 1 Registry.list_tools (nth 0 Registry.list_tools
              {| Registry.name := ""; Registry.description := "";
                 Registry.inputSchema :=
                   {| Registry.schema_type := ""; Registry.properties := [];
                      Registry.required := [] |} |}))).
  - cbn. auto.
  - intros key [<-|[]]. vm_compute. reflexivity.
Defined.

(** X3: a default written in a schema is the default the handler
    uses: leaving the field out and passing the declared default give
    the same answer. *)
Theorem schema_defaults_used (cfg : config) (rt : runtime)
    (t : Registry.Tool) (key : string) (p : Registry.Property) (dflt : value)
    (arguments : gmap string value) :
  In t Registry.list_tools ->
  In (key, p) (Registry.properties (Registry.inputSchema t)) ->
  Registry.pdefault p = Some dflt ->
  arguments !! key = None ->
  call_tool cfg rt (lit (Registry.name t)) (<[key := dflt]> arguments)
  = call_tool cfg rt (lit (Registry.name t)) arguments.
Proof.
  intros Hin Hprop Hdflt Hnone. cbn in Hin.
  repeat (destruct Hin as [<-|Hin]); [..|destruct Hin];
    cbn in Hprop;
    repeat (destruct Hprop as [Hprop|Hprop];
            [injection Hprop as <- <-; cbn in Hdflt;
             first [discriminate Hdflt | injection Hdflt as <-]|]);
    try destruct Hprop; cbn [Registry.name].
  - rewrite !call_tool_clean_text. unfold call_clean_text, get.
    rewrite lookup_insert_eq, Hnone.
    now rewrite lookup_insert_ne by discriminate.
  - rewrite !call_tool_generate_password. unfold call_generate_password, get.
    rewrite lookup_insert_eq, Hnone.
    now rewrite !lookup_insert_ne by discriminate.
  - rewrite !call_tool_generate_password. unfold call_generate_password, get.
    rewrite lookup_insert_eq, Hnone.
    now rewrite !lookup_insert_ne by discriminate.
  - rewrite !call_tool_generate_password. unfold call_generate_password, get.
    rewrite lookup_insert_eq, Hnone.
    now rewrite !lookup_insert_ne by discriminate.
  - rewrite !call_tool_generate_password. unfold call_generate_password, get.
    rewrite lookup_insert_eq, Hnone.
    now rewrite !lookup_insert_ne by discriminate.
Qed.

Lemma schema_defaults_used_witness :
  call_tool Sample.config Sample.runtime (lit "clean_text")
    (<["mode" := VStr (lit "basic")]> {[ "text" := VStr (lit "  a   b  ") ]})
  = call_tool Sample.config Sample.runtime (lit "clean_text")
      {[ "text" := VStr (lit "  a   b  ") ]}.
Proof.
  apply (schema_defaults_used Sample.config Sample.runtime
           (nth 3 Registry.list_tools (nth 0 Registry.list_tools
              {| Registry.name := ""; Registry.description := "";
                 Registry.inputSchema :=
                   {| Registry.schema_type := ""; Registry.properties := [];
                      Registry.required := [] |} |}))
           "mode"
           (Registry.prop_default "string"
              "Cleaning mode: basic, aggressive, or normalize"
              (VStr (lit "basic")))).
  - cbn. auto.
  - cbn. auto.
  - reflexivity.
  - vm_compute. reflexivity.
Defined.

(** ** Start-up and validate *)

(** X4: when the module has loaded, the secret is not empty, so a call
    of [validate] without a token, or with the empty token, is answered
    "Invalid token": the default of the missing field never
    authenticates. *)
Theorem validate_rejects_missing_token (rt : runtime)
    (environ : gmap string pystr) (cfg : config)
    (arguments : gmap string value) :
  Registry.load_config environ = Ok cfg ->
  arguments !! "token" = None \/ arguments !! "token" = Some (VStr []) ->
  environ !! "AUTH_TOKEN" = Some (AUTH_TOKEN cfg)
  /\ environ !! "MY_NUMBER" = Some (MY_NUMBER cfg)
  /\ AUTH_TOKEN cfg <> [] /\ MY_NUMBER cfg <> []
  /\ call_tool cfg rt (lit "validate") arguments
     = Ok (text_block invalid_token_msg).
Proof.
  intros Hload Htoken. unfold Registry.load_config in Hload.
  destruct (environ !! "AUTH_TOKEN") as [[|a auth]|] eqn:Ha;
    try discriminate Hload.
  destruct (environ !! "MY_NUMBER") as [[|m my]|] eqn:Hm;
    try discriminate Hload.
  cbn in Hload. injection Hload as <-. cbn [AUTH_TOKEN MY_NUMBER].
  repeat split; try discriminate.
  rewrite call_tool_validate. unfold call_validate, get.
  destruct Htoken as [-> | ->]; reflexivity.
Qed.

Lemma validate_rejects_missing_token_witness :
  call_tool Sample.config Sample.runtime (lit "validate") ∅
  = Ok (text_block invalid_token_msg).
Proof.
  apply (validate_rejects_missing_token Sample.runtime
           {[ "AUTH_TOKEN" := lit "text_utils_token";
              "MY_NUMBER" := lit "919339615464" ]}
           Sample.config ∅).
  - vm_compute. reflexivity.
  - left. reflexivity.
Defined.

(** ** Blank text *)

(** X5: in the four tools that work on a text, a missing text and a
    text of whitespace only are answered "Text is empty." before the
    selector is looked at: an unknown case type, mode or data type
    makes no difference. *)
Theorem blank_text_reported (cfg : config) (rt : runtime) (name : pystr)
    (arguments : gmap string value) :
  In name [lit "count_text"; lit "convert_case"; lit "clean_text";
           lit "extract_data"] ->
  arguments !! "text" = None
  \/ (exists text, arguments !! "text" = Some (VStr text) /\ blank text = true) ->
  Schema.field Schema.is_str arguments "case_type" = true ->
  Schema.field Schema.is_str arguments "data_type" = true ->
  call_tool cfg rt name arguments = Ok (text_block empty_text_msg).
Proof.
  intros Hname Htext Hcase Hdata.
  assert (Hget : exists text, get arguments "text" (VStr []) = VStr text
                              /\ blank text = true).
  { unfold get. destruct Htext as [-> | (text & -> & Hb)].
    - now exists [].
    - now exists text. }
  destruct Hget as (text & Hget & Hblank).
  destruct (typed_str arguments "case_type" [] Hcase) as [case_type Hc].
  destruct (typed_str arguments "data_type" [] Hdata) as [data_type Hd].
  destruct Hname as [<-|[<-|[<-|[<-|[]]]]].
  - rewrite call_tool_count_text. unfold call_count_text.
    rewrite Hget. cbn [as_str mbind result_bind]. now rewrite Hblank.
  - rewrite call_tool_convert_case. unfold call_convert_case, get_lower.
    rewrite Hget, Hc. cbn [as_str mbind result_bind]. now rewrite Hblank.
  - rewrite call_tool_clean_text. unfold call_clean_text.
    rewrite Hget. cbn [as_str mbind result_bind]. now rewrite Hblank.
  - rewrite call_tool_extract_data. unfold call_extract_data, get_lower.
    rewrite Hget, Hd. cbn [as_str mbind result_bind]. now rewrite Hblank.
Qed.

Lemma blank_text_reported_witness :
  call_tool Sample.config Sample.runtime (lit "clean_text")
    {[ "text" := VStr (lit "   "); "mode" := VStr (lit "shout") ]}
  = Ok (text_block empty_text_msg).
Proof.
  apply (blank_text_reported Sample.config Sample.runtime (lit "clean_text")
           {[ "text" := VStr (lit "   "); "mode" := VStr (lit "shout") ]}).
  - cbn. auto.
  - right. exists (lit "   "). split; vm_compute; reflexivity.
  - vm_compute. reflexivity.
  - vm_compute. reflexivity.
Defined.

(** ** generate_password *)

Lemma choice_in (r : nat) (pool : pystr) : pool <> [] -> In (choice r pool) pool.
Proof.
  intros Hne. unfold choice. apply nth_In.
  apply Nat.mod_upper_bound. destruct pool; [congruence | discriminate].
Qed.

(** What [call_generate_password] returns for an accepted length. *)
Lemma generate_password_report (cfg : config) (rt : runtime)
    (arguments : gmap string value) (n : Z) :
  as_int (get arguments "length" (VInt 16)) = Ok n ->
  (8 <= n <= 50)%Z ->
  let include_symbols := get arguments "include_symbols" (VBool true) in
  let include_numbers := get arguments "include_numbers" (VBool true) in
  let exclude_ambiguous := get arguments "exclude_ambiguous" (VBool false) in
  let pool := all_chars include_symbols include_numbers exclude_ambiguous in
  let password :=
    map (fun i => choice (randbelow rt i (List.length pool)) pool)
      (seq 0 (Z.to_nat n)) in
  let has_lower := has_any (lowercase_of exclude_ambiguous) password in
  let has_upper := has_any (uppercase_of exclude_ambiguous) password in
  let has_digit :=
    has_any (numbers_of include_numbers exclude_ambiguous) password in
  let has_symbol := has_any (symbols_of include_symbols) password in
  call_tool cfg rt (lit "generate_password") arguments
  = Ok (text_block
          (password_report password
             (strength has_lower has_upper has_digit has_symbol)
             (str_value (get arguments "length" (VInt 16)))
             (contains_line has_lower has_upper has_digit has_symbol))).
Proof.
  intros Hn Hrange. cbv zeta.
  rewrite call_tool_generate_password. unfold call_generate_password.
  rewrite Hn. cbn [mbind result_bind].
  replace ((n <? 8)%Z || (50 <? n)%Z) with false
    by (symmetry; apply orb_false_iff; split; apply Z.ltb_ge; lia).
  destruct (all_chars _ _ _) eqn:Hpool; [|reflexivity].
  exfalso. unfold all_chars, lowercase_of in Hpool.
  destruct (truthy _); discriminate Hpool.
Qed.

Lemma all_chars_nonempty (s n e : value) : all_chars s n e <> [].
Proof. unfold all_chars, lowercase_of. destruct (truthy e); discriminate. Qed.

(** X6: the length is accepted exactly from 8 to 50: outside, the
    answer is the length error whatever the flags are; inside, the
    password has exactly that many characters, each one taken from the
    pool the flags select. *)
Theorem password_length_and_pool (cfg : config) (rt : runtime)
    (arguments : gmap string value) (n : Z) :
  as_int (get arguments "length" (VInt 16)) = Ok n ->
  ((n < 8 \/ 50 < n)%Z ->
   call_tool cfg rt (lit "generate_password") arguments
   = Ok (text_block length_msg))
  /\ ((8 <= n <= 50)%Z ->
      exists password strength contains,
        call_tool cfg rt (lit "generate_password") arguments
        = Ok (text_block
                (password_report password strength
                   (str_value (get arguments "length" (VInt 16))) contains))
        /\ List.length password = Z.to_nat n
        /\ Forall (fun c =>
             In c (all_chars (get arguments "include_symbols" (VBool true))
                     (get arguments "include_numbers" (VBool true))
                     (get arguments "exclude_ambiguous" (VBool false))))
             password).
Proof.
  intros Hn. split.
  - intros Hout. rewrite call_tool_generate_password.
    unfold call_generate_password. rewrite Hn. cbn [mbind result_bind].
    replace ((n <? 8)%Z || (50 <? n)%Z) with true; [reflexivity|].
    symmetry. apply orb_true_iff.
    destruct Hout; [left; apply Z.ltb_lt | right; apply Z.ltb_lt]; lia.
  - intros Hin. eexists _, _, _. split.
    + apply (generate_password_report cfg rt arguments n Hn Hin).
    + split.
      * now rewrite length_map, length_seq.
      * apply List.Forall_forall. intros c Hc. apply in_map_iff in Hc.
        destruct Hc as (i & <- & _). apply choice_in, all_chars_nonempty.
Qed.

Lemma password_length_and_pool_witness :
  call_tool Sample.config Sample.runtime (lit "generate_password")
    {[ "length" := VInt 5 ]}
  = Ok (text_block length_msg).
Proof.
  assert (Hn : as_int (get ({[ "length" := VInt 5 ]} : gmap string value)
                         "length" (VInt 16)) = Ok 5%Z)
    by (vm_compute; reflexivity).
  apply (password_length_and_pool Sample.config Sample.runtime
           {[ "length" := VInt 5 ]} 5 Hn).
  left. lia.
Defined.

(** With [exclude_ambiguous], the pool holds none of l, O, I, 0, 1. *)
Lemma all_chars_unambiguous (s n e : value) (c : N) :
  truthy e = true -> In c (all_chars s n e) -> ~ In c (lit "lOI01").
Proof.
  intros He Hc Hamb. unfold all_chars, lowercase_of, uppercase_of,
    numbers_of, symbols_of in Hc. rewrite He in Hc.
  assert (Hall : forallb (fun c => negb (contains (lit "lOI01") c))
            (replace (lit "l") [] ascii_lowercase
             ++ replace (lit "I") [] (replace (lit "O") [] ascii_uppercase)
             ++ replace (lit "1") [] (replace (lit "0") [] digits)
             ++ symbol_set) = true) by (vm_compute; reflexivity).
  rewrite forallb_forall in Hall.
  apply in_contains in Hamb.
  assert (Hin : In c (replace (lit "l") [] ascii_lowercase
             ++ replace (lit "I") [] (replace (lit "O") [] ascii_uppercase)
             ++ replace (lit "1") [] (replace (lit "0") [] digits)
             ++ symbol_set)).
  { rewrite !in_app_iff in Hc |- *.
    destruct Hc as [H|[H|[H|H]]].
    - left. exact H.
    - right. left. exact H.
    - right. right. left.
      destruct (truthy n); [exact H | destruct H].
    - right. right. right.
      destruct (truthy s); [exact H | destruct H]. }
  specialize (Hall c Hin). now rewrite Hamb in Hall.
Qed.

(** X7: with [exclude_ambiguous] set, a generated password holds none
    of the characters l, O, I, 0 and 1. *)
Theorem password_unambiguous (cfg : config) (rt : runtime)
    (arguments : gmap string value) (n : Z) :
  as_int (get arguments "length" (VInt 16)) = Ok n ->
  (8 <= n <= 50)%Z ->
  truthy (get arguments "exclude_ambiguous" (VBool false)) = true ->
  exists password strength contains,
    call_tool cfg rt (lit "generate_password") arguments
    = Ok (text_block
            (password_report password strength
               (str_value (get arguments "length" (VInt 16))) contains))
    /\ Forall (fun c => ~ In c (lit "lOI01")) password.
Proof.
  intros Hn Hin He.
  destruct (password_length_and_pool cfg rt arguments n Hn) as [_ H].
  destruct (H Hin) as (password & strength & contains & Hcall & _ & Hpool).
  exists password, strength, contains. split; [exact Hcall|].
  eapply List.Forall_impl; [|exact Hpool].
  intros c Hc. exact (all_chars_unambiguous _ _ _ c He Hc).
Qed.

Lemma password_unambiguous_witness :
  exists password strength contains,
    call_tool Sample.config Sample.runtime (lit "generate_password")
      {[ "length" := VInt 12; "exclude_ambiguous" := VBool true ]}
    = Ok (text_block (password_report password strength (lit "12") contains))
    /\ Forall (fun c => ~ In c (lit "lOI01")) password.
Proof.
  set (arguments := ({[ "length" := VInt 12;
                        "exclude_ambiguous" := VBool true ]}
                     : gmap string value)).
  assert (Hn : as_int (get arguments "length" (VInt 16)) = Ok 12%Z)
    by (vm_compute; reflexivity).
  assert (He : truthy (get arguments "exclude_ambiguous" (VBool false)) = true)
    by (vm_compute; reflexivity).
  destruct (password_unambiguous Sample.config Sample.runtime arguments 12
              Hn ltac:(lia) He) as (password & strength & contains & Hc & Hp).
  exists password, strength, contains. split; [|exact Hp].
  rewrite Hc. replace (get arguments "length" (VInt 16)) with (VInt 12)
    by (vm_compute; reflexivity).
  reflexivity.
Defined.

Lemma has_any_empty (password : pystr) : has_any [] password = false.
Proof. induction password; [reflexivity | exact IHpassword]. Qed.

Lemma has_any_head (class : pystr) (c : N) (rest : pystr) :
  In c class -> has_any class (c :: rest) = true.
Proof.
  intros H. unfold has_any. cbn [existsb].
  apply in_contains in H. now rewrite H.
Qed.

(** X8: a generated password is never rated "Very Weak", since each of
    its characters belongs to one of the classes counted; it is rated
    "Strong" only when digits and symbols are both enabled. *)
Theorem password_strength_levels (cfg : config) (rt : runtime)
    (arguments : gmap string value) (n : Z) :
  as_int (get arguments "length" (VInt 16)) = Ok n ->
  (8 <= n <= 50)%Z ->
  exists password strength contains,
    call_tool cfg rt (lit "generate_password") arguments
    = Ok (text_block
            (password_report password strength
               (str_value (get arguments "length" (VInt 16))) contains))
    /\ In strength [lit "Weak"; lit "Fair"; lit "Good"; lit "Strong"]
    /\ (strength = lit "Strong" ->
        truthy (get arguments "include_numbers" (VBool true)) = true
        /\ truthy (get arguments "include_symbols" (VBool true)) = true).
Proof.
  intros Hn Hin.
  pose proof (generate_password_report cfg rt arguments n Hn Hin) as Hcall.
  cbv zeta in Hcall.
  set (s := get arguments "include_symbols" (VBool true)) in *.
  set (d := get arguments "include_numbers" (VBool true)) in *.
  set (e := get arguments "exclude_ambiguous" (VBool false)) in *.
  set (password := map _ (seq 0 (Z.to_nat n))) in *.
  eexists _, _, _. split; [exact Hcall|].
  assert (Hhead : exists c rest, password = c :: rest /\ In c (all_chars s d e)).
  { subst password. destruct (Z.to_nat n) as [|k] eqn:Hk; [lia|].
    cbn [seq map]. eexists _, _. split; [reflexivity|].
    apply choice_in, all_chars_nonempty. }
  destruct Hhead as (c & rest & Hpw & Hc).
  assert (Hdigit : has_any (numbers_of d e) password = true -> truthy d = true).
  { unfold numbers_of. destruct (truthy d); [reflexivity|].
    destruct (truthy e); cbn [replace replace_from];
      now rewrite has_any_empty. }
  assert (Hsymbol : has_any (symbols_of s) password = true -> truthy s = true).
  { unfold symbols_of. destruct (truthy s); [reflexivity|].
    now rewrite has_any_empty. }
  assert (Hsome : has_any (lowercase_of e) password = true
                  \/ has_any (uppercase_of e) password = true
                  \/ has_any (numbers_of d e) password = true
                  \/ has_any (symbols_of s) password = true).
  { rewrite Hpw. unfold all_chars in Hc. rewrite !in_app_iff in Hc.
    destruct Hc as [H|[H|[H|H]]]; eauto using has_any_head. }
  destruct (has_any (lowercase_of e) password),
    (has_any (uppercase_of e) password),
    (has_any (numbers_of d e) password),
    (has_any (symbols_of s) password);
    cbn; (split; [auto 6 | intros Hs; try discriminate Hs; auto]);
    destruct Hsome as [H|[H|[H|H]]]; discriminate H.
Qed.

Lemma password_strength_levels_witness :
  exists password strength contains,
    call_tool Sample.config Sample.runtime (lit "generate_password")
      {[ "length" := VInt 12; "include_symbols" := VBool false ]}
    = Ok (text_block (password_report password strength (lit "12") contains))
    /\ strength <> lit "Very Weak" /\ strength <> lit "Strong".
Proof.
  set (arguments := ({[ "length" := VInt 12;
                        "include_symbols" := VBool false ]}
                     : gmap string value)).
  assert (Hn : as_int (get arguments "length" (VInt 16)) = Ok 12%Z)
    by (vm_compute; reflexivity).
  destruct (password_strength_levels Sample.config Sample.runtime arguments
              12 Hn ltac:(lia))
    as (password & strength & contains & Hc & Hlevel & Hstrong).
  exists password, strength, contains. split; [|split].
  - rewrite Hc. replace (get arguments "length" (VInt 16)) with (VInt 12)
      by (vm_compute; reflexivity).
    reflexivity.
  - intros ->. cbn in Hlevel.
    repeat (destruct Hlevel as [Hlevel|Hlevel]; [discriminate Hlevel|]).
    exact Hlevel.
  - intros Hs. destruct (Hstrong Hs) as [_ Hsym].
    vm_compute in Hsym. discriminate Hsym.
Defined.

(** ** base64_converter: encoding *)

Lemma encode_char_none (c : N) :
  Utf8.encode_char c = None <-> Utf8.surrogate c = true.
Proof.
  unfold Utf8.encode_char. split.
  - destruct (c <? 0x80); [discriminate|].
    destruct (c <? 0x800); [discriminate|].
    destruct (Utf8.surrogate c); [reflexivity|].
    destruct (c <? 0x10000); discriminate.
  - intros Hs. pose proof Hs as Hs'. unfold Utf8.surrogate in Hs'.
    apply andb_prop in Hs' as [Hlo _]. apply N.leb_le in Hlo.
    replace (c <? 0x80) with false by (symmetry; apply N.ltb_ge; lia).
    replace (c <? 0x800) with false by (symmetry; apply N.ltb_ge; lia).
    now rewrite Hs.
Qed.

(** Encoding to UTF-8 fails exactly when the text holds a surrogate. *)
Lemma encode_fails_on_surrogate (s : pystr) :
  (existsb Utf8.surrogate s = true -> Utf8.encode s = Raise UnicodeEncodeError)
  /\ (existsb Utf8.surrogate s = false -> exists bin, Utf8.encode s = Ok bin).
Proof.
  induction s as [|c s [IHt IHf]]; cbn [existsb Utf8.encode].
  - split; [discriminate | now eexists].
  - destruct (Utf8.surrogate c) eqn:Hc; cbn [orb].
    + apply encode_char_none in Hc. rewrite Hc. split; [reflexivity | discriminate].
    + destruct (Utf8.encode_char c) as [bs|] eqn:Hbs.
      * split.
        -- intros H. now rewrite (IHt H).
        -- intros H. destruct (IHf H) as [bin ->]. now eexists.
      * apply encode_char_none in Hbs. congruence.
Qed.

(** X9: the encode operation answers with a reported error exactly
    when the text holds a surrogate code point, which UTF-8 cannot
    encode; the exception does not leave the handler. *)
Theorem base64_encode_surrogate (cfg : config) (rt : runtime)
    (arguments : gmap string value) (text : pystr) :
  arguments !! "text" = Some (VStr text) ->
  arguments !! "operation" = Some (VStr (lit "encode")) ->
  (existsb Utf8.surrogate text = true ->
   call_tool cfg rt (lit "base64_converter") arguments
   = Ok (text_block (base64_error_msg (exn_str rt UnicodeEncodeError))))
  /\ (existsb Utf8.surrogate text = false ->
      exists bin,
        Utf8.encode text = Ok bin
        /\ call_tool cfg rt (lit "base64_converter") arguments
           = catch
               (encoded ← Utf8.decode (b64encode bin);
                Ok (text_block (encoded_report (preview text) encoded)))
               (fun e => reported rt e " Error with Base64 operation: ")).
Proof.
  intros Htext Hop.
  assert (Hcall : call_tool cfg rt (lit "base64_converter") arguments
                  = catch
                      (bin ← Utf8.encode text;
                       encoded ← Utf8.decode (b64encode bin);
                       Ok (text_block (encoded_report (preview text) encoded)))
                      (fun e => reported rt e " Error with Base64 operation: ")).
  { rewrite call_tool_base64_converter.
    unfold call_base64_converter, get_lower.
    rewrite (get_lookup _ _ _ _ Htext), (get_lookup _ _ _ _ Hop).
    reflexivity. }
  rewrite Hcall. destruct (encode_fails_on_surrogate text) as [Ht Hf]. split.
  - intros H. rewrite (Ht H). reflexivity.
  - intros H. destruct (Hf H) as [bin Hbin]. exists bin.
    split; [exact Hbin|]. rewrite Hbin. reflexivity.
Qed.

Lemma base64_encode_surrogate_witness :
  call_tool Sample.config Sample.runtime (lit "base64_converter")
    {[ "text" := VStr [0x61; 0xD800]; "operation" := VStr (lit "encode") ]}
  = Ok (text_block (base64_error_msg (lit "error"))).
Proof.
  set (arguments := ({[ "text" := VStr [0x61; 0xD800];
                        "operation" := VStr (lit "encode") ]}
                     : gmap string value)).
  assert (Htext : arguments !! "text" = Some (VStr [0x61; 0xD800]))
    by (vm_compute; reflexivity).
  assert (Hop : arguments !! "operation" = Some (VStr (lit "encode")))
    by (vm_compute; reflexivity).
  destruct (base64_encode_surrogate Sample.config Sample.runtime arguments
              [0x61; 0xD800] Htext Hop) as [Herr _].
  apply Herr. vm_compute. reflexivity.
Defined.

(** The encoded text of [n] bytes has [4 * ceil(n / 3)] characters. *)
Lemma b64encode_length (bin : pybytes) :
  List.length (b64encode bin) = (4 * ((List.length bin + 2) / 3))%nat.
Proof.
  assert (H : forall n bin, (List.length bin <= n)%nat ->
            List.length (b64encode bin)
            = (4 * ((List.length bin + 2) / 3))%nat).
  { induction n as [|n IH]; intros [|b0 [|b1 [|b2 rest]]] Hlen;
      cbn [List.length] in Hlen; try lia; try reflexivity.
    cbn [b64encode List.length].
    rewrite IH by (cbn [List.length] in Hlen; lia).
    replace (S (S (S (List.length rest))) + 2)%nat
      with (List.length rest + 2 + 1 * 3)%nat by lia.
    rewrite Nat.div_add by discriminate. lia. }
  eapply H. reflexivity.
Qed.

(** A property of the pad and of the 64 characters of the alphabet
    holds of every character of an encoded text. *)
Lemma b64encode_chars (P : N -> Prop) (bin : pybytes) :
  P PAD -> (forall v, v < 64 -> P (b2a v)) ->
  Forall (fun b => b < 256) bin -> Forall P (b64encode bin).
Proof.
  intros Hpad Hv.
  assert (H : forall n bin, (List.length bin <= n)%nat ->
            Forall (fun b => b < 256) bin -> Forall P (b64encode bin)).
  { induction n as [|n IH]; intros [|b0 [|b1 [|b2 rest]]] Hlen Hbytes;
      cbn [List.length] in Hlen; try lia.
    - constructor.
    - constructor.
    - inversion_clear Hbytes as [|? ? H0 _].
      destruct (pair_facts b0 0 H0 ltac:(lia)) as (S0 & S1 & _).
      cbn [b64encode].
      change (N.shiftr b0 2) with (sextet0 b0).
      replace (N.shiftl (N.land b0 3) 4) with (sextet1 b0 0)
        by (unfold sextet1; apply N.lor_0_r).
      constructor; [apply Hv, S0|]. constructor; [apply Hv, S1|].
      constructor; [exact Hpad|]. constructor; [exact Hpad|]. constructor.
    - inversion_clear Hbytes as [|? ? H0 Hb]. inversion_clear Hb as [|? ? H1 _].
      destruct (pair_facts b0 b1 H0 H1) as (S0 & S1 & _).
      destruct (pair_facts b1 0 H1 ltac:(lia)) as (_ & _ & S2 & _).
      cbn [b64encode].
      change (N.shiftr b0 2) with (sextet0 b0).
      change (N.lor (N.shiftl (N.land b0 3) 4) (N.shiftr b1 4))
        with (sextet1 b0 b1).
      replace (N.shiftl (N.land b1 15) 2) with (sextet2 b1 0)
        by (unfold sextet2; apply N.lor_0_r).
      constructor; [apply Hv, S0|]. constructor; [apply Hv, S1|].
      constructor; [apply Hv, S2|]. constructor; [exact Hpad|]. constructor.
    - inversion_clear Hbytes as [|? ? H0 Hb]. inversion_clear Hb as [|? ? H1 Hb'].
      inversion_clear Hb' as [|? ? H2 Hrest].
      destruct (pair_facts b0 b1 H0 H1) as (S0 & S1 & _).
      destruct (pair_facts b1 b2 H1 H2) as (_ & _ & S2 & _).
      destruct (pair_facts b2 b2 H2 H2) as (_ & _ & _ & S3 & _).
      cbn [b64encode].
      change (N.shiftr b0 2) with (sextet0 b0).
      change (N.lor (N.shiftl (N.land b0 3) 4) (N.shiftr b1 4))
        with (sextet1 b0 b1).
      change (N.lor (N.shiftl (N.land b1 15) 2) (N.shiftr b2 6))
        with (sextet2 b1 b2).
      change (N.land b2 63) with (sextet3 b2).
      constructor; [apply Hv, S0|]. constructor; [apply Hv, S1|].
      constructor; [apply Hv, S2|]. constructor; [apply Hv, S3|].
      apply IH; [cbn [List.length] in Hlen; lia | exact Hrest]. }
  intros Hbytes. eapply H; [reflexivity | exact Hbytes].
Qed.

Lemma b64encode_alphabet (bin : pybytes) :
  Forall (fun b => b < 256) bin ->
  Forall (fun c => significant c = true) (b64encode bin).
Proof.
  apply b64encode_chars.
  - reflexivity.
  - intros v Hv. destruct (a2b_b2a v Hv) as (Hval & _ & _).
    unfold significant. rewrite Hval. apply orb_true_r.
Qed.

(** X10: for a text UTF-8 can encode, the encoded text reported has
    four characters for every three bytes of the UTF-8 form, rounded
    up, and every character is in the Base64 alphabet or is the pad. *)
Theorem base64_encoded_shape (cfg : config) (rt : runtime)
    (arguments : gmap string value) (text : pystr) :
  arguments !! "text" = Some (VStr text) ->
  arguments !! "operation" = Some (VStr (lit "encode")) ->
  Schema.utf8_text text ->
  exists bin encoded,
    Utf8.encode text = Ok bin
    /\ call_tool cfg rt (lit "base64_converter") arguments
       = Ok (text_block (encoded_report (preview text) encoded))
    /\ List.length encoded = (4 * ((List.length bin + 2) / 3))%nat
    /\ Forall (fun c => In c alphabet \/ c = PAD) encoded.
Proof.
  intros Htext Hop Hs.
  destruct (utf8_round_trip text Hs) as (bin & Henc & Hbytes & _).
  exists bin, (b64encode bin). split; [exact Henc|]. split; [|split].
  - rewrite call_tool_base64_converter.
    unfold call_base64_converter, get_lower.
    rewrite (get_lookup _ _ _ _ Htext), (get_lookup _ _ _ _ Hop).
    cbn [as_str mbind result_bind].
    change (lower (chardb rt) (lit "encode")) with (lit "encode").
    change (bool_decide (lit "encode" = lit "encode")) with true.
    cbv iota. rewrite Henc. cbn [mbind result_bind].
    rewrite (decode_ascii _ (b64encode_ascii _ Hbytes)). reflexivity.
  - apply b64encode_length.
  - eapply List.Forall_impl; [|apply (b64encode_alphabet _ Hbytes)].
    intros c Hc. unfold significant in Hc.
    apply orb_prop in Hc as [Hc|Hc].
    + right. now apply N.eqb_eq.
    + left. assert (Hall : forallb (fun c =>
                  implb (match a2b c with Some _ => true | None => false end)
                        (contains alphabet c)) (codes 0 127) = true)
        by (vm_compute; reflexivity).
      destruct (a2b c) as [v|] eqn:Hv; [|discriminate Hc].
      assert (Hlt : c <= 127).
      { unfold a2b, Re.in_range in Hv.
        destruct ((65 <=? c) && (c <=? 90)) eqn:H1.
        { apply andb_prop in H1 as [_ H1]. apply N.leb_le in H1. lia. }
        destruct ((97 <=? c) && (c <=? 122)) eqn:H2.
        { apply andb_prop in H2 as [_ H2]. apply N.leb_le in H2. lia. }
        destruct ((48 <=? c) && (c <=? 57)) eqn:H3.
        { apply andb_prop in H3 as [_ H3]. apply N.leb_le in H3. lia. }
        destruct (N.eqb_spec c 43); [lia|].
        destruct (N.eqb_spec c 47); [lia | discriminate Hv]. }
      rewrite forallb_forall in Hall.
      specialize (Hall c (in_codes_range 0 127 c ltac:(lia))).
      rewrite Hv in Hall. cbn [implb] in Hall. now apply in_contains.
Qed.

Lemma base64_encoded_shape_witness :
  exists bin encoded,
    Utf8.encode [0x63; 0xE9] = Ok bin
    /\ call_tool Sample.config Sample.runtime (lit "base64_converter")
         {[ "text" := VStr [0x63; 0xE9]; "operation" := VStr (lit "encode") ]}
       = Ok (text_block (encoded_report [0x63; 0xE9] encoded))
    /\ List.length encoded = (4 * ((List.length bin + 2) / 3))%nat.
Proof.
  set (arguments := ({[ "text" := VStr [0x63; 0xE9];
                        "operation" := VStr (lit "encode") ]}
                     : gmap string value)).
  assert (Htext : arguments !! "text" = Some (VStr [0x63; 0xE9]))
    by (vm_compute; reflexivity).
  assert (Hop : arguments !! "operation" = Some (VStr (lit "encode")))
    by (vm_compute; reflexivity).
  assert (Hs : Schema.utf8_text [0x63; 0xE9]) by (repeat constructor).
  destruct (base64_encoded_shape Sample.config Sample.runtime arguments
              [0x63; 0xE9] Htext Hop Hs)
    as (bin & encoded & Hbin & Hcall & Hlen & _).
  exists bin, encoded. split; [exact Hbin|]. split; [exact Hcall | exact Hlen].
Defined.

(** ** clean_text never lengthens a text *)

Lemma sub_plus_length (p : N -> bool) (x : N) (inrun : bool) (s : pystr) :
  (List.length (Re.sub_plus_from p [x] inrun s) <= List.length s)%nat.
Proof.
  revert inrun. induction s as [|c s IH]; intros inrun; cbn; [lia|].
  destruct (p c).
  - destruct inrun; cbn; specialize (IH true); lia.
  - cbn. specialize (IH false). lia.
Qed.

Lemma strip_by_length (p : N -> bool) (s : pystr) :
  (List.length (strip_by p s) <= List.length s)%nat.
Proof.
  destruct (strip_by_block p s) as (l & r & H).
  rewrite H at 2. rewrite !length_app. lia.
Qed.

Lemma sub_newlines_length (n : nat) (s : pystr) :
  (List.length (Re.sub_newlines_from n s) <= n + List.length s)%nat.
Proof.
  revert n. induction s as [|c s IH]; intros n; cbn [Re.sub_newlines_from].
  - rewrite repeat_length. cbn. lia.
  - destruct (c =? LF).
    + specialize (IH (S n)). cbn [List.length]. lia.
    + rewrite length_app, repeat_length. cbn [List.length].
      specialize (IH 0%nat). lia.
Qed.

Lemma split_from_nonempty (sep : pystr) (k : nat) (s : pystr) :
  split_from sep k s <> [].
Proof.
  revert k. induction s as [|c s IH]; intros k; cbn; [discriminate|].
  destruct k; [|apply IH].
  destruct (is_prefix sep (c :: s)); [discriminate|].
  specialize (IH 0%nat). destruct (split_from sep 0 s); [congruence|discriminate].
Qed.

Lemma is_prefix_skipn (sep s : pystr) :
  is_prefix sep s = true -> s = sep ++ skipn (List.length sep) s.
Proof.
  revert s. induction sep as [|a sep IH]; intros s H; [reflexivity|].
  destruct s as [|c s]; [discriminate H|]. cbn in H.
  apply andb_prop in H as [Hac Hrest]. apply N.eqb_eq in Hac. subst c.
  cbn. f_equal. now apply IH.
Qed.

(** [sep.join(s.split(sep))] is [s]. *)
Lemma join_split_from (sep : pystr) (s : pystr) (k : nat) :
  sep <> [] -> join sep (split_from sep k s) = skipn k s.
Proof.
  intros Hsep. revert k. induction s as [|c s IH]; intros k.
  - cbn. now destruct k.
  - cbn [split_from]. destruct k as [|k]; [|apply IH].
    destruct (is_prefix sep (c :: s)) eqn:Hp.
    + pose proof (split_from_nonempty sep (List.length sep - 1) s) as Hne.
      pose proof (IH (List.length sep - 1)%nat) as IHk.
      destruct (split_from sep (List.length sep - 1) s) as [|h t];
        [congruence|].
      change (join sep ([] :: h :: t)) with (sep ++ join sep (h :: t)).
      rewrite IHk.
      etransitivity; [|symmetry; apply (is_prefix_skipn _ _ Hp)].
      destruct sep as [|a sep']; [congruence|].
      cbn [List.length skipn]. rewrite ?Nat.sub_0_r.
      replace (S (List.length sep') - 1)%nat with (List.length sep') by lia.
      reflexivity.
    + pose proof (split_from_nonempty sep 0 s) as Hne.
      pose proof (IH 0%nat) as IH0.
      destruct (split_from sep 0 s) as [|h t]; [congruence|].
      change (skipn 0 s) with s in IH0.
      change (skipn 0 (c :: s)) with (c :: s).
      rewrite <- IH0. cbn [cons_head]. destruct t; reflexivity.
Qed.

Lemma join_split (sep s : pystr) : sep <> [] -> join sep (split sep s) = s.
Proof. intros H. apply (join_split_from sep s 0 H). Qed.

Lemma join_map_length (sep : pystr) (f : pystr -> pystr) (l : list pystr) :
  (forall x, (List.length (f x) <= List.length x)%nat) ->
  (List.length (join sep (map f l)) <= List.length (join sep l))%nat.
Proof.
  intros Hf. induction l as [|p l IH]; [cbn; lia|].
  destruct l as [|q l].
  - cbn. apply Hf.
  - cbn [map join] in *. rewrite !length_app. specialize (Hf p). lia.
Qed.

Lemma strip_lines_length (s : pystr) :
  (List.length (strip_lines s) <= List.length s)%nat.
Proof.
  unfold strip_lines.
  rewrite <- (join_split nl s) at 2 by discriminate.
  apply join_map_length. intros x. apply strip_by_length.
Qed.

(** X11: in each of the three modes the cleaned text is no longer than
    the text, so the count of saved characters is never negative. *)
Theorem clean_never_lengthens (mode : value) (text cleaned : pystr) :
  clean mode text = Some cleaned ->
  (List.length cleaned <= List.length text)%nat
  /\ (0 <= Z.of_nat (List.length text) - Z.of_nat (List.length cleaned))%Z.
Proof.
  intros Hclean.
  assert (H : (List.length cleaned <= List.length text)%nat); [|split; lia].
  unfold clean in Hclean.
  destruct (eq_str mode (lit "basic")).
  { injection Hclean as <-. unfold clean_basic.
    etransitivity; [apply strip_lines_length|]. apply sub_plus_length. }
  destruct (eq_str mode (lit "aggressive")).
  { injection Hclean as <-. unfold clean_aggressive.
    etransitivity; [apply strip_by_length|]. apply sub_plus_length. }
  destruct (eq_str mode (lit "normalize")); [|discriminate Hclean].
  injection Hclean as <-. unfold clean_normalize.
  etransitivity; [apply strip_lines_length|].
  etransitivity; [apply sub_plus_length|].
  etransitivity; [apply (sub_newlines_length 0)|].
  cbn. apply strip_by_length.
Qed.

Lemma clean_never_lengthens_witness :
  (List.length (lit "a b") <= List.length (lit "  a   b  "))%nat.
Proof.
  apply (clean_never_lengthens (VStr (lit "aggressive")) (lit "  a   b  ")
           (lit "a b")).
  vm_compute. reflexivity.
Defined.

(** ** count_text: the counts of a text that is not blank *)

Lemma dropwhile_nil (p : N -> bool) (s : pystr) :
  dropwhile p s = [] <-> forallb p s = true.
Proof.
  induction s as [|c s IH]; cbn; [tauto|].
  destruct (p c); cbn; [exact IH | split; discriminate].
Qed.

(** A text is blank when all its characters are whitespace. *)
Lemma blank_forallb (s : pystr) : blank s = forallb isspace s.
Proof.
  unfold blank, strip, strip_by, rstrip_by, lstrip_by.
  destruct (forallb isspace s) eqn:Hall.
  - apply dropwhile_nil in Hall. rewrite Hall. reflexivity.
  - destruct (dropwhile isspace s) as [|c r] eqn:Hd.
    + apply dropwhile_nil in Hd. congruence.
    + pose proof (dropwhile_head isspace s) as Hh. rewrite Hd in Hh.
      cbn in Hh. apply negb_true_iff in Hh.
      destruct (dropwhile isspace (rev (c :: r))) as [|c' r'] eqn:Hd'.
      * apply dropwhile_nil in Hd'. rewrite forallb_forall in Hd'.
        specialize (Hd' c). rewrite <- in_rev in Hd'.
        rewrite Hd' in Hh by (left; reflexivity). discriminate Hh.
      * destruct (rev (c' :: r')) eqn:Hr; [|reflexivity].
        apply (f_equal (@List.length N)) in Hr.
        rewrite length_rev in Hr. discriminate Hr.
Qed.

Lemma forallb_join (p : N -> bool) (sep : pystr) (l : list pystr) :
  forallb p sep = true -> forallb (forallb p) l = true ->
  forallb p (join sep l) = true.
Proof.
  intros Hsep. induction l as [|x l IH]; [reflexivity|].
  cbn [forallb]. intros H. apply andb_prop in H as [Hx Hl].
  destruct l as [|y l]; [exact Hx|].
  change (join sep (x :: y :: l)) with (x ++ sep ++ join sep (y :: l)).
  rewrite !forallb_app, Hx, Hsep, (IH Hl). reflexivity.
Qed.

(** A text that is not blank has a segment that is not blank, for a
    separator made of whitespace. *)
Lemma nonblank_segment (sep text : pystr) :
  sep <> [] -> forallb isspace sep = true -> blank text = false ->
  nonblank (split sep text) <> [].
Proof.
  intros Hne Hsep Hblank Hnone.
  assert (Hall : forallb (forallb isspace) (split sep text) = true).
  { apply forallb_forall. intros seg Hseg.
    destruct (forallb isspace seg) eqn:Hs; [reflexivity|].
    assert (Hin : In seg (nonblank (split sep text))).
    { unfold nonblank. apply filter_In. split; [exact Hseg|].
      now rewrite blank_forallb, Hs. }
    rewrite Hnone in Hin. destruct Hin. }
  pose proof (forallb_join isspace sep _ Hsep Hall) as Hj.
  rewrite (join_split sep text Hne) in Hj.
  rewrite blank_forallb in Hblank. congruence.
Qed.

(** X12: for a text that is not blank, the paragraph count is the
    number of non-blank segments between blank-line separators and is
    at least 1; the count of non-blank lines is never used. *)
Theorem paragraphs_counts_segments (text : pystr) :
  blank text = false ->
  paragraphs text = List.length (nonblank (split (nl ++ nl) text))
  /\ (1 <= paragraphs text)%nat.
Proof.
  intros Hblank.
  pose proof (nonblank_segment (nl ++ nl) text ltac:(discriminate) eq_refl
                Hblank) as Hne.
  unfold paragraphs.
  destruct (nonblank (split (nl ++ nl) text)) as [|seg segs];
    [congruence|].
  cbn. split; [reflexivity | lia].
Qed.

Lemma paragraphs_counts_segments_witness :
  paragraphs Sample.two_lines
  = List.length (nonblank (split (nl ++ nl) Sample.two_lines)).
Proof.
  apply (paragraphs_counts_segments Sample.two_lines). reflexivity.
Defined.

Lemma split_char_length (a : N) (s : pystr) :
  List.length (split [a] s)
  = S (List.length (List.filter (fun c => a =? c) s)).
Proof.
  unfold split. induction s as [|c s IH]; [reflexivity|].
  cbn [split_from is_prefix List.filter List.length Nat.sub].
  rewrite andb_true_r. destruct (a =? c).
  - cbn [List.length]. now rewrite IH.
  - rewrite <- IH. destruct (split_from [a] 0 s) eqn:Hs; [|reflexivity].
    now apply split_from_nonempty in Hs.
Qed.

Lemma replace_char_filter (a : N) (s : pystr) :
  replace [a] [] s = List.filter (fun c => negb (a =? c)) s.
Proof.
  unfold replace. induction s as [|c s IH]; [reflexivity|].
  cbn [replace_from is_prefix List.filter List.length Nat.sub].
  rewrite andb_true_r. destruct (a =? c); cbn [negb app]; now rewrite IH.
Qed.

Lemma runs_from_length (p : N -> bool) (s cur : pystr) :
  (List.length (runs_from p cur s)
   <= List.length (List.filter p s)
      + match cur with [] => 0 | _ => 1 end)%nat.
Proof.
  revert cur. induction s as [|c s IH]; intros cur.
  - destruct cur; cbn; lia.
  - cbn [runs_from List.filter]. destruct (p c).
    + specialize (IH (c :: cur)). cbn [List.length] in *.
      destruct cur; lia.
    + destruct cur as [|x cur].
      * specialize (IH []). cbv iota in IH. lia.
      * specialize (IH []). cbv iota in IH. cbn [List.length]. lia.
Qed.

Lemma runs_from_nonempty (p : N -> bool) (s cur : pystr) :
  existsb p s = true -> runs_from p cur s <> [].
Proof.
  revert cur. induction s as [|c s IH]; intros cur H; [discriminate H|].
  cbn [runs_from existsb] in *. destruct (p c) eqn:Hc.
  - clear H IH. revert c cur Hc. induction s as [|d s IHs]; intros c cur Hc.
    + cbn. destruct (rev cur ++ [c]) eqn:Hr; [|discriminate].
      now destruct (rev cur).
    + cbn [runs_from]. destruct (p d) eqn:Hd; [now apply IHs|].
      discriminate.
  - cbn [orb] in H. destruct cur; [now apply IH | discriminate].
Qed.

Lemma filter_length_le (p : N -> bool) (s : pystr) :
  (List.length (List.filter p s) <= List.length s)%nat.
Proof.
  induction s as [|c s IH]; cbn; [lia|]. destruct (p c); cbn; lia.
Qed.

Lemma filter_filter_sub (p q : N -> bool) (s : pystr) :
  (forall c, p c = true -> q c = true) ->
  List.filter p (List.filter q s) = List.filter p s.
Proof.
  intros Hpq. induction s as [|c s IH]; [reflexivity|].
  cbn [List.filter]. destruct (q c) eqn:Hq.
  - cbn [List.filter]. now rewrite IH.
  - rewrite IH. destruct (p c) eqn:Hp; [|reflexivity].
    apply Hpq in Hp. congruence.
Qed.

(** X13: for a text that is not blank, the line count is one more than
    the number of newline characters, and
    1 <= words <= characters without spaces <= characters with spaces;
    the sentence count is at least 1. *)
Theorem count_text_bounds (text : pystr) :
  blank text = false ->
  lines text = S (List.length (List.filter (fun c => LF =? c) text))
  /\ (1 <= words text)%nat
  /\ (words text <= chars_without_spaces text)%nat
  /\ (chars_without_spaces text <= chars_with_spaces text)%nat
  /\ (1 <= sentences text)%nat.
Proof.
  intros Hblank. split; [apply split_char_length|].
  set (nonspace := fun c => negb (isspace c)).
  assert (Hex : existsb nonspace text = true).
  { rewrite blank_forallb in Hblank. clear -Hblank.
    induction text as [|c text IH]; [discriminate Hblank|].
    cbn [forallb existsb] in *. unfold nonspace at 1.
    destruct (isspace c); [cbn in *; now apply IH | reflexivity]. }
  split; [|split; [|split]].
  - unfold words, split_ws, runs. fold nonspace.
    pose proof (runs_from_nonempty nonspace text [] Hex) as Hne.
    destruct (runs_from nonspace [] text); [congruence | cbn; lia].
  - unfold words, split_ws, runs, chars_without_spaces. fold nonspace.
    change (lit " ") with [32]. change nl with [LF].
    rewrite !replace_char_filter.
    pose proof (runs_from_length nonspace text []) as Hle.
    cbn [Nat.add] in Hle. rewrite Nat.add_0_r in Hle.
    etransitivity; [exact Hle|].
    set (f1 := fun c => negb (32 =? c)).
    set (f2 := fun c => negb (LF =? c)).
    set (f3 := fun c => negb (TAB =? c)).
    rewrite <- (filter_filter_sub nonspace f1 text).
    2:{ intros c Hc. unfold nonspace, f1 in *.
        destruct (N.eqb_spec 32 c) as [<-|]; [discriminate Hc | reflexivity]. }
    rewrite <- (filter_filter_sub nonspace f2 (List.filter f1 text)).
    2:{ intros c Hc. unfold nonspace, f2 in *.
        destruct (N.eqb_spec LF c) as [<-|]; [discriminate Hc | reflexivity]. }
    rewrite <- (filter_filter_sub nonspace f3
                  (List.filter f2 (List.filter f1 text))).
    2:{ intros c Hc. unfold nonspace, f3 in *.
        destruct (N.eqb_spec TAB c) as [<-|]; [discriminate Hc | reflexivity]. }
    apply filter_length_le.
  - unfold chars_without_spaces, chars_with_spaces.
    change (lit " ") with [32]. change nl with [LF].
    rewrite !replace_char_filter.
    etransitivity; [apply filter_length_le|].
    etransitivity; [apply filter_length_le|]. apply filter_length_le.
  - unfold sentences.
    destruct (List.length (Re.findall_plus Re.terminal text)); cbn; lia.
Qed.

Lemma count_text_bounds_witness :
  (1 <= words Sample.hello)%nat
  /\ (words Sample.hello <= chars_without_spaces Sample.hello)%nat.
Proof.
  destruct (count_text_bounds Sample.hello eq_refl) as (_ & Hw & Hc & _).
  exact (conj Hw Hc).
Defined.

(** ** extract_data: the report *)




(** ** base64_converter: arguments of any type *)

(** X15: when [operation] is a string or is missing,
    [base64_converter] raises nothing whatever the type of [text] is:
    an operation other than encode and decode is answered with the
    invalid-operation message without looking at the text, and a text
    that is no string is answered with the reported Base64 error. *)
Theorem base64_text_of_any_type (cfg : config) (rt : runtime)
    (arguments : gmap string value) (operation : pystr) :
  get_lower rt arguments "operation" = Ok operation ->
  (exists report,
     call_tool cfg rt (lit "base64_converter") arguments
     = Ok (text_block report))
  /\ (operation <> lit "encode" -> operation <> lit "decode" ->
      call_tool cfg rt (lit "base64_converter") arguments
      = Ok (text_block invalid_operation_msg))
  /\ (Schema.is_str (get arguments "text" (VStr [])) = false ->
      (operation = lit "encode" ->
       call_tool cfg rt (lit "base64_converter") arguments
       = Ok (text_block (base64_error_msg (exn_str rt AttributeError))))
      /\ (operation = lit "decode" ->
          call_tool cfg rt (lit "base64_converter") arguments
          = Ok (text_block (base64_error_msg (exn_str rt TypeError))))).
Proof.
  intros Hop. rewrite call_tool_base64_converter.
  unfold call_base64_converter. rewrite Hop. cbn [mbind result_bind].
  set (text := get arguments "text" (VStr [])).
  split; [|split].
  - destruct (bool_decide (operation = lit "encode")).
    + destruct (as_str text) as [s|e]; cbn; [|eauto].
      destruct (Utf8.encode s) as [bin|e]; cbn; [|eauto].
      destruct (Utf8.decode (b64encode bin)); cbn; [|eauto].
      destruct (preview_value text); cbn; eauto.
    + destruct (bool_decide (operation = lit "decode")); [|cbn; eauto].
      destruct (b64decode text) as [bin|e]; cbn; [|eauto].
      destruct (Utf8.decode bin); cbn; [|eauto].
      destruct (preview_value text); cbn; eauto.
  - intros He Hd. now rewrite !bool_decide_eq_false_2.
  - intros Hstr. split.
    + intros ->. rewrite bool_decide_eq_true_2 by reflexivity.
      destruct text; try discriminate Hstr; reflexivity.
    + intros ->. rewrite bool_decide_eq_false_2 by discriminate.
      rewrite bool_decide_eq_true_2 by reflexivity.
      destruct text; try discriminate Hstr; reflexivity.
Qed.

Lemma base64_text_of_any_type_witness :
  call_tool Sample.config Sample.runtime (lit "base64_converter")
    {[ "text" := VInt 7; "operation" := VStr (lit "Decode") ]}
  = Ok (text_block (base64_error_msg (lit "error"))).
Proof.
  set (arguments := ({[ "text" := VInt 7;
                        "operation" := VStr (lit "Decode") ]}
                     : gmap string value)).
  assert (Hop : get_lower Sample.runtime arguments "operation"
                = Ok (lit "decode")) by (vm_compute; reflexivity).
  destruct (base64_text_of_any_type Sample.config Sample.runtime arguments
              (lit "decode") Hop) as (_ & _ & Htype).
  apply Htype; [vm_compute|]; reflexivity.
Defined.

(** ** clean_text: the aggressive mode *)

Lemma no_adjacent_app_l (p : N -> bool) (a b : pystr) :
  no_adjacent p (a ++ b) = true -> no_adjacent p a = true.
Proof.
  induction a as [|x a IH]; [reflexivity|].
  cbn [app no_adjacent]. destruct a as [|y a].
  - reflexivity.
  - cbn [app]. intros H. apply andb_prop in H as [H1 H2].
    rewrite H1. cbn [andb]. apply IH. exact H2.
Qed.

Lemma no_adjacent_app_r (p : N -> bool) (a b : pystr) :
  no_adjacent p (a ++ b) = true -> no_adjacent p b = true.
Proof.
  induction a as [|x a IH]; [trivial|].
  cbn [app no_adjacent]. destruct (a ++ b) as [|y r] eqn:Hab.
  - destruct a; [cbn in Hab; subst; trivial | discriminate Hab].
  - intros H. apply andb_prop in H as [_ H2]. apply IH. exact H2.
Qed.

(** Replacing the runs of [p] by one [x], itself in [p], leaves [x] as
    the only character of [p], and never twice in a row. *)
Lemma sub_plus_shape (p : N -> bool) (x : N) (s : pystr) (inrun : bool) :
  p x = true ->
  only_as p x (Re.sub_plus_from p [x] inrun s) = true
  /\ no_adjacent p (Re.sub_plus_from p [x] inrun s) = true
  /\ (inrun = true -> head_not p (Re.sub_plus_from p [x] inrun s) = true).
Proof.
  intros Hx. revert inrun. induction s as [|c s IH]; intros inrun.
  - now repeat split.
  - cbn [Re.sub_plus_from]. destruct (p c) eqn:Hc.
    + destruct (IH true) as (IH1 & IH2 & IH3). specialize (IH3 eq_refl).
      destruct inrun.
      * repeat split; auto.
      * split; [|split; [|discriminate]].
        -- cbn [app only_as forallb]. unfold only_as in IH1.
           now rewrite Hx, N.eqb_refl, IH1.
        -- cbn [app no_adjacent].
           destruct (Re.sub_plus_from p [x] true s) as [|b r]; [reflexivity|].
           rewrite IH2. cbn [head_not] in IH3.
           apply negb_true_iff in IH3. now rewrite IH3, andb_false_r.
    + destruct (IH false) as (IH1 & IH2 & _). split; [|split].
      * cbn [only_as forallb]. unfold only_as in IH1.
        now rewrite Hc, IH1.
      * cbn [no_adjacent].
        destruct (Re.sub_plus_from p [x] false s) as [|b r]; [reflexivity|].
        now rewrite Hc, IH2.
      * intros _. cbn [head_not]. now rewrite Hc.
Qed.

Lemma sub_plus_unchanged (p : N -> bool) (x : N) (s : pystr) (inrun : bool) :
  only_as p x s = true -> no_adjacent p s = true ->
  (inrun = true -> head_not p s = true) ->
  Re.sub_plus_from p [x] inrun s = s.
Proof.
  revert inrun. induction s as [|c s IH]; intros inrun Hall Hnd Hh;
    [reflexivity|].
  cbn [Re.sub_plus_from]. unfold only_as in Hall. cbn [forallb] in Hall.
  apply andb_prop in Hall as [Hc Hall].
  assert (Hs : no_adjacent p s = true).
  { cbn [no_adjacent] in Hnd. destruct s; [reflexivity|].
    now apply andb_prop in Hnd as [_ ?]. }
  destruct (p c) eqn:Hpc.
  - cbn [implb] in Hc. apply N.eqb_eq in Hc. subst c. destruct inrun.
    + specialize (Hh eq_refl). cbn in Hh. now rewrite Hpc in Hh.
    + cbn [app]. f_equal. apply IH; [exact Hall | exact Hs|]. intros _.
      cbn [no_adjacent] in Hnd. destruct s as [|b r]; [reflexivity|].
      apply andb_prop in Hnd as [Hnd _]. rewrite Hpc in Hnd.
      cbn [andb head_not] in *. exact Hnd.
  - f_equal. apply IH; [exact Hall | exact Hs | discriminate].
Qed.

Lemma clean_aggressive_shape (text : pystr) :
  single_spaced (clean_aggressive text) = true.
Proof.
  unfold clean_aggressive, strip.
  set (r := Re.sub_plus isspace (lit " ") text).
  destruct (sub_plus_shape isspace 32 text false eq_refl) as (Hall & Hnd & _).
  fold (Re.sub_plus isspace [32] text) in Hall, Hnd.
  change (Re.sub_plus isspace [32] text) with r in Hall, Hnd.
  destruct (strip_by_block isspace r) as (l & t & Hblock).
  destruct (strip_by_ends isspace r) as [Hh Hl].
  unfold single_spaced. rewrite Hh, Hl, !andb_true_r.
  rewrite Hblock in Hall, Hnd. unfold only_as in *.
  rewrite (forallb_block _ _ _ _ Hall).
  apply no_adjacent_app_r in Hnd. now apply no_adjacent_app_l in Hnd.
Qed.

Lemma clean_aggressive_unchanged (r : pystr) :
  single_spaced r = true -> clean_aggressive r = r.
Proof.
  unfold single_spaced. intros H.
  apply andb_prop in H as [H Hlast]. apply andb_prop in H as [H Hhead].
  apply andb_prop in H as [Hall Hnd].
  unfold clean_aggressive, Re.sub_plus.
  change (lit " ") with [32].
  rewrite (sub_plus_unchanged isspace 32 r false Hall Hnd) by discriminate.
  now apply strip_by_id.
Qed.

(** X16: the aggressive mode of [clean_text] is idempotent: in its
    result the only whitespace characters are single spaces between
    other characters, and cleaning the result again changes nothing. *)
Theorem clean_aggressive_idempotent (text cleaned : pystr) :
  clean (VStr (lit "aggressive")) text = Some cleaned ->
  single_spaced cleaned = true
  /\ clean (VStr (lit "aggressive")) cleaned = Some cleaned.
Proof.
  change (clean (VStr (lit "aggressive")) text)
    with (Some (clean_aggressive text)).
  change (clean (VStr (lit "aggressive")) cleaned)
    with (Some (clean_aggressive cleaned)).
  intros H. injection H as <-.
  pose proof (clean_aggressive_shape text) as Hshape.
  split; [exact Hshape|]. f_equal. now apply clean_aggressive_unchanged.
Qed.

Lemma clean_aggressive_idempotent_witness :
  clean (VStr (lit "aggressive")) (lit "a b") = Some (lit "a b").
Proof.
  apply (clean_aggressive_idempotent (lit "  a   b  ") (lit "a b")).
  vm_compute. reflexivity.
Defined.

(** ** clean_text: the basic mode keeps the lines *)

Lemma newlines_app (a b : pystr) :
  List.length (List.filter (fun c => LF =? c) (a ++ b))
  = (List.length (List.filter (fun c => (LF =? c)%N) a)
     + List.length (List.filter (fun c => (LF =? c)%N) b))%nat.
Proof. now rewrite List.filter_app, length_app. Qed.

Lemma sub_plus_spaces_newlines (inrun : bool) (s : pystr) :
  List.length (List.filter (fun c => LF =? c)
                 (Re.sub_plus_from (Re.is_char 32) (lit " ") inrun s))
  = List.length (List.filter (fun c => LF =? c) s).
Proof.
  revert inrun. induction s as [|c s IH]; intros inrun; [reflexivity|].
  cbn [Re.sub_plus_from]. unfold Re.is_char at 1.
  destruct (N.eqb_spec c 32) as [->|Hc].
  - change (List.filter (fun c => LF =? c) (32 :: s))
      with (List.filter (fun c => LF =? c) s).
    destruct inrun; [apply IH|].
    change (lit " " ++ Re.sub_plus_from (Re.is_char 32) (lit " ") true s)
      with (32 :: Re.sub_plus_from (Re.is_char 32) (lit " ") true s).
    change (List.filter (fun c => LF =? c)
              (32 :: Re.sub_plus_from (Re.is_char 32) (lit " ") true s))
      with (List.filter (fun c => LF =? c)
              (Re.sub_plus_from (Re.is_char 32) (lit " ") true s)).
    apply IH.
  - cbn [List.filter]. destruct (LF =? c); cbn [List.length]; now rewrite IH.
Qed.

(** The segments of a split on one character do not hold it. *)
Lemma split_char_segments (a : N) (s : pystr) :
  Forall (fun seg => List.filter (fun c => a =? c) seg = []) (split [a] s).
Proof.
  unfold split. induction s as [|c s IH]; [repeat constructor|].
  cbn [split_from is_prefix List.length Nat.sub]. rewrite andb_true_r.
  destruct (a =? c) eqn:Hc.
  - constructor; [reflexivity | exact IH].
  - destruct (split_from [a] 0 s) as [|h t].
    + repeat constructor. cbn. now rewrite Hc.
    + inversion_clear IH as [|? ? Hh Ht]. cbn [cons_head].
      constructor; [|exact Ht]. cbn [List.filter]. now rewrite Hc.
Qed.

Lemma join_newlines (l : list pystr) :
  Forall (fun seg => List.filter (fun c => LF =? c) seg = []) l ->
  List.length (List.filter (fun c => LF =? c) (join nl l))
  = (List.length l - 1)%nat.
Proof.
  induction 1 as [|x l Hx Hl IH]; [reflexivity|].
  destruct l as [|y l].
  - cbn [join]. now rewrite Hx.
  - change (join nl (x :: y :: l)) with (x ++ nl ++ join nl (y :: l)).
    rewrite !newlines_app, Hx, IH. cbn. lia.
Qed.

Lemma strip_lines_newlines (s : pystr) :
  List.length (List.filter (fun c => LF =? c) (strip_lines s))
  = List.length (List.filter (fun c => LF =? c) s).
Proof.
  unfold strip_lines. rewrite join_newlines.
  - rewrite length_map. change nl with [LF].
    rewrite split_char_length. cbn. lia.
  - apply List.Forall_map. change nl with [LF].
    eapply List.Forall_impl; [|apply split_char_segments].
    intros seg Hseg. cbn beta.
    destruct (strip_by_block isspace seg) as (l & r & Hblock).
    rewrite Hblock in Hseg. rewrite !List.filter_app in Hseg.
    apply List.app_eq_nil in Hseg as [_ Hseg].
    now apply List.app_eq_nil in Hseg as [Hseg _].
Qed.

(** X17: the basic mode of [clean_text] keeps the line structure: the
    cleaned text has as many lines as the text. *)
Theorem clean_basic_keeps_lines (text cleaned : pystr) :
  clean (VStr (lit "basic")) text = Some cleaned ->
  lines cleaned = lines text.
Proof.
  change (clean (VStr (lit "basic")) text) with (Some (clean_basic text)).
  intros H. injection H as <-.
  unfold lines. change nl with [LF]. rewrite !split_char_length.
  f_equal. unfold clean_basic. rewrite strip_lines_newlines.
  apply sub_plus_spaces_newlines.
Qed.

Lemma clean_basic_keeps_lines_witness :
  lines (lit "a b" ++ nl ++ lit "c")
  = lines (lit "  a   b  " ++ nl ++ lit "  c  ").
Proof.
  apply (clean_basic_keeps_lines (lit "  a   b  " ++ nl ++ lit "  c  ")
           (lit "a b" ++ nl ++ lit "c")).
  vm_compute. reflexivity.
Defined.

(** ** convert_case: the shape of snake and kebab results *)

(** X18: a snake result holds only lowercase ASCII letters, digits and
    underscores, with no underscore at either end and no two in a row;
    the same holds of a kebab result with hyphens. *)
Theorem snake_kebab_shape (U : ucd) (case_type text result : pystr)
    (sep : N) :
  (case_type = lit "snake" /\ sep = 95)
  \/ (case_type = lit "kebab" /\ sep = 45) ->
  convert U case_type text = Some result ->
  Forall (fun c => Re.in_range 97 122 c = true
                   \/ Re.in_range 48 57 c = true \/ c = sep) result
  /\ no_double sep result = true
  /\ head_not (Re.is_char sep) result = true
  /\ head_not (Re.is_char sep) (rev result) = true.
Proof.
  intros Hcase Hconv.
  assert (Hform : separated_form sep result = true).
  { destruct Hcase as [[-> ->]|[-> ->]].
    - change (Some (snake U text) = Some result) in Hconv.
      injection Hconv as <-. apply separated_has_form. vm_compute. reflexivity.
    - change (Some (kebab U text) = Some result) in Hconv.
      injection Hconv as <-. apply separated_has_form. vm_compute. reflexivity. }
  unfold separated_form in Hform.
  apply andb_prop in Hform as [Hform Hlast].
  apply andb_prop in Hform as [Hform Hhead].
  apply andb_prop in Hform as [Hall Hnd].
  repeat match goal with |- _ /\ _ => split end; try assumption.
  apply List.Forall_forall. intros c Hc. rewrite forallb_forall in Hall.
  specialize (Hall c Hc). unfold sepchar, lower_alnum in Hall.
  apply orb_prop in Hall as [Hall|Hall].
  - apply orb_prop in Hall as [Hall|Hall]; auto.
  - right. right. now apply N.eqb_eq.
Qed.

Lemma snake_kebab_shape_witness :
  no_double 95 (lit "hello_world_foo_bar") = true.
Proof.
  apply (snake_kebab_shape (chardb Sample.runtime) (lit "snake")
           (lit " Hello, World!! foo_bar ") (lit "hello_world_foo_bar") 95).
  - left. split; reflexivity.
  - vm_compute. reflexivity.
Defined.
